(** * tasks.py of MetalLB: argument checking, the layer-2 address range
      and the rendering of the dev-env configuration files

    A shallow embedding of [tasks.py].  Python [str] values are Rocq
    strings (one character per byte), [set] is [gset], [dict] is [gmap],
    integers are [Z]; exceptions are values of [exn] carried by an error
    monad, and the commands, files and directories the tasks touch live in
    an explicit [World]. *)

From Stdlib Require Import ZArith Ascii String.
From stdpp Require Import base tactics option list sorting strings pretty gmap sets.

Local Open Scope Z_scope.

(** ** Exceptions and the error monad *)

(** The exceptions the modelled code can raise.  [Exit] is
    [invoke.exceptions.Exit] with its [message]; [SystemExit] is what
    [sys.exit(code)] raises.  The others are built-in or library
    exceptions; those whose text the tasks format carry it. *)
Inductive exn : Type :=
  | Exit (message : string)
  | SystemExit (code : Z)
  | ValueError
  | AddressValueError
  | NetmaskValueError
  | IndexError
  | KeyError
  | FileNotFoundError (text : string)
  | FileExistsError (text : string)
  | IsADirectoryError (text : string)
  | UnexpectedExit (text : string).

Inductive outcome (A : Type) : Type :=
  | Return (a : A)
  | Raise (e : exn).
Arguments Return {A} a.
Arguments Raise {A} e.

#[global] Instance outcome_ret : MRet outcome := λ A a, Return a.
#[global] Instance outcome_bind : MBind outcome := λ A B k m,
  match m with
  | Return a => k a
  | Raise e => Raise e
  end.

#[global] Instance outcome_fmap : FMap outcome := λ A B f m,
  match m with
  | Return a => Return (f a)
  | Raise e => Raise e
  end.

(** [try: m except (classes): handler] *)
Definition try_except {A} (m : outcome A) (caught : exn → bool)
    (handler : exn → outcome A) : outcome A :=
  match m with
  | Return a => Return a
  | Raise e => if caught e then handler e else Raise e
  end.

(** ** The [str] methods the tasks use *)

Module Str.

Definition nl : string := String "010"%char "".
Definition dquote : string := String "034"%char "".
Definition squote : string := String "039"%char "".

(** [str.isspace] on one character, for the ASCII range. *)
Definition is_space (c : ascii) : bool :=
  let n := N_of_ascii c in
  ((9 <=? n) && (n <=? 13) || (28 <=? n) && (n <=? 32))%N.

Definition is_digit (c : ascii) : bool :=
  let n := N_of_ascii c in ((48 <=? n) && (n <=? 57))%N.

Fixpoint all_chars (p : ascii → bool) (s : string) : bool :=
  match s with
  | "" => true
  | String c s' => p c && all_chars p s'
  end.

Fixpoint contains_char (c : ascii) (s : string) : bool :=
  match s with
  | "" => false
  | String d s' => Ascii.eqb d c || contains_char c s'
  end.

(** [s.split(sep)] for a one-character separator: every separator
    cuts, so the result is never empty. *)
Fixpoint split (sep : ascii) (s : string) : list string :=
  match s with
  | "" => [""]
  | String c s' =>
      if Ascii.eqb c sep then "" :: split sep s'
      else match split sep s' with
           | w :: ws => String c w :: ws
           | [] => [String c ""]
           end
  end.

Fixpoint lstrip (s : string) : string :=
  match s with
  | "" => ""
  | String c s' => if is_space c then lstrip s' else s
  end.

Fixpoint rstrip (s : string) : string :=
  match s with
  | "" => ""
  | String c s' =>
      match rstrip s' with
      | "" => if is_space c then "" else String c ""
      | r => String c r
      end
  end.

(** [s.strip()] *)
Definition strip (s : string) : string := rstrip (lstrip s).

(** [s.split()]: the maximal runs of non-blank characters. *)
Fixpoint words_go (cur : option string) (s : string) : list string :=
  match s with
  | "" => option_list (String.rev <$> cur)
  | String c s' =>
      if is_space c
      then option_list (String.rev <$> cur) ++ words_go None s'
      else words_go (Some (String c (default "" cur))) s'
  end.
Definition split_ws (s : string) : list string := words_go None s.

(** [sep.join(l)] *)
Definition join (sep : string) (l : list string) : string :=
  String.concat sep l.

(** [s.replace(old, new)] scans from the left and replaces the
    occurrences of [old] that do not overlap.  [skip] counts the
    characters of a matched occurrence still to be passed over. *)
Fixpoint replace_go (old new : string) (skip : nat) (s : string) : string :=
  match s with
  | "" => ""
  | String c s' =>
      match skip with
      | S k => replace_go old new k s'
      | O =>
          if String.prefix old s
          then new +:+ replace_go old new (Nat.pred (String.length old)) s'
          else String c (replace_go old new 0 s')
      end
  end.

(** With an empty [old], Python puts [new] before every character and
    at the end. *)
Fixpoint replace_empty (new : string) (s : string) : string :=
  match s with
  | "" => new
  | String c s' => new +:+ String c (replace_empty new s')
  end.

Definition replace (old new s : string) : string :=
  match old with
  | "" => replace_empty new s
  | _ => replace_go old new 0 s
  end.

End Str.

(** [sorted(l)] on strings: the ascending list in the order of [str],
    which compares character by character.  Python's sort is stable; a
    sorted permutation under an antisymmetric order is unique, so the
    merge sort yields the same list. *)
Definition sorted (l : list string) : list string := merge_sort String.le l.

(** [l[-1]] *)
Definition last_item {A} (l : list A) : outcome A :=
  match last l with
  | Some x => Return x
  | None => Raise IndexError
  end.

(** ** Argument checking *)

Definition all_binaries : gset string :=
  list_to_set ["controller"; "speaker"; "mirror-server"].

Definition all_architectures : gset string :=
  list_to_set ["amd64"; "arm"; "arm64"; "ppc64le"; "s390x"].

(** Both checkers return the lines printed on standard output together
    with the outcome. *)
Fixpoint _check_architectures_loop (architectures : list string) (out : gset string)
  : list string * outcome (gset string) :=
  match architectures with
  | [] => ([], Return out)
  | arch :: rest =>
      if decide (arch = "all") then
        _check_architectures_loop rest (out ∪ all_architectures)
      else if decide (arch ∉ all_architectures) then
        (["unknown architecture " +:+ arch;
          "Supported architectures: "
            +:+ Str.join ", " (sorted (elements all_architectures))],
         Raise (SystemExit 1))
      else _check_architectures_loop rest ({[arch]} ∪ out)
  end.

Definition _check_architectures (architectures : list string)
  : list string * outcome (list string) :=
  match _check_architectures_loop architectures ∅ with
  | (printed, Return out) =>
      let out := if decide (out = ∅) then {[ "amd64" ]} ∪ out else out in
      (printed, Return (sorted (elements out)))
  | (printed, Raise e) => (printed, Raise e)
  end.

Fixpoint _check_binaries_loop (binaries : list string) (out : gset string)
  : list string * outcome (gset string) :=
  match binaries with
  | [] => ([], Return out)
  | binary :: rest =>
      if decide (binary = "all") then
        _check_binaries_loop rest (out ∪ all_binaries)
      else if decide (binary ∉ all_binaries) then
        (["Unknown binary " +:+ binary;
          "Known binaries: " +:+ Str.join ", " (sorted (elements all_binaries))],
         Raise (SystemExit 1))
      else _check_binaries_loop rest ({[binary]} ∪ out)
  end.

Definition _check_binaries (binaries : list string)
  : list string * outcome (list string) :=
  match _check_binaries_loop binaries ∅ with
  | (printed, Return out) =>
      let out :=
        if decide (out = ∅) then {[ "speaker" ]} ∪ ({[ "controller" ]} ∪ out)
        else out in
      (printed, Return (sorted (elements out)))
  | (printed, Raise e) => (printed, Raise e)
  end.


(** ** The part of the standard [ipaddress] module the tasks call

    [ip_network], [ip_interface], the [+] of an interface and an integer,
    [in] and the conversions to [str], following CPython's
    [Lib/ipaddress.py].  An address is its integer value [_ip]. *)

Module ipaddress.

Inductive family : Type := IPv4 | IPv6.

#[global] Instance family_eq_dec : EqDecision family.
Proof. solve_decision. Defined.

Definition _version (f : family) : Z :=
  match f with IPv4 => 4 | IPv6 => 6 end.

Definition _max_prefixlen (f : family) : Z :=
  match f with IPv4 => 32 | IPv6 => 128 end.

Definition _ALL_ONES (f : family) : Z := 2 ^ _max_prefixlen f - 1.

(** A constructor argument: an integer or a string. *)
Inductive arg : Type := AInt (z : Z) | AStr (s : string).

Record Address : Type := MkAddress {
  a_family : family;
  _ip : Z;
  _scope_id : option string
}.

Record Network : Type := MkNetwork {
  network_address : Address;
  netmask : Z;
  _prefixlen : Z
}.

(** An interface is an address together with its network. *)
Record Interface : Type := MkInterface {
  i_address : Address;
  network : Network
}.

Definition is_address_error (e : exn) : bool :=
  match e with AddressValueError | NetmaskValueError => true | _ => false end.
Definition is_ValueError (e : exn) : bool :=
  match e with
  | ValueError | AddressValueError | NetmaskValueError => true
  | _ => false
  end.
Definition is_AddressValueError (e : exn) : bool :=
  match e with AddressValueError => true | _ => false end.
Definition is_NetmaskValueError (e : exn) : bool :=
  match e with NetmaskValueError => true | _ => false end.

(** [int(s)] and [int(s, 16)] on strings already checked for their
    digits. *)
Definition digit_value (c : ascii) : Z := Z.of_N (N_of_ascii c) - 48.

Definition int10 (s : string) : Z :=
  foldl (λ acc c, 10 * acc + digit_value c) 0 (list_ascii_of_string s).

Definition hex_value (c : ascii) : option Z :=
  let n := Z.of_N (N_of_ascii c) in
  if (48 <=? n) && (n <=? 57) then Some (n - 48)
  else if (65 <=? n) && (n <=? 70) then Some (n - 55)
  else if (97 <=? n) && (n <=? 102) then Some (n - 87)
  else None.

Definition is_hex_digit (c : ascii) : bool := bool_decide (is_Some (hex_value c)).

Definition int16 (s : string) : Z :=
  foldl (λ acc c, 16 * acc + default 0 (hex_value c)) 0 (list_ascii_of_string s).

Definition hex_char (d : Z) : ascii :=
  default "0"%char (String.get (Z.to_nat d) "0123456789abcdef").

(** ['%x' % n] for [0 <= n] *)
Fixpoint hex_go (fuel : nat) (n : Z) (acc : string) : string :=
  match fuel with
  | O => acc
  | S k =>
      let acc' := String (hex_char (n `mod` 16)) acc in
      if n `div` 16 =? 0 then acc' else hex_go k (n `div` 16) acc'
  end.
Definition to_hex (n : Z) : string := hex_go (S (Z.to_nat (Z.log2 n))) n "".

Definition bit_length (x : Z) : Z :=
  if x =? 0 then 0 else Z.log2 (Z.abs x) + 1.

Definition _count_righthand_zero_bits (number bits : Z) : Z :=
  if number =? 0 then bits
  else Z.min bits (bit_length (Z.land (Z.lnot number) (number - 1))).

Definition _check_int_address (f : family) (address : Z) : outcome unit :=
  if address <? 0 then Raise AddressValueError
  else if _ALL_ONES f <? address then Raise AddressValueError
  else Return ().

Definition _ip_int_from_prefix (f : family) (prefixlen : Z) : Z :=
  Z.lxor (_ALL_ONES f) (Z.shiftr (_ALL_ONES f) prefixlen).

Definition _prefix_from_ip_int (f : family) (ip_int : Z) : outcome Z :=
  let trailing_zeroes := _count_righthand_zero_bits ip_int (_max_prefixlen f) in
  let prefixlen := _max_prefixlen f - trailing_zeroes in
  let leading_ones := Z.shiftr ip_int trailing_zeroes in
  let all_ones := Z.shiftl 1 prefixlen - 1 in
  if bool_decide (leading_ones ≠ all_ones) then Raise ValueError
  else Return prefixlen.

Definition _prefix_from_prefix_string (f : family) (prefixlen_str : string)
  : outcome Z :=
  if negb (bool_decide (prefixlen_str ≠ "") && Str.all_chars Str.is_digit prefixlen_str)
  then Raise NetmaskValueError
  else
    let prefixlen := int10 prefixlen_str in
    if negb ((0 <=? prefixlen) && (prefixlen <=? _max_prefixlen f))
    then Raise NetmaskValueError
    else Return prefixlen.

Definition _parse_octet (octet_str : string) : outcome Z :=
  if bool_decide (octet_str = "") then Raise ValueError
  else if negb (Str.all_chars Str.is_digit octet_str) then Raise ValueError
  else if (3 <? String.length octet_str)%nat then Raise ValueError
  else if bool_decide (octet_str ≠ "0") && bool_decide (String.get 0 octet_str = Some "0"%char)
  then Raise ValueError
  else
    let octet_int := int10 octet_str in
    if 255 <? octet_int then Raise ValueError else Return octet_int.

(** [int.from_bytes(bs, 'big')] *)
Definition from_bytes_big (bs : list Z) : Z :=
  foldl (λ acc b, 256 * acc + b) 0 bs.

Definition _ip_int_from_string_v4 (ip_str : string) : outcome Z :=
  if bool_decide (ip_str = "") then Raise AddressValueError
  else
    let octets := Str.split "." ip_str in
    if bool_decide (length octets ≠ 4%nat) then Raise AddressValueError
    else
      try_except (from_bytes_big <$> mapM _parse_octet octets)
        is_ValueError (λ _, Raise AddressValueError).

Definition _parse_hextet (hextet_str : string) : outcome Z :=
  if negb (Str.all_chars is_hex_digit hextet_str) then Raise ValueError
  else if (4 <? String.length hextet_str)%nat then Raise ValueError
  else if bool_decide (hextet_str = "") then Raise ValueError
  else Return (int16 hextet_str).

(** The search for the one ['::']: the indices [1 .. len(parts) - 2]
    whose part is empty. *)
Fixpoint find_skip_index (i : nat) (middle : list string) (skip_index : option nat)
  : outcome (option nat) :=
  match middle with
  | [] => Return skip_index
  | p :: rest =>
      if bool_decide (p = "") then
        match skip_index with
        | Some _ => Raise AddressValueError
        | None => find_skip_index (S i) rest (Some i)
        end
      else find_skip_index (S i) rest skip_index
  end.

Fixpoint parse_hextets (ip_int : Z) (parts : list string) : outcome Z :=
  match parts with
  | [] => Return ip_int
  | p :: rest =>
      h ← _parse_hextet p;
      parse_hextets (Z.lor (Z.shiftl ip_int 16) h) rest
  end.

Definition _HEXTET_COUNT : nat := 8.

Definition _ip_int_from_string_v6 (ip_str : string) : outcome Z :=
  if bool_decide (ip_str = "") then Raise AddressValueError
  else
    let parts := Str.split ":" ip_str in
    if (length parts <? 3)%nat then Raise AddressValueError
    else
      parts ←
        (if Str.contains_char "." (default "" (last parts)) then
           ipv4_int ← try_except
             (if Str.contains_char "/" (default "" (last parts))
              then Raise AddressValueError
              else _ip_int_from_string_v4 (default "" (last parts)))
             is_AddressValueError (λ _, Raise AddressValueError);
           Return (removelast parts
                   ++ [to_hex (Z.land (Z.shiftr ipv4_int 16) 65535);
                       to_hex (Z.land ipv4_int 65535)])
         else Return parts);
      if (S _HEXTET_COUNT <? length parts)%nat then Raise AddressValueError
      else
        skip_index ← find_skip_index 1 (removelast (tail parts)) None;
        let first_empty := bool_decide (head parts = Some "") in
        let last_empty := bool_decide (last parts = Some "") in
        '(parts_hi, parts_lo, parts_skipped) ←
          match skip_index with
          | Some skip_index =>
              let parts_hi := skip_index in
              let parts_lo := (length parts - skip_index - 1)%nat in
              parts_hi ←
                (if first_empty then
                   if bool_decide (Nat.pred parts_hi ≠ 0%nat)
                   then Raise AddressValueError
                   else Return (Nat.pred parts_hi)
                 else Return parts_hi);
              parts_lo ←
                (if last_empty then
                   if bool_decide (Nat.pred parts_lo ≠ 0%nat)
                   then Raise AddressValueError
                   else Return (Nat.pred parts_lo)
                 else Return parts_lo);
              if (_HEXTET_COUNT <? S (parts_hi + parts_lo))%nat
              then Raise AddressValueError
              else Return (parts_hi, parts_lo,
                           (_HEXTET_COUNT - (parts_hi + parts_lo))%nat)
          | None =>
              if bool_decide (length parts ≠ _HEXTET_COUNT)
              then Raise AddressValueError
              else if first_empty then Raise AddressValueError
              else if last_empty then Raise AddressValueError
              else Return (length parts, 0%nat, 0%nat)
          end;
        try_except
          (ip_int ← parse_hextets 0 (take parts_hi parts);
           let ip_int := Z.shiftl ip_int (16 * Z.of_nat parts_skipped) in
           parse_hextets ip_int (drop (length parts - parts_lo) parts))
          is_ValueError (λ _, Raise AddressValueError).

Definition _ip_int_from_string (f : family) (ip_str : string) : outcome Z :=
  match f with
  | IPv4 => _ip_int_from_string_v4 ip_str
  | IPv6 => _ip_int_from_string_v6 ip_str
  end.

(** [ip_str.partition('%')] and the check of the scope id. *)
Fixpoint partition_percent (s : string) : string * option string :=
  match s with
  | "" => ("", None)
  | String c s' =>
      if Ascii.eqb c "%" then ("", Some s')
      else let '(a, rest) := partition_percent s' in (String c a, rest)
  end.

Definition _split_scope_id (ip_str : string) : outcome (string * option string) :=
  match partition_percent ip_str with
  | (addr, None) => Return (addr, None)
  | (addr, Some scope_id) =>
      if bool_decide (scope_id = "") || Str.contains_char "%" scope_id
      then Raise AddressValueError
      else Return (addr, Some scope_id)
  end.

(** [IPv4Address(address)] and [IPv6Address(address)] *)
Definition Address_init (f : family) (address : arg) : outcome Address :=
  match address with
  | AInt n =>
      _ ← _check_int_address f n;
      Return (MkAddress f n None)
  | AStr addr_str =>
      if Str.contains_char "/" addr_str then Raise AddressValueError
      else
        match f with
        | IPv4 =>
            ip ← _ip_int_from_string_v4 addr_str;
            Return (MkAddress IPv4 ip None)
        | IPv6 =>
            '(addr_str, scope_id) ← _split_scope_id addr_str;
            ip ← _ip_int_from_string_v6 addr_str;
            Return (MkAddress IPv6 ip scope_id)
        end
  end.

Definition _prefix_from_ip_string (f : family) (ip_str : string) : outcome Z :=
  ip_int ← try_except (_ip_int_from_string f ip_str)
              is_AddressValueError (λ _, Raise NetmaskValueError);
  try_except (_prefix_from_ip_int f ip_int) is_ValueError (λ _,
    try_except (_prefix_from_ip_int f (Z.lxor ip_int (_ALL_ONES f)))
      is_ValueError (λ _, Raise NetmaskValueError)).

(** [_make_netmask(arg)]: the pair of the netmask and the prefix length. *)
Definition _make_netmask (f : family) (a : arg) : outcome (Z * Z) :=
  prefixlen ←
    match a with
    | AInt prefixlen =>
        if negb ((0 <=? prefixlen) && (prefixlen <=? _max_prefixlen f))
        then Raise NetmaskValueError
        else Return prefixlen
    | AStr s =>
        match f with
        | IPv4 =>
            try_except (_prefix_from_prefix_string f s)
              is_NetmaskValueError (λ _, _prefix_from_ip_string f s)
        | IPv6 => _prefix_from_prefix_string f s
        end
    end;
  Return (_ip_int_from_prefix f prefixlen, prefixlen).

(** The argument of a network or interface: one value, or the pair
    [(addr, mask)]. *)
Inductive spec : Type := One (a : arg) | Pair (addr mask : arg).

Definition _split_addr_prefix (f : family) (address : spec) : outcome (arg * arg) :=
  match address with
  | One (AInt n) => Return (AInt n, AInt (_max_prefixlen f))
  | Pair addr mask => Return (addr, mask)
  | One (AStr s) =>
      match Str.split "/" s with
      | [addr] => Return (AStr addr, AInt (_max_prefixlen f))
      | [addr; mask] => Return (AStr addr, AStr mask)
      | _ => Raise AddressValueError
      end
  end.

(** [IPv4Network(address, strict)] and [IPv6Network(address, strict)] *)
Definition Network_init (f : family) (address : spec) (strict : bool)
  : outcome Network :=
  '(addr, mask) ← _split_addr_prefix f address;
  network_address ← Address_init f addr;
  '(netmask, prefixlen) ← _make_netmask f mask;
  let packed := _ip network_address in
  if bool_decide (Z.land packed netmask ≠ packed) then
    if strict then Raise ValueError
    else
      Return (MkNetwork (MkAddress f (Z.land packed netmask) None) netmask prefixlen)
  else Return (MkNetwork network_address netmask prefixlen).

(** [IPv4Interface(address)] and [IPv6Interface(address)] *)
Definition Interface_init (f : family) (address : arg) : outcome Interface :=
  '(addr, mask) ← _split_addr_prefix f (One address);
  a ← Address_init f addr;
  n ← Network_init f (Pair addr mask) false;
  Return (MkInterface a n).

Definition ip_network (address : string) : outcome Network :=
  try_except (Network_init IPv4 (One (AStr address)) true) is_address_error (λ _,
    try_except (Network_init IPv6 (One (AStr address)) true) is_address_error (λ _,
      Raise ValueError)).

Definition ip_interface (address : string) : outcome Interface :=
  try_except (Interface_init IPv4 (AStr address)) is_address_error (λ _,
    try_except (Interface_init IPv6 (AStr address)) is_address_error (λ _,
      Raise ValueError)).

Definition i_family (i : Interface) : family := a_family (i_address i).
Definition n_family (n : Network) : family := a_family (network_address n).

(** [self + other]: [self.__class__(int(self) + other)] *)
Definition add (self : Interface) (other : Z) : outcome Interface :=
  Interface_init (i_family self) (AInt (_ip (i_address self) + other)).

(** [other in self] for an address or interface [other] *)
Definition contains (self : Network) (other : Address) : bool :=
  if bool_decide (_version (n_family self) ≠ _version (a_family other)) then false
  else bool_decide (Z.land (_ip other) (netmask self) = _ip (network_address self)).

(** [interface.ip] *)
Definition ip (self : Interface) : Address :=
  MkAddress (i_family self) (_ip (i_address self)) None.

(** [ip_int.to_bytes(4, 'big')] *)
Definition to_bytes4 (ip_int : Z) : list Z :=
  [Z.land (Z.shiftr ip_int 24) 255; Z.land (Z.shiftr ip_int 16) 255;
   Z.land (Z.shiftr ip_int 8) 255; Z.land ip_int 255].

Definition _string_from_ip_int_v4 (ip_int : Z) : string :=
  Str.join "." (pretty <$> to_bytes4 ip_int).

(** The scan of [_compress_hextets] for the first longest run of ["0"]:
    the state is (best start, best length, current start, current
    length), with [None] for the source's [-1]. *)
Definition compress_scan (hextets : list string)
  : option nat * nat * option nat * nat :=
  foldl (λ '(best_start, best_len, cur_start, cur_len) '(index, hextet),
    if bool_decide (hextet = "0") then
      let cur_len := S cur_len in
      let cur_start := match cur_start with None => Some index | s => s end in
      if (best_len <? cur_len)%nat
      then (cur_start, cur_len, cur_start, cur_len)
      else (best_start, best_len, cur_start, cur_len)
    else (best_start, best_len, None, 0%nat))
    (None, 0%nat, None, 0%nat) (imap (λ i h, (i, h)) hextets).

Definition _compress_hextets (hextets : list string) : list string :=
  match compress_scan hextets with
  | (Some best_start, best_len, _, _) =>
      if (1 <? best_len)%nat then
        let best_end := (best_start + best_len)%nat in
        let hextets :=
          if bool_decide (best_end = length hextets) then hextets ++ [""]
          else hextets in
        let hextets := take best_start hextets ++ [""] ++ drop best_end hextets in
        if bool_decide (best_start = 0%nat) then "" :: hextets else hextets
      else hextets
  | _ => hextets
  end.

Definition _string_from_ip_int_v6 (ip_int : Z) : string :=
  let hextets :=
    (λ i : nat, to_hex (Z.land (Z.shiftr ip_int (16 * (7 - Z.of_nat i))) 65535))
      <$> seq 0 8 in
  Str.join ":" (_compress_hextets hextets).

Definition _string_from_ip_int (f : family) (ip_int : Z) : string :=
  match f with
  | IPv4 => _string_from_ip_int_v4 ip_int
  | IPv6 => _string_from_ip_int_v6 ip_int
  end.

(** [str(address)] *)
Definition Address_str (a : Address) : string :=
  let ip_str := _string_from_ip_int (a_family a) (_ip a) in
  match _scope_id a with
  | Some scope_id => ip_str +:+ "%" +:+ scope_id
  | None => ip_str
  end.

(** [str(interface)] *)
Definition Interface_str (i : Interface) : string :=
  Address_str (i_address i) +:+ "/" +:+ pretty (_prefixlen (network i)).

(** [str(network)] *)
Definition Network_str (n : Network) : string :=
  Address_str (network_address n) +:+ "/" +:+ pretty (_prefixlen n).

End ipaddress.


(** ** The layer-2 address range *)

Import ipaddress.

(** [sorted(used_ipv6_list)] for a version 6 network, else
    [sorted(used_ipv4_list)] *)
Definition used_list (network : Network) (used_ipv4_list used_ipv6_list : list string)
  : list string :=
  if bool_decide (_version (n_family network) = 6) then sorted used_ipv6_list
  else sorted used_ipv4_list.

(** The body of the loop of [layer2_dev_env] over the subnets of the kind
    network: the network and the two ends of the service range. *)
Definition layer2_range (i : string) (used_ipv4_list used_ipv6_list : list string)
  : outcome (Network * Interface * Interface) :=
  network ← ip_network i;
  let used_list := used_list network used_ipv4_list used_ipv6_list in
  last_used ← last_item used_list;
  interface ← ip_interface last_used;
  service_ip_range_start ← add interface 1;
  last_used ← last_item used_list;
  interface ← ip_interface last_used;
  service_ip_range_end ← add interface 11;
  if negb (contains network (i_address service_ip_range_start)) then
    Raise (Exit ("network range " +:+ Interface_str service_ip_range_start
                 +:+ " is not in " +:+ Network_str network))
  else if negb (contains network (i_address service_ip_range_end)) then
    Raise (Exit ("network range " +:+ Interface_str service_ip_range_end
                 +:+ " is not in " +:+ Network_str network))
  else Return (network, service_ip_range_start, service_ip_range_end).

(** ['%s-%s' % (service_ip_range_start.ip, service_ip_range_end.ip)] *)
Definition range_str (service_ip_range_start service_ip_range_end : Interface) : string :=
  Address_str (ip service_ip_range_start) +:+ "-" +:+ Address_str (ip service_ip_range_end).

(** The loop itself, filling the dict [service_range]. *)
Fixpoint layer2_ranges (network_subnet_list used_ipv4_list used_ipv6_list : list string)
    (service_range : gmap Z string) : outcome (gmap Z string) :=
  match network_subnet_list with
  | [] => Return service_range
  | i :: rest =>
      '(network, service_ip_range_start, service_ip_range_end) ←
        layer2_range i used_ipv4_list used_ipv6_list;
      layer2_ranges rest used_ipv4_list used_ipv6_list
        (<[_version (n_family network) :=
             range_str service_ip_range_start service_ip_range_end]> service_range)
  end.

(** [d[k]] *)
Definition getitem (d : gmap Z string) (k : Z) : outcome string :=
  match d !! k with
  | Some v => Return v
  | None => Raise KeyError
  end.

(** ** Rendering the configuration files *)

Definition yaml_header : string := "# THIS FILE IS AUTOGENERATED" +:+ Str.nl.
Definition frr_header : string := "! THIS FILE IS AUTOGENERATED" +:+ Str.nl.

(** [dev-env/layer2/config.yaml] from the text of its template. *)
Definition render_layer2_config (template : string) (service_range : gmap Z string)
  : outcome string :=
  let layer2_config := yaml_header +:+ template in
  v4 ← getitem service_range 4;
  let layer2_config := Str.replace "SERVICE_V4_RANGE" v4 layer2_config in
  v6 ← getitem service_range 6;
  let layer2_config := Str.replace "SERVICE_V6_RANGE" v6 layer2_config in
  Return layer2_config.

(** ["NODE%d_IP" % n] *)
Definition node_token (n : nat) : string := "NODE" +:+ pretty n +:+ "_IP".

(** [frr-volume/bgpd.conf] from the text of its template: the loop over
    [range(0, len(node_ips))].  The index is always in range. *)
Definition render_bgpd_config (template : string) (node_ips : list string) : string :=
  let bgpd_config := frr_header +:+ template in
  foldl (λ bgpd_config n,
           Str.replace (node_token n) (default "" (node_ips !! n)) bgpd_config)
        bgpd_config (seq 0 (length node_ips)).

(** [dev-env/bgp/config.yaml] from the text of its template. *)
Definition render_mlb_config (template : string) (peer_address : string) : string :=
  let mlb_config := yaml_header +:+ template in
  Str.replace "PEER_ADDRESS" (Str.strip peer_address) mlb_config.

(** ** The world of the tasks: files, directories and commands *)

Inductive event : Type :=
  | Ran (command : string)
  | MadeDir (path : string)
  | Copied (src dst : string)
  | Wrote (path content : string).

(** [shell] gives the standard output of a command, or the text of the
    [UnexpectedExit] it ends with; [log] records what the task did, in
    order. *)
Record World : Type := MkWorld {
  cwd : string;
  files : gmap string string;
  dirs : gset string;
  shell : string → string + string;
  log : list event
}.

Definition record (e : event) (w : World) : World :=
  MkWorld (cwd w) (files w) (dirs w) (shell w) (log w ++ [e]).
Definition set_files (fs : gmap string string) (w : World) : World :=
  MkWorld (cwd w) fs (dirs w) (shell w) (log w).
Definition set_dirs (ds : gset string) (w : World) : World :=
  MkWorld (cwd w) (files w) ds (shell w) (log w).

(** A task is a function of the world that returns the new world and
    either a value or the exception raised. *)
Definition task (A : Type) : Type := World → World * outcome A.

#[global] Instance task_ret : MRet task := λ A a w, (w, Return a).
#[global] Instance task_bind : MBind task := λ A B k m w,
  match m w with
  | (w', Return a) => k a w'
  | (w', Raise e) => (w', Raise e)
  end.

Definition raise {A} (e : exn) : task A := λ w, (w, Raise e).
Definition modify (f : World → World) : task unit := λ w, (f w, Return ()).
Definition lift {A} (m : outcome A) : task A := λ w, (w, m).

(** [os.path.dirname(path)] *)
Fixpoint dirname (path : string) : string :=
  match path with
  | "" => ""
  | String c rest =>
      if Str.contains_char "/" rest then String c (dirname rest) else ""
  end.

(** [path] is [dir] or lies below it. *)
Definition below (dir path : string) : bool :=
  bool_decide (path = dir) || String.prefix (dir +:+ "/") path.

Definition oserror (errno : string) (path : string) : string :=
  errno +:+ ": " +:+ Str.squote +:+ path +:+ Str.squote.

(** [os.getcwd()] *)
Definition os_getcwd : task string := λ w, (w, Return (cwd w)).

(** [run(command)]: the standard output of the command. *)
Definition run (command : string) : task string := λ w,
  let w := record (Ran command) w in
  match shell w command with
  | inl stdout => (w, Return stdout)
  | inr text => (w, Raise (UnexpectedExit text))
  end.

(** [run('sudo rm -rf "%s"' % dir)]: when the command succeeds, [dir] and
    all below it are gone. *)
Definition run_rm_rf (dir : string) : task string :=
  stdout ← run ("sudo rm -rf " +:+ Str.dquote +:+ dir +:+ Str.dquote);
  _ ← modify (λ w, set_dirs (filter (λ p, ¬ below dir p) (dirs w))
                     (set_files (filter (λ kv, ¬ below dir kv.1) (files w)) w));
  mret stdout.

(** [os.mkdir(path)] *)
Definition os_mkdir (path : string) : task unit := λ w,
  if bool_decide (path ∈ dirs w ∨ is_Some (files w !! path)) then
    (w, Raise (FileExistsError (oserror "[Errno 17] File exists" path)))
  else if bool_decide (dirname path ∉ dirs w) then
    (w, Raise (FileNotFoundError (oserror "[Errno 2] No such file or directory" path)))
  else (record (MadeDir path) (set_dirs ({[path]} ∪ dirs w) w), Return ()).

(** [with open(path, 'r') as f: f.read()] *)
Definition read_file (path : string) : task string := λ w,
  if bool_decide (path ∈ dirs w) then
    (w, Raise (IsADirectoryError (oserror "[Errno 21] Is a directory" path)))
  else match files w !! path with
       | Some content => (w, Return content)
       | None =>
           (w, Raise (FileNotFoundError
                        (oserror "[Errno 2] No such file or directory" path)))
       end.

Definition store (path content : string) : task unit := λ w,
  if bool_decide (path ∈ dirs w) then
    (w, Raise (IsADirectoryError (oserror "[Errno 21] Is a directory" path)))
  else if bool_decide (dirname path ∉ dirs w) then
    (w, Raise (FileNotFoundError (oserror "[Errno 2] No such file or directory" path)))
  else (set_files (<[path := content]> (files w)) w, Return ()).

(** [with open(path, 'w') as f: f.write(content)] *)
Definition write_file (path content : string) : task unit :=
  _ ← store path content;
  modify (record (Wrote path content)).

(** [shutil.copyfile(src, dst)] for two different paths *)
Definition shutil_copyfile (src dst : string) : task unit :=
  content ← read_file src;
  _ ← store dst content;
  modify (record (Copied src dst)).

(** [str(e)] *)
Definition exn_str (e : exn) : string :=
  match e with
  | Exit message => message
  | SystemExit code => pretty code
  | FileNotFoundError text | FileExistsError text | IsADirectoryError text
  | UnexpectedExit text => text
  | _ => ""
  end.

Definition is_FileExistsError (e : exn) : bool :=
  match e with FileExistsError _ => true | _ => false end.
(** [except Exception]: everything modelled but [SystemExit]. *)
Definition is_Exception (e : exn) : bool :=
  match e with SystemExit _ => false | _ => true end.

(** [try: m  except FileExistsError: pass  except Exception as e: handler] *)
Definition try_task {A} (m : task A) (on_exists : task A) (handler : exn → task A)
  : task A := λ w,
  match m w with
  | (w', Return a) => (w', Return a)
  | (w', Raise e) =>
      if is_FileExistsError e then on_exists w'
      else if is_Exception e then handler e w'
      else (w', Raise e)
  end.

(** ** The two dev-env configurations *)

(** The commands whose output the two configurations read. *)
Definition inspect_subnets : string :=
  "docker network inspect -f " +:+ Str.dquote
  +:+ "{{ range .IPAM.Config}}{{.Subnet}} {{end}}" +:+ Str.dquote +:+ " kind".
Definition inspect_ipv4 : string :=
  "docker network inspect -f " +:+ Str.dquote
  +:+ "{{range .Containers}}{{.IPv4Address}} {{end}}" +:+ Str.dquote +:+ " kind".
Definition inspect_ipv6 : string :=
  "docker network inspect -f " +:+ Str.dquote
  +:+ "{{range .Containers}}{{.IPv6Address}} {{end}}" +:+ Str.dquote +:+ " kind".
Definition get_nodes : string :=
  "kubectl get nodes -o jsonpath='{.items[*].status.addresses"
  +:+ "[?(@.type==" +:+ Str.dquote +:+ "InternalIP" +:+ Str.dquote
  +:+ ")].address}{" +:+ Str.dquote +:+ "\n" +:+ Str.dquote +:+ "}'".
Definition inspect_frr : string :=
  "docker inspect -f " +:+ Str.dquote
  +:+ "{{ range .NetworkSettings.Networks}}{{.IPAddress}}{{end}}"
  +:+ Str.dquote +:+ " frr".

Definition layer2_dev_env : task unit :=
  stdout ← run inspect_subnets;
  let network_subnet_list := Str.split " " (Str.strip stdout) in
  stdout ← run inspect_ipv4;
  let used_ipv4_list := Str.split " " (Str.strip stdout) in
  stdout ← run inspect_ipv6;
  let used_ipv6_list := Str.split " " (Str.strip stdout) in
  service_range ← lift (layer2_ranges network_subnet_list used_ipv4_list used_ipv6_list ∅);
  cwd ← os_getcwd;
  let dev_env_dir := cwd +:+ "/dev-env/layer2" in
  template ← read_file (dev_env_dir +:+ "/config.yaml.tmpl");
  layer2_config ← lift (render_layer2_config template service_range);
  _ ← write_file (dev_env_dir +:+ "/config.yaml") layer2_config;
  _ ← run ("kubectl apply -f " +:+ dev_env_dir +:+ "/config.yaml");
  mret ().

Definition copy_files : list string := ["zebra.conf"; "daemons"; "vtysh.conf"].

Fixpoint copy_static (dev_env_dir frr_volume_dir : string) (fs : list string)
  : task unit :=
  match fs with
  | [] => mret ()
  | f :: rest =>
      _ ← shutil_copyfile (dev_env_dir +:+ "/frr/" +:+ f) (frr_volume_dir +:+ "/" +:+ f);
      copy_static dev_env_dir frr_volume_dir rest
  end.

Definition bgp_dev_env : task unit :=
  cwd ← os_getcwd;
  let dev_env_dir := cwd +:+ "/dev-env/bgp" in
  let frr_volume_dir := dev_env_dir +:+ "/frr-volume" in
  stdout ← run get_nodes;
  let node_ips := Str.split_ws (Str.strip stdout) in
  if bool_decide (length node_ips ≠ 3%nat) then
    raise (Exit ("Expected 3 nodes, got " +:+ pretty (length node_ips)))
  else
    _ ← try_task
          (_ ← run_rm_rf frr_volume_dir; os_mkdir frr_volume_dir)
          (mret ())
          (λ e, raise (Exit ("Failed to create frr-volume directory: " +:+ exn_str e)));
    _ ← copy_static dev_env_dir frr_volume_dir copy_files;
    template ← read_file (dev_env_dir +:+ "/frr/bgpd.conf.tmpl");
    let bgpd_config := render_bgpd_config template node_ips in
    _ ← write_file (frr_volume_dir +:+ "/bgpd.conf") bgpd_config;
    _ ← run ("for frr in $(docker ps -a -f name=frr --format {{.Names}}) ; do "
             +:+ "    docker rm -f $frr ; " +:+ "done");
    _ ← run ("docker run -d --privileged --network kind --rm --name frr --volume "
             +:+ frr_volume_dir +:+ ":/etc/frr " +:+ "frrouting/frr:v7.5.1");
    peer_address ← run inspect_frr;
    template ← read_file (dev_env_dir +:+ "/config.yaml.tmpl");
    let mlb_config := render_mlb_config template peer_address in
    _ ← write_file (dev_env_dir +:+ "/config.yaml") mlb_config;
    _ ← run ("kubectl apply -f " +:+ dev_env_dir +:+ "/config.yaml");
    mret ().

(** ** Definitions the statements use *)

(** The set the loop of a checker builds from valid names. *)
Definition named (all : gset string) (names : list string) : gset string :=
  (if decide ("all" ∈ names) then all else ∅)
  ∪ list_to_set (filter (λ a, a ≠ "all") names).

(** The names a checker accepts. *)
Definition known (all : gset string) (a : string) : Prop :=
  a = "all" ∨ a ∈ all.

#[global] Instance known_dec all a : Decision (known all a).
Proof. unfold known. apply _. Defined.

(** The interface built from an integer: the address itself, on the
    network of that single address. *)
Definition host (f : family) (n : Z) : Interface :=
  MkInterface (MkAddress f n None)
    (MkNetwork (MkAddress f n None) (_ALL_ONES f) (_max_prefixlen f)).

(** The order of addresses by their value. *)
Definition address_le (a b : Interface) : Prop :=
  _ip (i_address a) ≤ _ip (i_address b).

#[global] Instance address_le_dec : RelDecision address_le.
Proof. intros a b. unfold address_le. apply _. Defined.

(** The reading of the specification: the used addresses in ascending
    order of their value, and the last of them. *)
Definition spec_sorted_by_address (used : list Interface) : list Interface :=
  merge_sort address_le used.

Definition spec_highest_used (used : list string) : outcome Interface :=
  interfaces ← mapM ip_interface used;
  last_item (spec_sorted_by_address interfaces).

(** The characters of the text of an IPv4 or IPv6 address. *)
Definition is_sep (c : ascii) : bool := Ascii.eqb c "." || Ascii.eqb c ":".
Definition is_address_char (c : ascii) : bool := is_hex_digit c || is_sep c.

Fixpoint has_char (p : ascii → bool) (s : string) : bool :=
  match s with
  | "" => false
  | String c s' => p c || has_char p s'
  end.

(** [address_text a]: [a] is written with digits, hexadecimal letters,
    dots and colons, and has a dot or a colon. *)
Definition address_text (a : string) : Prop :=
  Str.all_chars is_address_char a = true ∧ has_char is_sep a = true.

#[global] Instance address_text_dec a : Decision (address_text a).
Proof. unfold address_text. apply _. Defined.

(** The reading of the specification: every occurrence of a token is
    replaced by its value in one pass from the left, and every other
    character is kept. *)
Fixpoint substitute_go (pairs : list (string * string)) (skip : nat) (s : string)
  : string :=
  match s with
  | "" => ""
  | String c s' =>
      match skip with
      | S k => substitute_go pairs k s'
      | O =>
          match List.find (λ p, String.prefix p.1 s) pairs with
          | Some (token, value) =>
              value +:+ substitute_go pairs (Nat.pred (String.length token)) s'
          | None => String c (substitute_go pairs 0 s')
          end
      end
  end.

Definition spec_substitute (pairs : list (string * string)) (s : string) : string :=
  substitute_go pairs 0 s.

(** [guarded w]: [w] has no dot or colon, and every non-empty tail of it
    has a character that is not of an address. *)
Fixpoint guarded (w : string) : bool :=
  match w with
  | "" => true
  | String a w' =>
      negb (is_sep a) && has_char (λ c, negb (is_address_char c)) w && guarded w'
  end.

(** The tokens of the nodes with their addresses, by position. *)
Definition node_pairs (node_ips : list string) : list (string * string) :=
  imap (λ n a, (node_token n, a)) node_ips.

(** The substitutions of the loop of [bgp_dev_env], on the template alone. *)
Definition substitute_nodes (node_ips : list string) (ns : list nat) (text : string)
  : string :=
  foldl (λ text n, Str.replace (node_token n) (default "" (node_ips !! n)) text)
    text ns.

(** A logic for tasks.  [inv w0 protected W w]: since [w0] the working
    directory and the shell are the same, the files at the protected
    paths are untouched, and every file written with [write_file]
    satisfies [W]. *)
Definition event_ok (W : string → string → Prop) (e : event) : Prop :=
  match e with
  | Wrote path content => W path content
  | _ => True
  end.

Definition inv (w0 : World) (protected : string → Prop) (W : string → string → Prop)
    (w : World) : Prop :=
  cwd w = cwd w0 ∧ shell w = shell w0
  ∧ (∀ p, protected p → files w !! p = files w0 !! p)
  ∧ ∃ new, log w = log w0 ++ new ∧ Forall (event_ok W) new.

(** [triple w0 protected W m R]: [m] keeps the invariant, however it
    ends, and a value it returns satisfies [R]. *)
Definition triple (w0 : World) (protected : string → Prop) (W : string → string → Prop)
    {A} (m : task A) (R : A → Prop) : Prop :=
  ∀ w, inv w0 protected W w →
    inv w0 protected W (m w).1 ∧ ∀ a, (m w).2 = Return a → R a.

(** The directories, the templates and the rendered files of the two
    configurations. *)
Definition bgp_dir (w : World) : string := cwd w +:+ "/dev-env/bgp".
Definition layer2_dir (w : World) : string := cwd w +:+ "/dev-env/layer2".

Definition bgp_protected (w : World) (path : string) : Prop :=
  path = bgp_dir w +:+ "/frr/bgpd.conf.tmpl" ∨ path = bgp_dir w +:+ "/config.yaml.tmpl".

(** The files [bgp_dev_env] renders, as functions of the templates and of
    the output of the commands in the world it starts from. *)
Definition bgp_written (w : World) (path content : string) : Prop :=
  (path = (bgp_dir w +:+ "/frr-volume") +:+ "/bgpd.conf"
   ∧ ∃ stdout template,
       shell w get_nodes = inl stdout
       ∧ length (Str.split_ws (Str.strip stdout)) = 3%nat
       ∧ files w !! (bgp_dir w +:+ "/frr/bgpd.conf.tmpl") = Some template
       ∧ content = render_bgpd_config template (Str.split_ws (Str.strip stdout)))
  ∨ (path = bgp_dir w +:+ "/config.yaml"
     ∧ ∃ peer_address template,
         shell w inspect_frr = inl peer_address
         ∧ files w !! (bgp_dir w +:+ "/config.yaml.tmpl") = Some template
         ∧ content = render_mlb_config template peer_address).

Definition layer2_protected (w : World) (path : string) : Prop :=
  path = layer2_dir w +:+ "/config.yaml.tmpl".

Definition layer2_written (w : World) (path content : string) : Prop :=
  path = layer2_dir w +:+ "/config.yaml"
  ∧ ∃ subnets used4 used6 service_range template,
      shell w inspect_subnets = inl subnets
      ∧ shell w inspect_ipv4 = inl used4
      ∧ shell w inspect_ipv6 = inl used6
      ∧ layer2_ranges (Str.split " " (Str.strip subnets))
          (Str.split " " (Str.strip used4)) (Str.split " " (Str.strip used6)) ∅
        = Return service_range
      ∧ files w !! (layer2_dir w +:+ "/config.yaml.tmpl") = Some template
      ∧ render_layer2_config template service_range = Return content.


(** [writes m w path content]: run from [w], the task [m] writes
    [content] to [path] with [write_file]. *)
Definition writes {A} (m : task A) (w : World) (path content : string) : Prop :=
  ∃ new, log (m w).1 = log w ++ new ∧ Wrote path content ∈ new.

(** A world in which both configurations succeed. *)
Definition sample_shell (nodes : string) (command : string) : string + string :=
  if bool_decide (command = get_nodes) then inl (nodes +:+ Str.nl)
  else if bool_decide (command = inspect_frr) then inl ("172.18.0.5" +:+ Str.nl)
  else if bool_decide (command = inspect_subnets)
  then inl ("172.18.0.0/16 fc00:f853:ccd:e793::/64 " +:+ Str.nl)
  else if bool_decide (command = inspect_ipv4)
  then inl ("172.18.0.3/16 172.18.0.2/16 172.18.0.4/16 " +:+ Str.nl)
  else if bool_decide (command = inspect_ipv6)
  then inl ("fc00:f853:ccd:e793::3/64 fc00:f853:ccd:e793::2/64 fc00:f853:ccd:e793::4/64 "
            +:+ Str.nl)
  else inl "".

Definition sample_world (nodes : string) : World :=
  MkWorld "/src"
    (list_to_map
       [("/src/dev-env/bgp/frr/zebra.conf", "hostname frr");
        ("/src/dev-env/bgp/frr/daemons", "bgpd=yes");
        ("/src/dev-env/bgp/frr/vtysh.conf", "service integrated-vtysh-config");
        ("/src/dev-env/bgp/frr/bgpd.conf.tmpl",
         "neighbor NODE0_IP peer-group; neighbor NODE1_IP, NODE2_IP");
        ("/src/dev-env/bgp/config.yaml.tmpl", "peer-address: PEER_ADDRESS");
        ("/src/dev-env/bgp/frr-volume/bgpd.conf", "stale");
        ("/src/dev-env/layer2/config.yaml.tmpl",
         "- SERVICE_V4_RANGE; - SERVICE_V6_RANGE")])
    (list_to_set ["/src"; "/src/dev-env"; "/src/dev-env/bgp"; "/src/dev-env/layer2";
                  "/src/dev-env/bgp/frr"; "/src/dev-env/bgp/frr-volume"])
    (sample_shell nodes) [].


(** ** More on the checkers *)

(** The set a checker sorts: the named one, or its default. *)
Definition checked (all default : gset string) (names : list string) : gset string :=
  if decide (named all names = ∅) then default else named all names.


(** ** What the layer-2 loop takes from its inputs *)

(** The used list of the version of a network, before it is sorted. *)
Definition used_of (network : Network) (used_ipv4_list used_ipv6_list : list string)
  : list string :=
  if bool_decide (_version (n_family network) = 6) then used_ipv6_list
  else used_ipv4_list.


(** ** Reading the output of the commands *)

(** A word: not empty, and without white space. *)
Definition word (s : string) : Prop :=
  s ≠ "" ∧ Str.all_chars (λ c, negb (Str.is_space c)) s = true.

#[global] Instance word_dec s : Decision (word s).
Proof. unfold word. apply _. Defined.


(** ** Running the configurations step by step *)

(** The command that applies a rendered configuration. *)
Definition kubectl_apply (dir : string) : string :=
  "kubectl apply -f " +:+ dir +:+ "/config.yaml".

(** The three commands of [bgp_dev_env] that take the volume directory
    or nothing. *)
Definition rm_rf (dir : string) : string :=
  "sudo rm -rf " +:+ Str.dquote +:+ dir +:+ Str.dquote.
Definition remove_frr : string :=
  "for frr in $(docker ps -a -f name=frr --format {{.Names}}) ; do "
  +:+ "    docker rm -f $frr ; " +:+ "done".
Definition start_frr (frr_volume_dir : string) : string :=
  "docker run -d --privileged --network kind --rm --name frr --volume "
  +:+ frr_volume_dir +:+ ":/etc/frr " +:+ "frrouting/frr:v7.5.1".


(** The files of the volume and the configuration after [bgp_dev_env]. *)
Definition bgp_files (w : World)
    (nodes peer_address zebra daemons vtysh bgpd_template mlb_template : string)
  : gmap string string :=
  let frr_volume_dir := bgp_dir w +:+ "/frr-volume" in
  <[bgp_dir w +:+ "/config.yaml" := render_mlb_config mlb_template peer_address]>
    (<[frr_volume_dir +:+ "/bgpd.conf" :=
         render_bgpd_config bgpd_template (Str.split_ws (Str.strip nodes))]>
       (<[frr_volume_dir +:+ "/vtysh.conf" := vtysh]>
          (<[frr_volume_dir +:+ "/daemons" := daemons]>
             (<[frr_volume_dir +:+ "/zebra.conf" := zebra]>
                (filter (λ kv, ¬ below frr_volume_dir kv.1) (files w)))))).

(** What [bgp_dev_env] does, in order, when it succeeds. *)
Definition bgp_events (w : World)
    (nodes peer_address bgpd_template mlb_template : string) : list event :=
  let dev_env_dir := bgp_dir w in
  let frr_volume_dir := dev_env_dir +:+ "/frr-volume" in
  [Ran get_nodes; Ran (rm_rf frr_volume_dir); MadeDir frr_volume_dir;
   Copied (dev_env_dir +:+ "/frr/zebra.conf") (frr_volume_dir +:+ "/zebra.conf");
   Copied (dev_env_dir +:+ "/frr/daemons") (frr_volume_dir +:+ "/daemons");
   Copied (dev_env_dir +:+ "/frr/vtysh.conf") (frr_volume_dir +:+ "/vtysh.conf");
   Wrote (frr_volume_dir +:+ "/bgpd.conf")
     (render_bgpd_config bgpd_template (Str.split_ws (Str.strip nodes)));
   Ran remove_frr; Ran (start_frr frr_volume_dir); Ran inspect_frr;
   Wrote (dev_env_dir +:+ "/config.yaml") (render_mlb_config mlb_template peer_address);
   Ran (kubectl_apply dev_env_dir)].

(** The rest of [bgp_dev_env] once the static files are copied: the two
    renderings and the commands between and after them. *)
Definition bgp_render (dev_env_dir frr_volume_dir : string) (node_ips : list string)
  : task unit :=
  template ← read_file (dev_env_dir +:+ "/frr/bgpd.conf.tmpl");
  let bgpd_config := render_bgpd_config template node_ips in
  _ ← write_file (frr_volume_dir +:+ "/bgpd.conf") bgpd_config;
  _ ← run ("for frr in $(docker ps -a -f name=frr --format {{.Names}}) ; do "
           +:+ "    docker rm -f $frr ; " +:+ "done");
  _ ← run ("docker run -d --privileged --network kind --rm --name frr --volume "
           +:+ frr_volume_dir +:+ ":/etc/frr " +:+ "frrouting/frr:v7.5.1");
  peer_address ← run inspect_frr;
  template ← read_file (dev_env_dir +:+ "/config.yaml.tmpl");
  let mlb_config := render_mlb_config template peer_address in
  _ ← write_file (dev_env_dir +:+ "/config.yaml") mlb_config;
  _ ← run ("kubectl apply -f " +:+ dev_env_dir +:+ "/config.yaml");
  mret ().

(** The files once the static files are copied into the emptied volume. *)
Definition copied_files (w : World) (zebra daemons vtysh : string) : gmap string string :=
  let frr_volume_dir := bgp_dir w +:+ "/frr-volume" in
  <[frr_volume_dir +:+ "/vtysh.conf" := vtysh]>
    (<[frr_volume_dir +:+ "/daemons" := daemons]>
       (<[frr_volume_dir +:+ "/zebra.conf" := zebra]>
          (filter (λ kv, ¬ below frr_volume_dir kv.1) (files w)))).

(** What [bgp_dev_env] does up to there. *)
Definition copied_events (w : World) : list event :=
  let dev_env_dir := bgp_dir w in
  let frr_volume_dir := dev_env_dir +:+ "/frr-volume" in
  [Ran get_nodes; Ran (rm_rf frr_volume_dir); MadeDir frr_volume_dir;
   Copied (dev_env_dir +:+ "/frr/zebra.conf") (frr_volume_dir +:+ "/zebra.conf");
   Copied (dev_env_dir +:+ "/frr/daemons") (frr_volume_dir +:+ "/daemons");
   Copied (dev_env_dir +:+ "/frr/vtysh.conf") (frr_volume_dir +:+ "/vtysh.conf")].

(** What [bgp_dev_env] needs to succeed in [w]: every command succeeds,
    three nodes are listed, no path is both a file and a directory,
    [dev-env/bgp] is a directory, [config.yaml] is not, and the three
    static files and the two templates are there. *)
Definition bgp_ready (w : World)
    (nodes peer_address zebra daemons vtysh bgpd_template mlb_template : string) : Prop :=
  (∀ command, ∃ stdout, shell w command = inl stdout)
  ∧ shell w get_nodes = inl nodes
  ∧ length (Str.split_ws (Str.strip nodes)) = 3%nat
  ∧ shell w inspect_frr = inl peer_address
  ∧ (∀ path, is_Some (files w !! path) → path ∉ dirs w)
  ∧ bgp_dir w ∈ dirs w
  ∧ ((bgp_dir w +:+ "/config.yaml") ∉ dirs w)
  ∧ files w !! (bgp_dir w +:+ "/frr/zebra.conf") = Some zebra
  ∧ files w !! (bgp_dir w +:+ "/frr/daemons") = Some daemons
  ∧ files w !! (bgp_dir w +:+ "/frr/vtysh.conf") = Some vtysh
  ∧ files w !! (bgp_dir w +:+ "/frr/bgpd.conf.tmpl") = Some bgpd_template
  ∧ files w !! (bgp_dir w +:+ "/config.yaml.tmpl") = Some mlb_template.

(** The four files of the volume after [bgp_dev_env]. *)
Definition volume_files (w : World) (nodes zebra daemons vtysh bgpd_template : string)
  : gmap string string :=
  let frr_volume_dir := bgp_dir w +:+ "/frr-volume" in
  <[frr_volume_dir +:+ "/bgpd.conf" :=
      render_bgpd_config bgpd_template (Str.split_ws (Str.strip nodes))]>
    (<[frr_volume_dir +:+ "/vtysh.conf" := vtysh]>
       (<[frr_volume_dir +:+ "/daemons" := daemons]>
          (<[frr_volume_dir +:+ "/zebra.conf" := zebra]> ∅))).


(** ** What the two configurations leave alone *)

(** The paths [bgp_dev_env] may change: the volume and [config.yaml]. *)
Definition bgp_kept (w : World) (path : string) : Prop :=
  below (bgp_dir w +:+ "/frr-volume") path = false
  ∧ path ≠ bgp_dir w +:+ "/config.yaml".

Definition layer2_kept (w : World) (path : string) : Prop :=
  path ≠ layer2_dir w +:+ "/config.yaml".

(** A network with an IPv4 subnet only. *)
Definition ipv4_only_shell (command : string) : string + string :=
  if bool_decide (command = inspect_subnets) then inl ("172.18.0.0/16 " +:+ Str.nl)
  else if bool_decide (command = inspect_ipv4)
  then inl ("172.18.0.3/16 172.18.0.2/16 " +:+ Str.nl)
  else inl ("  " +:+ Str.nl).


(** ** [checkpatch] *)

Definition is_UnexpectedExit (e : exn) : bool :=
  match e with UnexpectedExit _ => true | _ => false end.

(** [try: m  except UnexpectedExit: handler] *)
Definition try_UnexpectedExit {A} (m : task A) (handler : task A) : task A := λ w,
  match m w with
  | (w', Return a) => (w', Return a)
  | (w', Raise e) => if is_UnexpectedExit e then handler w' else (w', Raise e)
  end.

Definition checkpatch_command : string :=
  "git diff $(diff -u <(git rev-list --first-parent HEAD) "
  +:+ " <(git rev-list --first-parent origin/main) "
  +:+ " | sed -ne 's/^ //p' | head -1)..HEAD | "
  +:+ " grep '+.*\.\  '".

Definition checkpatch : task unit :=
  try_UnexpectedExit
    (lines ← run checkpatch_command;
     if bool_decide (0 < String.length (Str.strip lines))%nat then
       raise (Exit ("ERROR: Found changed lines with 2 spaces "
                    +:+ "after a period."))
     else mret ())
    (mret ()).


(** ** [validate_kind_version] *)

Module re.

(** The longest run of digits (of the ASCII range) at the start of
    [s], and what follows it. *)
Fixpoint digits (s : string) : string * string :=
  match s with
  | "" => ("", "")
  | String c s' =>
      if Str.is_digit c then
        let '(run, rest) := digits s' in (String c run, rest)
      else ("", s)
  end.

(** Digits, a dot, digits, a dot, digits at the start of [s], where
    a run of digits may be empty: the three runs.  The pattern takes the
    longest run each time, and giving digits back never helps, as the
    character after a shorter run is a digit, not a dot. *)
Definition version_at (s : string) : option (string * string * string) :=
  let '(major, rest) := digits s in
  match rest with
  | String "." rest =>
      let '(minor, rest) := digits rest in
      match rest with
      | String "." rest =>
          let '(patch, _) := digits rest in Some (major, minor, patch)
      | _ => None
      end
  | _ => None
  end.

(** [re.search] for the pattern of the source, a [v] and three runs
    of digits with a dot between them: the leftmost match, as the three
    runs of digits of its group 1. *)
Fixpoint search (s : string) : option (string * string * string) :=
  match s with
  | "" => None
  | String c s' =>
      match (if Ascii.eqb c "v" then version_at s' else None) with
      | Some found => Some found
      | None => search s'
      end
  end.

End re.

Module semver.

Fixpoint int_go (acc : N) (digits : string) : N :=
  match digits with
  | "" => acc
  | String c digits' => int_go (10 * acc + (N_of_ascii c - 48)) digits'
  end.

(** A run of digits that is [0] or begins with a digit from 1 to 9,
    as the regular expression of [semver] asks, and [int] of it. *)
Definition numeric (digits : string) : option N :=
  match digits with
  | "" => None
  | String "0" "" => Some 0%N
  | String "0" _ => None
  | _ => Some (int_go 0 digits)
  end.

(** [semver.parse] on [major.minor.patch], three runs of digits. *)
Definition parse (version : string * string * string) : outcome (N * N * N) :=
  let '(major, minor, patch) := version in
  match numeric major, numeric minor, numeric patch with
  | Some major, Some minor, Some patch => Return (major, minor, patch)
  | _, _, _ => Raise ValueError
  end.

Definition cmp (a b : N) : Z :=
  match (a ?= b)%N with Lt => -1 | Eq => 0 | Gt => 1 end.

(** [semver.compare(ver1, ver2)] on two such versions, which have no
    prerelease part: the comparison of the tuples. *)
Definition compare (ver1 ver2 : string * string * string) : outcome Z :=
  '(major1, minor1, patch1) ← parse ver1;
  '(major2, minor2, patch2) ← parse ver2;
  Return (if decide (cmp major1 major2 ≠ 0) then cmp major1 major2
          else if decide (cmp minor1 minor2 ≠ 0) then cmp minor1 minor2
          else cmp patch1 patch2).

End semver.

(** How [validate_kind_version] ends: it returns, or raises an exception
    of [exn], or the [AttributeError] of [None.group(1)]. *)
Inductive ending : Type :=
  | Returned
  | Raised (e : exn)
  | RaisedAttributeError.

Definition min_version : string * string * string := ("0", "9", "0").

(** [try: m  except Exception as e: handler] *)
Definition try_Exception {A} (m : task A) (handler : exn → task A) : task A := λ w,
  match m w with
  | (w', Return a) => (w', Return a)
  | (w', Raise e) => if is_Exception e then handler e w' else (w', Raise e)
  end.

Definition validate_kind_version (w : World) : World * ending :=
  match try_Exception (run "kind version")
          (λ _, raise (Exit "Could not determine kind version (is kind installed?)")) w
  with
  | (w, Raise e) => (w, Raised e)
  | (w, Return raw) =>
      match re.search raw with
      | None => (w, RaisedAttributeError)
      | Some actual_version =>
          match semver.compare actual_version min_version with
          | Raise e => (w, Raised e)
          | Return delta =>
              if bool_decide (delta < 0) then
                (w, Raised (Exit "kind version >= 0.9.0 required"))
              else (w, Returned)
          end
      end
  end.


(** ** [dev_env_cleanup] *)

(** The line boundaries of [str.splitlines] in the ASCII range: line
    feed, vertical tab, form feed, carriage return and the three
    separators 28 to 30. *)
Definition is_linebreak (c : ascii) : bool :=
  let n := N_of_ascii c in
  ((10 <=? n) && (n <=? 13) || (28 <=? n) && (n <=? 30))%N.

(** [s.splitlines()]: every boundary ends a line, a carriage return and
    the line feed after it are one boundary, and what follows the last
    boundary is a line when it is not empty.  [cur] is the line read so
    far, reversed; [after_cr] tells that the last character was a carriage
    return. *)
Fixpoint splitlines_go (cur : string) (after_cr : bool) (s : string) : list string :=
  match s with
  | "" => if decide (cur = "") then [] else [String.rev cur]
  | String c s' =>
      if after_cr && Ascii.eqb c "010" then splitlines_go "" false s'
      else if is_linebreak c
      then String.rev cur :: splitlines_go "" (Ascii.eqb c "013") s'
      else splitlines_go (String c cur) false s'
  end.
Definition splitlines (s : string) : list string := splitlines_go "" false s.

(** [run('rm -f "%s"/config.yaml' % dev_env_dir)]: when the command
    succeeds, the file is gone. *)
Definition run_rm_f_config (dev_env_dir : string) : task string :=
  stdout ← run ("rm -f " +:+ Str.dquote +:+ dev_env_dir +:+ Str.dquote +:+ "/config.yaml");
  _ ← modify (λ w, set_files (delete (dev_env_dir +:+ "/config.yaml") (files w)) w);
  mret stdout.

Definition ending_of (r : World * outcome unit) : World * ending :=
  match r with
  | (w, Return _) => (w, Returned)
  | (w, Raise e) => (w, Raised e)
  end.

Definition dev_env_cleanup (name : string) (w : World) : World * ending :=
  match validate_kind_version w with
  | (w, Returned) =>
      ending_of
        ((stdout ← run "kind get clusters";
          let clusters := splitlines (Str.strip stdout) in
          _ ← (if bool_decide (name ∈ clusters) then
                 _ ← run ("kind delete cluster --name=" +:+ name); mret ()
               else raise (Exit ("Unable to find cluster named: " +:+ name)));
          _ ← run ("for frr in $(docker ps -a -f name=frr --format {{.Names}}) ; do "
                   +:+ "    docker rm -f $frr ; " +:+ "done");
          cwd ← os_getcwd;
          let dev_env_dir := cwd +:+ "/dev-env/bgp" in
          let frr_volume_dir := dev_env_dir +:+ "/frr-volume" in
          _ ← run_rm_rf frr_volume_dir;
          _ ← run_rm_f_config dev_env_dir;
          cwd ← os_getcwd;
          let dev_env_dir := cwd +:+ "/dev-env/layer2" in
          _ ← run_rm_f_config dev_env_dir;
          mret ()) w)
  | stopped => stopped
  end.

(** The three commands of [dev_env_cleanup] that take an argument. *)
Definition kind_delete (name : string) : string := "kind delete cluster --name=" +:+ name.
Definition rm_f_config (dev_env_dir : string) : string :=
  "rm -f " +:+ Str.dquote +:+ dev_env_dir +:+ Str.dquote +:+ "/config.yaml".

(** The configuration files and the volume are gone. *)
Definition cleaned (w : World) : gmap string string :=
  delete (layer2_dir w +:+ "/config.yaml")
    (delete (bgp_dir w +:+ "/config.yaml")
       (filter (λ kv, ¬ below (bgp_dir w +:+ "/frr-volume") kv.1) (files w))).

(** The commands of [dev_env_cleanup] that remove: the containers of the
    router, the volume and the two configuration files. *)
Definition removals (w : World) : list event :=
  [Ran remove_frr; Ran (rm_rf (bgp_dir w +:+ "/frr-volume"));
   Ran (rm_f_config (bgp_dir w)); Ran (rm_f_config (layer2_dir w))].

(** The commands of the sample world succeed; this one also lists the
    cluster and prints a version of kind. *)
Definition cluster_shell (command : string) : string + string :=
  if bool_decide (command = "kind version")
  then inl ("kind v0.11.1 go1.16.4 linux/amd64" +:+ Str.nl)
  else if bool_decide (command = "kind get clusters") then inl ("kind" +:+ Str.nl)
  else sample_shell "10.0.0.2 10.0.0.3 10.0.0.4" command.

Definition cluster_world : World :=
  MkWorld "/src" (files (sample_world "")) (dirs (sample_world "")) cluster_shell [].

(** * Properties *)


(** ** Sorting a set *)

Section sorted_elements.
Implicit Types (X : gset string) (l : list string).

Lemma sorted_Permutation l : sorted l ≡ₚ l.
Proof. apply merge_sort_Permutation. Qed.

Lemma sorted_Sorted l : Sorted String.le (sorted l).
Proof. apply (Sorted_merge_sort String.le). Qed.

Lemma sorted_StronglySorted l : StronglySorted String.le (sorted l).
Proof. apply (StronglySorted_merge_sort String.le). Qed.

Lemma sorted_elements_NoDup X : NoDup (sorted (elements X)).
Proof. rewrite sorted_Permutation. apply NoDup_elements. Qed.

Lemma elem_of_sorted_elements X x : x ∈ sorted (elements X) ↔ x ∈ X.
Proof. rewrite sorted_Permutation. apply elem_of_elements. Qed.
End sorted_elements.

Lemma named_nil all : named all [] = ∅.
Proof. unfold named. rewrite decide_False by set_solver. set_solver. Qed.

Lemma named_cons_all all rest : named all ("all" :: rest) = all ∪ named all rest.
Proof.
  unfold named. rewrite decide_True by set_solver.
  rewrite filter_cons_False by (intros H; by apply H).
  case_decide; set_solver.
Qed.

Lemma named_cons_other all a rest :
  a ≠ "all" → named all (a :: rest) = {[a]} ∪ named all rest.
Proof.
  intros Ha. unfold named. rewrite filter_cons_True by done.
  repeat case_decide; set_solver.
Qed.

(** The two loops have the same shape; so have their proofs. *)
Ltac loop_known IH :=
  match goal with
  | Hk : Forall _ (?a :: ?rest) |- _ =>
      apply Forall_cons in Hk as [Ha Hrest];
      destruct (decide (a = "all")) as [->|Hne];
      [ rewrite IH by done; rewrite named_cons_all; do 2 f_equal; set_solver
      | destruct Ha as [?|Ha]; [done|];
        rewrite decide_False by (intros Hn; by apply Hn);
        rewrite IH by done; rewrite named_cons_other by done;
        do 2 f_equal; set_solver ]
  end.

Ltac loop_unknown IH :=
  match goal with
  | Hk : ¬ Forall _ (?a :: ?rest) |- _ =>
      destruct (decide (a = "all")) as [->|Hne];
      [ apply IH; intros H; apply Hk; constructor; [by left|done]
      | match goal with
        | |- context [decide (a ∉ ?all)] =>
            destruct (decide (a ∉ all)) as [Hn|Hin]; [done|];
            apply IH; intros H; apply Hk; constructor; [|done];
            right; by apply dec_stable
        end ]
  end.

Lemma check_architectures_loop_known architectures out :
  Forall (known all_architectures) architectures →
  _check_architectures_loop architectures out
  = ([], Return (out ∪ named all_architectures architectures)).
Proof.
  revert out. induction architectures as [|a rest IH]; intros out Hk; simpl.
  - rewrite named_nil. do 2 f_equal. set_solver.
  - loop_known IH.
Qed.

Lemma check_architectures_loop_unknown architectures out :
  ¬ Forall (known all_architectures) architectures →
  (_check_architectures_loop architectures out).2 = Raise (SystemExit 1).
Proof.
  revert out. induction architectures as [|a rest IH]; intros out Hk; simpl.
  - destruct Hk. constructor.
  - loop_unknown IH.
Qed.

Lemma check_binaries_loop_known binaries out :
  Forall (known all_binaries) binaries →
  _check_binaries_loop binaries out
  = ([], Return (out ∪ named all_binaries binaries)).
Proof.
  revert out. induction binaries as [|a rest IH]; intros out Hk; simpl.
  - rewrite named_nil. do 2 f_equal. set_solver.
  - loop_known IH.
Qed.

Lemma check_binaries_loop_unknown binaries out :
  ¬ Forall (known all_binaries) binaries →
  (_check_binaries_loop binaries out).2 = Raise (SystemExit 1).
Proof.
  revert out. induction binaries as [|a rest IH]; intros out Hk; simpl.
  - destruct Hk. constructor.
  - loop_unknown IH.
Qed.

Lemma named_subseteq all names :
  Forall (known all) names → named all names ⊆ all.
Proof.
  intros Hk x. unfold named. rewrite elem_of_union, elem_of_list_to_set, list_elem_of_filter.
  intros [Hx|[Hne Hx]].
  - case_decide; set_solver.
  - rewrite Forall_forall in Hk. destruct (Hk x Hx); done.
Qed.

Lemma named_all all names :
  Forall (known all) names → "all" ∈ names → named all names = all.
Proof.
  intros Hk Hall. apply set_eq. intros x. split.
  - by apply named_subseteq.
  - unfold named. rewrite decide_True by done. set_solver.
Qed.

Lemma named_empty all names :
  all ≠ ∅ → named all names = ∅ → names = [].
Proof.
  intros Hall Hn. destruct names as [|a rest]; [done|]. exfalso.
  destruct (decide (a = "all")) as [->|Hne].
  - rewrite named_cons_all in Hn. set_solver.
  - rewrite named_cons_other in Hn by done. set_solver.
Qed.

(** C9: on names that are all known, [_check_architectures] prints
    nothing and returns a list without duplicates, in ascending order,
    made of supported architectures only: the named ones, all five when
    ["all"] is among the names, and ["amd64"] alone when no name is given.
    On any other name it exits with status 1. *)
Theorem check_architectures_spec (architectures : list string) :
  (Forall (known all_architectures) architectures →
   ∃ l, _check_architectures architectures = ([], Return l)
     ∧ NoDup l ∧ Sorted String.le l
     ∧ (∀ a, a ∈ l → a ∈ all_architectures)
     ∧ (∀ a, a ∈ architectures → a ≠ "all" → a ∈ l)
     ∧ ("all" ∈ architectures → l = ["amd64"; "arm"; "arm64"; "ppc64le"; "s390x"])
     ∧ (architectures = [] → l = ["amd64"]))
  ∧ (¬ Forall (known all_architectures) architectures →
     (_check_architectures architectures).2 = Raise (SystemExit 1)).
Proof.
  split.
  - intros Hk. unfold _check_architectures.
    rewrite check_architectures_loop_known by done.
    rewrite (left_id_L ∅ (∪)).
    set (X := named all_architectures architectures).
    assert (HX : X ⊆ all_architectures) by by apply named_subseteq.
    eexists. split; [done|].
    split; [apply sorted_elements_NoDup|]. split; [apply sorted_Sorted|].
    split; [|split; [|split]].
    + intros a. rewrite elem_of_sorted_elements. case_decide; set_solver.
    + intros a Ha Hne. rewrite elem_of_sorted_elements.
      assert (a ∈ X).
      { unfold X, named. rewrite elem_of_union, elem_of_list_to_set, list_elem_of_filter. auto. }
      case_decide; set_solver.
    + intros Hall. unfold X. rewrite named_all by done.
      rewrite decide_False by (by vm_compute). by vm_compute.
    + intros ->. unfold X. rewrite named_nil. rewrite decide_True by done.
      by vm_compute.
  - intros Hk. unfold _check_architectures.
    pose proof (check_architectures_loop_unknown architectures ∅ Hk) as H.
    destruct (_check_architectures_loop architectures ∅) as [printed [out|e]];
      simpl in *; congruence.
Qed.

Lemma check_architectures_spec_witness :
  ∃ l, _check_architectures ["arm64"; "all"; "arm"] = ([], Return l)
     ∧ NoDup l ∧ Sorted String.le l
     ∧ (∀ a, a ∈ l → a ∈ all_architectures)
     ∧ (∀ a, a ∈ ["arm64"; "all"; "arm"] → a ≠ "all" → a ∈ l)
     ∧ ("all" ∈ ["arm64"; "all"; "arm"] → l = ["amd64"; "arm"; "arm64"; "ppc64le"; "s390x"])
     ∧ (["arm64"; "all"; "arm"] = [] → l = ["amd64"]).
Proof.
  apply (proj1 (check_architectures_spec ["arm64"; "all"; "arm"])).
  repeat constructor; by vm_compute.
Defined.

(** C10: on names that are all known, [_check_binaries] prints nothing
    and returns a list without duplicates, in ascending order, made of
    known binaries only: the named ones, all three when ["all"] is among
    the names, and the controller and the speaker, without the mirror
    server, when no name is given.  On any other name it exits with
    status 1. *)
Theorem check_binaries_spec (binaries : list string) :
  (Forall (known all_binaries) binaries →
   ∃ l, _check_binaries binaries = ([], Return l)
     ∧ NoDup l ∧ Sorted String.le l
     ∧ (∀ b, b ∈ l → b ∈ all_binaries)
     ∧ (∀ b, b ∈ binaries → b ≠ "all" → b ∈ l)
     ∧ ("all" ∈ binaries → l = ["controller"; "mirror-server"; "speaker"])
     ∧ (binaries = [] → l = ["controller"; "speaker"]))
  ∧ (¬ Forall (known all_binaries) binaries →
     (_check_binaries binaries).2 = Raise (SystemExit 1)).
Proof.
  split.
  - intros Hk. unfold _check_binaries.
    rewrite check_binaries_loop_known by done.
    rewrite (left_id_L ∅ (∪)).
    set (X := named all_binaries binaries).
    assert (HX : X ⊆ all_binaries) by by apply named_subseteq.
    eexists. split; [done|].
    split; [apply sorted_elements_NoDup|]. split; [apply sorted_Sorted|].
    split; [|split; [|split]].
    + intros b. rewrite elem_of_sorted_elements. case_decide; set_solver.
    + intros b Hb Hne. rewrite elem_of_sorted_elements.
      assert (b ∈ X).
      { unfold X, named. rewrite elem_of_union, elem_of_list_to_set, list_elem_of_filter. auto. }
      case_decide; set_solver.
    + intros Hall. unfold X. rewrite named_all by done.
      rewrite decide_False by (by vm_compute). by vm_compute.
    + intros ->. unfold X. rewrite named_nil. rewrite decide_True by done.
      by vm_compute.
  - intros Hk. unfold _check_binaries.
    pose proof (check_binaries_loop_unknown binaries ∅ Hk) as H.
    destruct (_check_binaries_loop binaries ∅) as [printed [out|e]];
      simpl in *; congruence.
Qed.

Lemma check_binaries_spec_witness :
  (_check_binaries ["speaker"; "kubelet"]).2 = Raise (SystemExit 1).
Proof.
  apply (proj2 (check_binaries_spec ["speaker"; "kubelet"])).
  intros H. apply Forall_cons in H as [_ H]. apply Forall_cons in H as [[H|H] _].
  - discriminate H.
  - revert H. by vm_compute.
Defined.



(** ** Inverting the error monad *)

Lemma obind_Return {A B} (m : outcome A) (k : A → outcome B) b :
  (m ≫= k) = Return b ↔ ∃ a, m = Return a ∧ k a = Return b.
Proof. destruct m; simpl; naive_solver. Qed.

Lemma ofmap_Return {A B} (m : outcome A) (f : A → B) b :
  f <$> m = Return b ↔ ∃ a, m = Return a ∧ b = f a.
Proof. destruct m; simpl; naive_solver. Qed.

Lemma try_except_Return {A} (m : outcome A) caught handler a :
  try_except m caught handler = Return a →
  m = Return a ∨ ∃ e, m = Raise e ∧ caught e = true ∧ handler e = Return a.
Proof. destruct m as [|e]; simpl; [naive_solver|]. destruct (caught e) eqn:?; naive_solver. Qed.

Ltac inv_outcome :=
  repeat match goal with
  | H : (_ ≫= _) = Return _ |- _ => apply obind_Return in H as (? & ? & H)
  | H : _ <$> _ = Return _ |- _ => apply ofmap_Return in H as (? & H & ->)
  | H : Return _ = Return _ |- _ => injection H as H
  | H : Raise _ = Return _ |- _ => discriminate H
  | H : mret _ = Return _ |- _ => injection H as H
  | H : (if ?b then _ else _) = Return _ |- _ => destruct b eqn:?
  | H : (let '(_, _) := ?p in _) = Return _ |- _ => destruct p
  | H : match ?p with (_, _) => _ end = Return _ |- _ => destruct p
  end.

(** ** Addresses are within the address space *)

Lemma ALL_ONES_pos f : 0 < _ALL_ONES f.
Proof. by destruct f. Qed.

Lemma land_ALL_ONES f n : 0 ≤ n ≤ _ALL_ONES f → Z.land n (_ALL_ONES f) = n.
Proof.
  intros Hn. unfold _ALL_ONES in *.
  replace (2 ^ _max_prefixlen f - 1) with (Z.ones (_max_prefixlen f)) in *
    by (rewrite Z.ones_equiv; lia).
  rewrite Z.land_ones by (by destruct f).
  apply Z.mod_small. rewrite Z.ones_equiv in Hn. lia.
Qed.

Lemma make_netmask_max f :
  _make_netmask f (AInt (_max_prefixlen f)) = Return (_ALL_ONES f, _max_prefixlen f).
Proof. by destruct f. Qed.

Lemma Interface_init_int f n :
  Interface_init f (AInt n)
  = if bool_decide (0 ≤ n ≤ _ALL_ONES f) then Return (host f n)
    else Raise AddressValueError.
Proof.
  unfold Interface_init, Network_init, Address_init, _check_int_address. simpl.
  case_bool_decide as Hn.
  - destruct (n <? 0) eqn:E1; [lia|]. destruct (_ALL_ONES f <? n) eqn:E2; [lia|].
    simpl. rewrite make_netmask_max. simpl.
    rewrite land_ALL_ONES by done. by rewrite bool_decide_false by naive_solver.
  - destruct (n <? 0) eqn:E1; [done|]. destruct (_ALL_ONES f <? n) eqn:E2; [done|]. lia.
Qed.

Lemma add_spec (self : Interface) (other : Z) :
  add self other
  = if bool_decide (0 ≤ _ip (i_address self) + other ≤ _ALL_ONES (i_family self))
    then Return (host (i_family self) (_ip (i_address self) + other))
    else Raise AddressValueError.
Proof. apply Interface_init_int. Qed.

Lemma add_Return self other r :
  add self other = Return r →
  r = host (i_family self) (_ip (i_address self) + other)
  ∧ 0 ≤ _ip (i_address self) + other ≤ _ALL_ONES (i_family self).
Proof. rewrite add_spec. case_bool_decide; naive_solver. Qed.

Lemma foldl_int10_bound (cs : list ascii) acc :
  Forall (λ c, Str.is_digit c = true) cs → 0 ≤ acc →
  0 ≤ foldl (λ acc c, 10 * acc + digit_value c) acc cs.
Proof.
  revert acc. induction cs as [|c cs IH]; intros acc Hd Hacc; simpl; [done|].
  apply Forall_cons in Hd as [Hc Hcs]. apply IH; [done|].
  unfold Str.is_digit in Hc. unfold digit_value.
  apply andb_prop in Hc as [H1 H2]. apply N.leb_le in H1. lia.
Qed.

Lemma all_chars_Forall p s :
  Str.all_chars p s = true ↔ Forall (λ c, p c = true) (list_ascii_of_string s).
Proof.
  induction s as [|c s IH]; simpl.
  - split; [constructor|done].
  - rewrite andb_true_iff, Forall_cons. by rewrite IH.
Qed.

Lemma int10_nonneg s : Str.all_chars Str.is_digit s = true → 0 ≤ int10 s.
Proof. intros H. apply foldl_int10_bound; [by apply all_chars_Forall|done]. Qed.

Lemma parse_octet_bound s b : _parse_octet s = Return b → 0 ≤ b ≤ 255.
Proof.
  unfold _parse_octet. intros H.
  repeat (case_bool_decide || case_match); simplify_eq/=; try done.
  split; [|lia]. apply int10_nonneg.
  by destruct (Str.all_chars Str.is_digit s).
Qed.

Lemma mapM_outcome_Return {A B} (f : A → outcome B) l r :
  mapM f l = Return r → Forall2 (λ a b, f a = Return b) l r.
Proof.
  revert r. induction l as [|a l IH]; intros r H; simpl in H.
  - injection H as <-. constructor.
  - apply obind_Return in H as (b & Hb & H).
    apply obind_Return in H as (bs & Hbs & H). injection H as <-.
    constructor; auto.
Qed.

Lemma from_bytes_big_bound bs :
  Forall (λ b, 0 ≤ b ≤ 255) bs → 0 ≤ from_bytes_big bs < 256 ^ Z.of_nat (length bs).
Proof.
  unfold from_bytes_big. intros H.
  enough (∀ acc k, 0 ≤ acc < 256 ^ Z.of_nat k →
            0 ≤ foldl (λ acc b, 256 * acc + b) acc bs < 256 ^ Z.of_nat (k + length bs))
    as Hgen by (apply (Hgen 0 0%nat); simpl; lia).
  induction H as [|b bs Hb Hbs IH]; intros acc k Hacc; simpl.
  - by rewrite Nat.add_0_r.
  - replace (k + S (length bs))%nat with (S k + length bs)%nat by lia.
    apply IH. rewrite Nat2Z.inj_succ, Z.pow_succ_r by lia. lia.
Qed.

Lemma ip_int_from_string_v4_bound s n :
  _ip_int_from_string_v4 s = Return n → 0 ≤ n ≤ _ALL_ONES IPv4.
Proof.
  unfold _ip_int_from_string_v4. intros H.
  repeat case_bool_decide; simplify_eq/=.
  apply try_except_Return in H as [H|(e & H & _ & ?)]; [|done].
  apply ofmap_Return in H as (bs & H & ->).
  apply mapM_outcome_Return in H.
  assert (length bs = 4%nat) as Hlen.
  { apply Forall2_length in H. by rewrite <-H. }
  assert (Forall (λ b, 0 ≤ b ≤ 255) bs) as Hb.
  { eapply Forall2_Forall_r; [exact H|]. apply Forall_true.
    intros o b. apply parse_octet_bound. }
  pose proof (from_bytes_big_bound bs Hb) as Hr. rewrite Hlen in Hr.
  unfold _ALL_ONES. simpl in *. lia.
Qed.

Lemma lor_shiftl_add acc h k :
  0 ≤ k → 0 ≤ h < 2 ^ k → Z.lor (Z.shiftl acc k) h = acc * 2 ^ k + h.
Proof.
  intros Hk Hh. rewrite <-Z.shiftl_mul_pow2 by done.
  assert (Z.land (Z.shiftl acc k) h = 0) as Hdisj.
  { apply Z.bits_inj'. intros n Hn. rewrite Z.land_spec, Z.bits_0.
    destruct (decide (n < k)).
    - by rewrite Z.shiftl_spec_low.
    - rewrite andb_false_iff. right.
      destruct (decide (h = 0)) as [->|]; [apply Z.bits_0|].
      apply Z.bits_above_log2; [lia|].
      assert (Z.log2 h < k) by (apply Z.log2_lt_pow2; lia). lia. }
  rewrite <-Z.lxor_lor by done. symmetry. by apply Z.add_nocarry_lxor.
Qed.

Lemma hex_value_bound c v : hex_value c = Some v → 0 ≤ v < 16.
Proof.
  unfold hex_value. intros H.
  repeat case_match; simplify_eq; lia.
Qed.

Lemma foldl_int16_bound (cs : list ascii) acc k :
  Forall (λ c, is_hex_digit c = true) cs → 0 ≤ acc < 16 ^ Z.of_nat k →
  0 ≤ foldl (λ acc c, 16 * acc + default 0 (hex_value c)) acc cs
    < 16 ^ Z.of_nat (k + length cs).
Proof.
  revert acc k. induction cs as [|c cs IH]; intros acc k Hd Hacc; simpl.
  - by rewrite Nat.add_0_r.
  - apply Forall_cons in Hd as [Hc Hcs].
    replace (k + S (length cs))%nat with (S k + length cs)%nat by lia.
    apply IH; [done|].
    unfold is_hex_digit in Hc. apply bool_decide_eq_true in Hc as [v Hv].
    rewrite Hv. simpl. apply hex_value_bound in Hv.
    rewrite Nat2Z.inj_succ, Z.pow_succ_r by lia. lia.
Qed.

Lemma length_list_ascii_of_string s :
  length (list_ascii_of_string s) = String.length s.
Proof. induction s; simpl; congruence. Qed.

Lemma parse_hextet_bound s v : _parse_hextet s = Return v → 0 ≤ v < 2 ^ 16.
Proof.
  unfold _parse_hextet. intros H.
  destruct (Str.all_chars is_hex_digit s) eqn:Hhex; simplify_eq/=.
  destruct (4 <? String.length s)%nat eqn:Hlen; simplify_eq/=.
  case_bool_decide; simplify_eq/=.
  apply Nat.ltb_ge in Hlen.
  pose proof (foldl_int16_bound (list_ascii_of_string s) 0 0
                (proj1 (all_chars_Forall _ _) Hhex) ltac:(simpl; lia)) as Hb.
  rewrite length_list_ascii_of_string in Hb. unfold int16. simpl in Hb.
  split; [lia|].
  eapply Z.lt_le_trans; [apply Hb|].
  change (2 ^ 16) with (16 ^ Z.of_nat 4).
  apply Z.pow_le_mono_r; lia.
Qed.

Lemma parse_hextets_bound parts acc k n :
  parse_hextets acc parts = Return n → 0 ≤ acc < 2 ^ (16 * Z.of_nat k) →
  0 ≤ n < 2 ^ (16 * Z.of_nat (k + length parts)).
Proof.
  revert acc k. induction parts as [|p parts IH]; intros acc k H Hacc; simpl in *.
  - rewrite Nat.add_0_r. by simplify_eq.
  - apply obind_Return in H as (h & Hh & H).
    replace (k + S (length parts))%nat with (S k + length parts)%nat by lia.
    apply (IH _ _ H). apply parse_hextet_bound in Hh.
    rewrite lor_shiftl_add by lia.
    replace (16 * Z.of_nat (S k)) with (16 * Z.of_nat k + 16) by lia.
    rewrite Z.pow_add_r by lia. nia.
Qed.

Lemma ip_int_from_string_v6_bound s n :
  _ip_int_from_string_v6 s = Return n → 0 ≤ n ≤ _ALL_ONES IPv6.
Proof.
  unfold _ip_int_from_string_v6. intros H.
  case_bool_decide; [done|].
  destruct (length (Str.split ":" s) <? 3)%nat; [done|].
  apply obind_Return in H as (parts & _ & H).
  destruct (S _HEXTET_COUNT <? length parts)%nat; [done|].
  apply obind_Return in H as (skip_index & _ & H).
  apply obind_Return in H as ([[parts_hi parts_lo] parts_skipped] & Hcount & H).
  assert (parts_hi + parts_skipped + parts_lo ≤ 8)%nat as Hsum.
  { unfold _HEXTET_COUNT in *. destruct skip_index as [i|].
    - apply obind_Return in Hcount as (hi & _ & Hcount).
      apply obind_Return in Hcount as (lo & _ & Hcount).
      destruct (8 <? S (hi + lo))%nat eqn:E; [done|].
      apply Nat.ltb_ge in E. simplify_eq. lia.
    - repeat (case_bool_decide || case_match); simplify_eq. lia. }
  apply try_except_Return in H as [H|(e & _ & _ & ?)]; [|done].
  apply obind_Return in H as (hi_int & Hhi & Hlo).
  apply (parse_hextets_bound _ 0 0%nat) in Hhi; [|simpl; lia].
  assert (length (take parts_hi parts) ≤ parts_hi)%nat as Hlen_hi
    by (rewrite length_take; lia).
  assert (length (drop (length parts - parts_lo) parts) ≤ parts_lo)%nat as Hlen_lo
    by (rewrite length_drop; lia).
  apply (parse_hextets_bound _ _ (length (take parts_hi parts) + parts_skipped)%nat)
    in Hlo.
  - split; [lia|]. unfold _ALL_ONES. simpl _max_prefixlen.
    enough (n < 2 ^ 128) by lia.
    eapply Z.lt_le_trans; [apply Hlo|].
    apply Z.pow_le_mono_r; lia.
  - rewrite Z.shiftl_mul_pow2 by lia. split; [nia|].
    replace (16 * Z.of_nat (length (take parts_hi parts) + parts_skipped))
      with (16 * Z.of_nat (0 + length (take parts_hi parts)) + 16 * Z.of_nat parts_skipped)
      by lia.
    rewrite Z.pow_add_r by lia.
    apply Z.mul_lt_mono_pos_r; [apply Z.pow_pos_nonneg; lia|lia].
Qed.

Lemma Address_init_str_bound f s a :
  Address_init f (AStr s) = Return a →
  a_family a = f ∧ 0 ≤ _ip a ≤ _ALL_ONES f.
Proof.
  unfold Address_init. intros H.
  destruct (Str.contains_char "/" s); [done|]. destruct f.
  - apply obind_Return in H as (n & Hn & H). simplify_eq/=.
    split; [done|]. by eapply ip_int_from_string_v4_bound.
  - apply obind_Return in H as ([addr scope] & _ & H).
    apply obind_Return in H as (n & Hn & H). simplify_eq/=.
    split; [done|]. by eapply ip_int_from_string_v6_bound.
Qed.

Lemma Interface_init_str_bound f s i :
  Interface_init f (AStr s) = Return i →
  i_family i = f ∧ 0 ≤ _ip (i_address i) ≤ _ALL_ONES f.
Proof.
  unfold Interface_init. intros H.
  apply obind_Return in H as ([addr mask] & Hsplit & H).
  apply obind_Return in H as (a & Ha & H).
  apply obind_Return in H as (n & _ & H). simplify_eq/=.
  unfold _split_addr_prefix in Hsplit.
  repeat case_match; simplify_eq; by eapply Address_init_str_bound.
Qed.

Lemma ip_interface_Return s i :
  ip_interface s = Return i →
  Interface_init IPv4 (AStr s) = Return i ∨ Interface_init IPv6 (AStr s) = Return i.
Proof.
  unfold ip_interface. intros H.
  apply try_except_Return in H as [H|(e & _ & _ & H)]; [by left|].
  apply try_except_Return in H as [H|(e' & _ & _ & H)]; [by right|done].
Qed.

(** Every address [ip_interface] accepts lies in the address space of
    its family. *)
Lemma ip_interface_bound s i :
  ip_interface s = Return i →
  0 ≤ _ip (i_address i) ≤ _ALL_ONES (i_family i).
Proof.
  intros [H|H]%ip_interface_Return;
    apply Interface_init_str_bound in H as [-> ?]; done.
Qed.



(** ** The layer-2 range *)

(** The loop body evaluates [ip_interface(used_list[-1])] twice; both
    evaluations give the same. *)
Lemma layer2_range_unfold i used4 used6 :
  layer2_range i used4 used6 =
    network ← ip_network i;
    last_used ← last_item (used_list network used4 used6);
    interface ← ip_interface last_used;
    service_ip_range_start ← add interface 1;
    service_ip_range_end ← add interface 11;
    if negb (contains network (i_address service_ip_range_start)) then
      Raise (Exit ("network range " +:+ Interface_str service_ip_range_start
                   +:+ " is not in " +:+ Network_str network))
    else if negb (contains network (i_address service_ip_range_end)) then
      Raise (Exit ("network range " +:+ Interface_str service_ip_range_end
                   +:+ " is not in " +:+ Network_str network))
    else Return (network, service_ip_range_start, service_ip_range_end).
Proof.
  unfold layer2_range.
  destruct (ip_network i) as [network|]; simpl; [|done].
  destruct (last_item _) as [last_used|]; simpl; [|done].
  destruct (ip_interface last_used) as [interface|]; simpl; [|done].
  by destruct (add interface 1).
Qed.

Lemma last_item_Return {A} (l : list A) x : last_item l = Return x ↔ last l = Some x.
Proof. unfold last_item. destruct (last l); naive_solver. Qed.

Lemma layer2_range_Return i used4 used6 net start end_ :
  layer2_range i used4 used6 = Return (net, start, end_) ↔
  ∃ last_used interface,
    ip_network i = Return net
    ∧ last (used_list net used4 used6) = Some last_used
    ∧ ip_interface last_used = Return interface
    ∧ add interface 1 = Return start
    ∧ add interface 11 = Return end_
    ∧ contains net (i_address start) = true
    ∧ contains net (i_address end_) = true.
Proof.
  rewrite layer2_range_unfold. split.
  - intros H.
    apply obind_Return in H as (network & Hn & H).
    apply obind_Return in H as (last_used & Hl & H).
    apply obind_Return in H as (interface & Hi & H).
    apply obind_Return in H as (s & Hs & H).
    apply obind_Return in H as (e & He & H).
    destruct (contains network (i_address s)) eqn:Hcs; [|done].
    destruct (contains network (i_address e)) eqn:Hce; [|done].
    simpl in H. injection H as -> -> ->.
    apply last_item_Return in Hl. eauto 10.
  - intros (last_used & interface & -> & Hl & Hi & Hs & He & Hcs & Hce). simpl.
    apply last_item_Return in Hl. rewrite Hl. simpl. rewrite Hi. simpl.
    rewrite Hs, He. simpl. by rewrite Hcs, Hce.
Qed.

(** C1: whenever the loop body yields a range for a subnet, its ends are
    the last entry of the sorted used list plus 1 and plus 11, ten apart;
    it yields one whenever that entry is an address and both ends lie in
    the subnet and in the address space; and for 10.240.0.0/17 with
    10.240.0.5 as the last used address the recorded string is
    10.240.0.6-10.240.0.16. *)
Theorem layer2_range_offsets :
  (∀ i used4 used6 net start end_,
     layer2_range i used4 used6 = Return (net, start, end_) →
     ∃ last_used interface,
       ip_network i = Return net
       ∧ last (used_list net used4 used6) = Some last_used
       ∧ ip_interface last_used = Return interface
       ∧ _ip (i_address start) = _ip (i_address interface) + 1
       ∧ _ip (i_address end_) = _ip (i_address interface) + 11
       ∧ _ip (i_address end_) - _ip (i_address start) = 10)
  ∧ (∀ i used4 used6 net last_used interface,
       ip_network i = Return net →
       last (used_list net used4 used6) = Some last_used →
       ip_interface last_used = Return interface →
       let start := host (i_family interface) (_ip (i_address interface) + 1) in
       let end_ := host (i_family interface) (_ip (i_address interface) + 11) in
       _ip (i_address interface) + 11 ≤ _ALL_ONES (i_family interface) →
       contains net (i_address start) = true →
       contains net (i_address end_) = true →
       layer2_range i used4 used6 = Return (net, start, end_))
  ∧ layer2_ranges ["10.240.0.0/17"]
      ["10.240.0.2/17"; "10.240.0.5/17"; "10.240.0.3/17"; "10.240.0.4/17"] [] ∅
    = Return {[ 4 := "10.240.0.6-10.240.0.16" ]}.
Proof.
  split; [|split].
  - intros i used4 used6 net start end_ H.
    apply layer2_range_Return in H
      as (last_used & interface & Hn & Hl & Hi & Hs & He & _ & _).
    apply add_Return in Hs as [-> _]. apply add_Return in He as [-> _].
    exists last_used, interface. simpl. repeat split; try done; lia.
  - intros i used4 used6 net last_used interface Hn Hl Hi start end_ Hmax Hcs Hce.
    apply layer2_range_Return. exists last_used, interface.
    pose proof (ip_interface_bound _ _ Hi) as Hb.
    repeat split; try done; rewrite add_spec;
      by rewrite bool_decide_true by lia.
  - by vm_compute.
Qed.

Lemma layer2_range_offsets_witness :
  layer2_range "10.240.0.0/17" ["10.240.0.2/17"; "10.240.0.5/17"; "10.240.0.3/17"] []
  = Return (MkNetwork (MkAddress IPv4 183500800 None) 4294934528 17,
            host IPv4 183500806, host IPv4 183500816).
Proof.
  apply (proj1 (proj2 layer2_range_offsets) "10.240.0.0/17"
           ["10.240.0.2/17"; "10.240.0.5/17"; "10.240.0.3/17"] []
           (MkNetwork (MkAddress IPv4 183500800 None) 4294934528 17)
           "10.240.0.5/17"
           (MkInterface (MkAddress IPv4 183500805 None)
              (MkNetwork (MkAddress IPv4 183500800 None) 4294934528 17)));
    by vm_compute.
Defined.

(** C2, at the failing input.  With 172.18.0.9 and 172.18.0.10 in use,
    the highest address by value is 172.18.0.10, but [sorted] compares the
    strings, so the entry taken as last is 172.18.0.9 and the recorded
    range starts at the used address 172.18.0.10. *)
Theorem layer2_range_sorts_strings :
  let used := ["172.18.0.9/16"; "172.18.0.10/16"] in
  (_ip ∘ i_address <$> spec_highest_used used) = Return 2886860810
  ∧ (_ip ∘ i_address <$> (last_item (sorted used) ≫= ip_interface)) = Return 2886860809
  ∧ layer2_ranges ["172.18.0.0/16"] used [] ∅
    = Return {[ 4 := "172.18.0.10-172.18.0.20" ]}.
Proof. vm_compute. repeat split; reflexivity. Qed.

(** C3.  Let the last entry of the sorted used list be an address.
    When its successors up to the eleventh are in the address space and
    the first successor is not in the subnet, or else the eleventh is not,
    the loop body raises [Exit] with a message that names that end and the
    subnet; and a range that is returned has both ends in the subnet and
    ten apart: nothing is wrapped or cut.  But when the eleventh successor
    is past the last address of the version, the addition itself raises
    the library's [AddressValueError] before either guard is reached, and
    no [Exit] naming range and subnet is raised.  So it is in
    255.255.255.240/28 with 255.255.255.250 in use: the end of the range
    would be outside the subnet, and what is raised is
    [AddressValueError]. *)
Theorem layer2_range_outside :
  (∀ i used4 used6 net last_used interface,
     ip_network i = Return net →
     last (used_list net used4 used6) = Some last_used →
     ip_interface last_used = Return interface →
     _ip (i_address interface) + 11 ≤ _ALL_ONES (i_family interface) →
     let start := host (i_family interface) (_ip (i_address interface) + 1) in
     let end_ := host (i_family interface) (_ip (i_address interface) + 11) in
     (contains net (i_address start) = false →
      layer2_range i used4 used6
      = Raise (Exit ("network range " +:+ Interface_str start
                     +:+ " is not in " +:+ Network_str net)))
     ∧ (contains net (i_address start) = true →
        contains net (i_address end_) = false →
        layer2_range i used4 used6
        = Raise (Exit ("network range " +:+ Interface_str end_
                       +:+ " is not in " +:+ Network_str net))))
  ∧ (∀ i used4 used6 net start end_,
       layer2_range i used4 used6 = Return (net, start, end_) →
       contains net (i_address start) = true
       ∧ contains net (i_address end_) = true
       ∧ _ip (i_address end_) = _ip (i_address start) + 10)
  ∧ (∀ i used4 used6 net last_used interface,
       ip_network i = Return net →
       last (used_list net used4 used6) = Some last_used →
       ip_interface last_used = Return interface →
       _ALL_ONES (i_family interface) < _ip (i_address interface) + 11 →
       layer2_range i used4 used6 = Raise AddressValueError
       ∧ ¬ (∃ message, layer2_range i used4 used6 = Raise (Exit message)))
  ∧ (let i := "255.255.255.240/28" in
     let used := ["255.255.255.250/28"] in
     (net ← ip_network i;
      interface ← last_item (sorted used) ≫= ip_interface;
      mret (contains net (MkAddress IPv4 (_ip (i_address interface) + 11) None)))
     = Return false
     ∧ layer2_range i used [] = Raise AddressValueError).
Proof.
  split; [|split; [|split]].
  - intros i used4 used6 net last_used interface Hn Hl Hi Hmax start end_.
    pose proof (ip_interface_bound _ _ Hi) as Hb.
    apply last_item_Return in Hl.
    rewrite layer2_range_unfold, Hn. simpl. rewrite Hl. simpl. rewrite Hi. simpl.
    rewrite !add_spec, !bool_decide_true by lia. simpl.
    fold start end_. split.
    + by intros ->.
    + by intros -> ->.
  - intros i used4 used6 net start end_ H.
    apply layer2_range_Return in H
      as (last_used & interface & Hn & Hl & Hi & Hs & He & Hcs & Hce).
    apply add_Return in Hs as [-> _]. apply add_Return in He as [-> _].
    repeat split; try done. simpl. lia.
  - intros i used4 used6 net last_used interface Hn Hl Hi Hmax.
    assert (layer2_range i used4 used6 = Raise AddressValueError) as E.
    { apply last_item_Return in Hl.
      rewrite layer2_range_unfold, Hn. simpl. rewrite Hl. simpl. rewrite Hi. simpl.
      rewrite !add_spec. rewrite (bool_decide_false (_ ≤ _ + 11 ≤ _)) by lia.
      by case_bool_decide. }
    split; [exact E|]. intros [message H]. rewrite E in H. discriminate H.
  - split; vm_compute; reflexivity.
Qed.

Lemma layer2_range_outside_witness :
  layer2_range "172.18.0.0/28" ["172.18.0.2/28"; "172.18.0.5/28"; "172.18.0.3/28"] []
  = Raise (Exit "network range 172.18.0.16/32 is not in 172.18.0.0/28")
  ∧ layer2_range "255.255.255.240/28" ["255.255.255.250/28"; "255.255.255.242/28"] []
    = Raise AddressValueError.
Proof.
  split.
  - apply (proj2 (proj1 layer2_range_outside "172.18.0.0/28"
             ["172.18.0.2/28"; "172.18.0.5/28"; "172.18.0.3/28"] []
             (MkNetwork (MkAddress IPv4 2886860800 None) 4294967280 28)
             "172.18.0.5/28"
             (MkInterface (MkAddress IPv4 2886860805 None)
                (MkNetwork (MkAddress IPv4 2886860800 None) 4294967280 28))
             ltac:(vm_compute; reflexivity) ltac:(vm_compute; reflexivity)
             ltac:(vm_compute; reflexivity) ltac:(vm_compute; discriminate)));
      by vm_compute.
  - apply (proj1 (proj2 (proj2 layer2_range_outside))
             "255.255.255.240/28"
             ["255.255.255.250/28"; "255.255.255.242/28"] []
             (MkNetwork (MkAddress IPv4 4294967280 None) 4294967280 28)
             "255.255.255.250/28"
             (MkInterface (MkAddress IPv4 4294967290 None)
                (MkNetwork (MkAddress IPv4 4294967280 None) 4294967280 28)));
      by vm_compute.
Defined.

(** C8 as stated fails: with no used address at all, what is raised is
    the [IndexError] of [used_list[-1]], unguarded. *)
Lemma layer2_range_empty_counterexample :
  layer2_range "10.240.0.0/17" [] [] = Raise IndexError
  ∧ ¬ (∃ message, layer2_range "10.240.0.0/17" [] [] = Raise (Exit message)).
Proof.
  assert (layer2_range "10.240.0.0/17" [] [] = Raise IndexError) as E
    by (vm_compute; reflexivity).
  split; [exact E|]. intros [message H]. rewrite E in H. discriminate H.
Qed.

Lemma sorted_nil l : sorted l = [] ↔ l = [].
Proof.
  split; [|by intros ->].
  intros H. apply Permutation_nil_r. rewrite <-H. symmetry. apply sorted_Permutation.
Qed.

Lemma split_not_nil sep s : Str.split sep s ≠ [].
Proof. destruct s as [|c s]; simpl; [done|]. by repeat case_match. Qed.

Lemma ip_interface_empty : ip_interface "" = Raise ValueError.
Proof. by vm_compute. Qed.

(** C8, amended.  For a subnet that parses, an empty used list of its
    version makes the loop body raise [IndexError], and the list [[""]],
    which is what splitting an empty output of docker gives (a split is
    never empty), makes it raise the [ValueError] of [ip_interface]; no
    range is recorded and no [Exit] message is produced. *)
Theorem layer2_range_empty_used (i : string) (net : Network) (used4 used6 : list string) :
  ip_network i = Return net →
  (used_list net used4 used6 = [] → layer2_range i used4 used6 = Raise IndexError)
  ∧ (used_list net used4 used6 = [""] → layer2_range i used4 used6 = Raise ValueError)
  ∧ (∀ stdout, Str.split " " (Str.strip stdout) ≠ []
       ∧ (Str.strip stdout = "" → Str.split " " (Str.strip stdout) = [""])).
Proof.
  intros Hn. rewrite layer2_range_unfold, Hn. simpl. split; [|split].
  - by intros ->.
  - intros ->. reflexivity.
  - intros stdout. split; [apply split_not_nil|by intros ->].
Qed.

Lemma layer2_range_empty_used_witness :
  layer2_range "fc00:f853:ccd:e793::/64" ["172.18.0.2/16"] [""] = Raise ValueError.
Proof.
  apply (proj1 (proj2 (layer2_range_empty_used "fc00:f853:ccd:e793::/64"
           (MkNetwork (MkAddress IPv6 334970491555280737759170599901974233088 None)
              340282366920938463444927863358058659840 64)
           ["172.18.0.2/16"] [""] ltac:(vm_compute; reflexivity))));
    by vm_compute.
Defined.



(** ** [str.replace] *)

Section replace.
Implicit Types (old new s r p : string).

Lemma append_nil_l s : "" +:+ s = s.
Proof. done. Qed.

Lemma append_cons c s r : String c s +:+ r = String c (s +:+ r).
Proof. done. Qed.

Lemma append_assoc p s r : (p +:+ s) +:+ r = p +:+ (s +:+ r).
Proof. induction p as [|c p IH]; [done|]. by rewrite !append_cons, IH. Qed.

Lemma length_append p s :
  String.length (p +:+ s) = (String.length p + String.length s)%nat.
Proof. induction p as [|c p IH]; [done|]. rewrite append_cons. simpl. by rewrite IH. Qed.

Lemma prefix_cons a p c s :
  String.prefix (String a p) (String c s) = bool_decide (a = c) && String.prefix p s.
Proof.
  simpl. destruct (ascii_dec a c).
  - by rewrite bool_decide_true.
  - by rewrite bool_decide_false.
Qed.

Lemma prefix_nil_r p : String.prefix p "" = bool_decide (p = "").
Proof. by destruct p. Qed.

Lemma prefix_append p s : String.prefix p (p +:+ s) = true.
Proof.
  induction p as [|c p IH]; [by destruct s|].
  by rewrite append_cons, prefix_cons, bool_decide_true, IH.
Qed.

Lemma prefix_split p s : String.prefix p s = true → ∃ r, s = p +:+ r.
Proof.
  revert s. induction p as [|a p IH]; intros s H; [by exists s|].
  destruct s as [|c s]; [done|]. rewrite prefix_cons in H.
  apply andb_prop in H as [->%bool_decide_eq_true Hp].
  destruct (IH _ Hp) as [r ->]. by exists r.
Qed.

Lemma replace_go_skip old new p r :
  Str.replace_go old new (String.length p) (p +:+ r) = Str.replace_go old new 0 r.
Proof. induction p as [|c p IH]; [done|]. by rewrite append_cons. Qed.

Lemma replace_go_hit old new r :
  old ≠ "" →
  Str.replace_go old new 0 (old +:+ r) = new +:+ Str.replace_go old new 0 r.
Proof.
  destruct old as [|c old]; [done|]. intros _.
  rewrite append_cons. unfold Str.replace_go at 1. fold Str.replace_go.
  rewrite <-append_cons, prefix_append. simpl Nat.pred.
  by rewrite replace_go_skip.
Qed.

Lemma replace_go_miss old new c r :
  String.prefix old (String c r) = false →
  Str.replace_go old new 0 (String c r) = String c (Str.replace_go old new 0 r).
Proof. intros H. unfold Str.replace_go at 1. fold Str.replace_go. by rewrite H. Qed.

(** A text in which [old] cannot begin passes through unchanged. *)
Lemma replace_go_through old new a v r :
  Str.contains_char a v = false →
  Str.replace_go (String a old) new 0 (v +:+ r)
  = v +:+ Str.replace_go (String a old) new 0 r.
Proof.
  induction v as [|c v IH]; [done|]. intros H. simpl in H.
  apply orb_false_elim in H as [Hc Hv]. apply Ascii.eqb_neq in Hc.
  rewrite append_cons, replace_go_miss, IH; [done..|].
  rewrite prefix_cons, bool_decide_false; [done|congruence].
Qed.
End replace.

Section substitution.
Implicit Types (v w r s : string).

Lemma address_text_no_N v : address_text v → Str.contains_char "N" v = false.
Proof.
  intros [Hall _]. induction v as [|c v IH]; [done|]. simpl in *.
  apply andb_prop in Hall as [Hc Hv]. rewrite IH, orb_false_r by done.
  apply Ascii.eqb_neq. intros ->. by vm_compute in Hc.
Qed.

(** An address and a guarded word differ before either ends. *)
Lemma prefix_guarded_address w v r :
  address_text v → w ≠ "" → guarded w = true → String.prefix w (v +:+ r) = false.
Proof.
  intros [Hall Hsep]. revert w.
  induction v as [|c v IH]; intros w Hw Hg; [done|].
  destruct w as [|a w]; [done|]. simpl in Hall, Hsep, Hg.
  rewrite append_cons, prefix_cons.
  apply andb_prop in Hall as [Hc Hv].
  apply andb_prop in Hg as [[Ha Hf]%andb_prop Hg].
  case_bool_decide as Hac; [subst c|done]. simpl.
  apply negb_true_iff in Ha. rewrite Ha in Hsep. simpl in Hsep.
  rewrite Hc in Hf. simpl in Hf.
  apply IH; [done..| |done]. by intros ->.
Qed.

(** What a guarded word matches after a replacement by an address, it
    matched before. *)
Lemma prefix_guarded_replace old v w r :
  address_text v → guarded w = true →
  String.prefix w (Str.replace_go old v 0 r) = true → String.prefix w r = true.
Proof.
  intros Hv. revert r. induction w as [|a w IH]; intros r Hg H.
  { by destruct r. }
  destruct r as [|c r]; [done|].
  unfold Str.replace_go in H. fold Str.replace_go in H.
  destruct (String.prefix old (String c r)).
  - by rewrite prefix_guarded_address in H.
  - rewrite prefix_cons in *. apply andb_prop in H as [-> H]. simpl.
    apply IH; [|done]. simpl in Hg. by apply andb_prop in Hg as [_ ?].
Qed.

Lemma substitute_go_skip pairs p r :
  substitute_go pairs (String.length p) (p +:+ r) = substitute_go pairs 0 r.
Proof. induction p as [|c p IH]; [done|]. by rewrite append_cons. Qed.

Lemma substitute_go_hit pairs token value r :
  token ≠ "" →
  List.find (λ p, String.prefix p.1 (token +:+ r)) pairs = Some (token, value) →
  substitute_go pairs 0 (token +:+ r) = value +:+ substitute_go pairs 0 r.
Proof.
  destruct token as [|c token]; [done|]. intros _ Hfind.
  rewrite append_cons in *. unfold substitute_go at 1. fold substitute_go.
  rewrite Hfind. simpl Nat.pred. by rewrite substitute_go_skip.
Qed.
End substitution.

Section nodes.
Context (a0 a1 a2 : string).
Context (H0 : address_text a0) (H1 : address_text a1).

Local Notation pairs := [("NODE0_IP", a0); ("NODE1_IP", a1); ("NODE2_IP", a2)].
Local Notation R0 := (Str.replace_go "NODE0_IP" a0 0).
Local Notation R1 := (Str.replace_go "NODE1_IP" a1 0).
Local Notation R2 := (Str.replace_go "NODE2_IP" a2 0).

Lemma prefix_cons_replace a T old v c r :
  address_text v → guarded T = true →
  String.prefix (String a T) (String c r) = false →
  String.prefix (String a T) (String c (Str.replace_go old v 0 r)) = false.
Proof.
  intros Hv Hg H. rewrite prefix_cons in *.
  destruct (bool_decide (a = c)); [|done]. simpl in *.
  destruct (String.prefix T (Str.replace_go old v 0 r)) eqn:E; [|done].
  apply prefix_guarded_replace in E; [congruence|done..].
Qed.

Lemma replace_nodes_substitute s :
  R2 (R1 (R0 s)) = substitute_go pairs 0 s.
Proof.
  remember (String.length s) as n eqn:Hn.
  revert s Hn. induction (lt_wf n) as [n _ IH]. intros s ->.
  destruct s as [|c r]; [done|].
  pose proof (address_text_no_N _ H0) as N0.
  pose proof (address_text_no_N _ H1) as N1.
  destruct (String.prefix "NODE0_IP" (String c r)) eqn:E0.
  { apply prefix_split in E0 as [r' E0]. rewrite E0.
    rewrite replace_go_hit by done.
    rewrite !replace_go_through by done.
    rewrite (substitute_go_hit pairs "NODE0_IP" a0)
      by (done || by (simpl; rewrite ?prefix_append)).
    f_equal. eapply IH; [|done].
    rewrite E0, length_append. simpl. lia. }
  destruct (String.prefix "NODE1_IP" (String c r)) eqn:E1.
  { apply prefix_split in E1 as [r' E1]. rewrite E1.
    change (R0 ("NODE1_IP" +:+ r')) with ("NODE1_IP" +:+ R0 r').
    rewrite replace_go_hit by done.
    rewrite replace_go_through by done.
    rewrite (substitute_go_hit pairs "NODE1_IP" a1)
      by (done || by (simpl; rewrite ?prefix_append)).
    f_equal. eapply IH; [|done].
    rewrite E1, length_append. simpl. lia. }
  destruct (String.prefix "NODE2_IP" (String c r)) eqn:E2.
  { apply prefix_split in E2 as [r' E2]. rewrite E2.
    change (R0 ("NODE2_IP" +:+ r')) with ("NODE2_IP" +:+ R0 r').
    change (R1 ("NODE2_IP" +:+ R0 r')) with ("NODE2_IP" +:+ R1 (R0 r')).
    rewrite replace_go_hit by done.
    rewrite (substitute_go_hit pairs "NODE2_IP" a2)
      by (done || by (simpl; rewrite ?prefix_append)).
    f_equal. eapply IH; [|done].
    rewrite E2, length_append. simpl. lia. }
  rewrite (replace_go_miss "NODE0_IP") by done.
  rewrite (replace_go_miss "NODE1_IP") by (by apply prefix_cons_replace).
  rewrite (replace_go_miss "NODE2_IP")
    by (by do 2 (apply prefix_cons_replace; [done..|])).
  unfold substitute_go at 1. fold substitute_go.
  unfold List.find. cbv beta iota zeta delta [fst].
  rewrite E0, E1, E2. f_equal. eapply IH; [|done]. simpl. lia.
Qed.
End nodes.



(** ** The headers survive the replacements *)

Lemma replace_nonempty c old new s :
  Str.replace (String c old) new s = Str.replace_go (String c old) new 0 s.
Proof. done. Qed.

Lemma node_token_NO n : ∃ rest, node_token n = String "N" (String "O" rest).
Proof. by eexists. Qed.

Lemma frr_header_through rest new s :
  Str.replace_go (String "N" (String "O" rest)) new 0 (frr_header +:+ s)
  = frr_header +:+ Str.replace_go (String "N" (String "O" rest)) new 0 s.
Proof. reflexivity. Qed.

Lemma yaml_header_through_PEER new s :
  Str.replace "PEER_ADDRESS" new (yaml_header +:+ s)
  = yaml_header +:+ Str.replace "PEER_ADDRESS" new s.
Proof. reflexivity. Qed.

Lemma yaml_header_through_V4 new s :
  Str.replace "SERVICE_V4_RANGE" new (yaml_header +:+ s)
  = yaml_header +:+ Str.replace "SERVICE_V4_RANGE" new s.
Proof. reflexivity. Qed.

Lemma yaml_header_through_V6 new s :
  Str.replace "SERVICE_V6_RANGE" new (yaml_header +:+ s)
  = yaml_header +:+ Str.replace "SERVICE_V6_RANGE" new s.
Proof. reflexivity. Qed.

Lemma replace_node_header n new s :
  Str.replace (node_token n) new (frr_header +:+ s)
  = frr_header +:+ Str.replace (node_token n) new s.
Proof.
  destruct (node_token_NO n) as [rest ->].
  rewrite !replace_nonempty. apply frr_header_through.
Qed.

Lemma substitute_nodes_cons node_ips n ns s :
  substitute_nodes node_ips (n :: ns) s
  = substitute_nodes node_ips ns
      (Str.replace (node_token n) (default "" (node_ips !! n)) s).
Proof. done. Qed.

Lemma substitute_nodes_header node_ips ns s :
  substitute_nodes node_ips ns (frr_header +:+ s)
  = frr_header +:+ substitute_nodes node_ips ns s.
Proof.
  revert s. induction ns as [|n ns IH]; intros s; [done|].
  by rewrite !substitute_nodes_cons, replace_node_header, IH.
Qed.

Lemma render_bgpd_config_header template node_ips :
  render_bgpd_config template node_ips
  = frr_header +:+ substitute_nodes node_ips (seq 0 (length node_ips)) template.
Proof. apply substitute_nodes_header. Qed.

Lemma render_mlb_config_header template peer_address :
  render_mlb_config template peer_address
  = yaml_header +:+ Str.replace "PEER_ADDRESS" (Str.strip peer_address) template.
Proof. apply yaml_header_through_PEER. Qed.

Lemma getitem_Return d k v : getitem d k = Return v ↔ d !! k = Some v.
Proof. unfold getitem. destruct (d !! k); naive_solver. Qed.

Lemma render_layer2_config_Return template service_range cfg :
  render_layer2_config template service_range = Return cfg ↔
  ∃ v4 v6, service_range !! 4 = Some v4 ∧ service_range !! 6 = Some v6
    ∧ cfg = yaml_header +:+ Str.replace "SERVICE_V6_RANGE" v6
                              (Str.replace "SERVICE_V4_RANGE" v4 template).
Proof.
  unfold render_layer2_config. cbv zeta. split.
  - intros H. apply obind_Return in H as (v4 & H4 & H).
    apply obind_Return in H as (v6 & H6 & H). injection H as <-.
    apply getitem_Return in H4, H6. exists v4, v6.
    by repeat split.
  - intros (v4 & v6 & H4 & H6 & ->).
    apply getitem_Return in H4, H6. by rewrite H4, H6.
Qed.

Lemma node_token_values :
  node_token 0 = "NODE0_IP" ∧ node_token 1 = "NODE1_IP" ∧ node_token 2 = "NODE2_IP".
Proof. by vm_compute. Qed.

Lemma node_pairs_three a0 a1 a2 :
  node_pairs [a0; a1; a2] = [("NODE0_IP", a0); ("NODE1_IP", a1); ("NODE2_IP", a2)].
Proof.
  destruct node_token_values as (E0 & E1 & E2).
  unfold node_pairs. simpl. by rewrite E0, E1, E2.
Qed.

Lemma substitute_nodes_three a0 a1 a2 s :
  substitute_nodes [a0; a1; a2] (seq 0 3) s
  = Str.replace_go "NODE2_IP" a2 0
      (Str.replace_go "NODE1_IP" a1 0 (Str.replace_go "NODE0_IP" a0 0 s)).
Proof.
  destruct node_token_values as (E0 & E1 & E2).
  unfold substitute_nodes. simpl. by rewrite E0, E1, E2.
Qed.

(** C5: with three node addresses written as addresses are, the
    rendered [bgpd.conf] is the header line followed by the template in
    which every occurrence of NODE0_IP, NODE1_IP and NODE2_IP is replaced
    by the address of that position and every other character is kept.
    (The text of the last address is never scanned again, so the proof
    asks nothing of it.) *)
Theorem render_bgpd_config_substitutes (template a0 a1 a2 : string) :
  address_text a0 → address_text a1 →
  render_bgpd_config template [a0; a1; a2]
  = frr_header +:+ spec_substitute (node_pairs [a0; a1; a2]) template.
Proof.
  intros H0 H1. rewrite render_bgpd_config_header. f_equal.
  unfold spec_substitute. simpl length.
  rewrite node_pairs_three, substitute_nodes_three.
  apply (replace_nodes_substitute a0 a1 a2 H0 H1).
Qed.

Lemma render_bgpd_config_substitutes_witness :
  render_bgpd_config "neighbor NODE0_IP; NODE2_IP, NODE1_IP and NODE0_IP"
    ["10.0.0.2"; "10.0.0.3"; "10.0.0.4"]
  = frr_header +:+ "neighbor 10.0.0.2; 10.0.0.4, 10.0.0.3 and 10.0.0.2".
Proof.
  apply (render_bgpd_config_substitutes
           "neighbor NODE0_IP; NODE2_IP, NODE1_IP and NODE0_IP"
           "10.0.0.2" "10.0.0.3" "10.0.0.4"); by vm_compute.
Defined.

(** Without the condition on the addresses the passes interfere: an
    entry that contains a later token is substituted again. *)
Lemma render_bgpd_config_resubstitutes :
  render_bgpd_config "NODE0_IP" ["NODE1_IP"; "10.0.0.3"; "10.0.0.4"]
  = frr_header +:+ "10.0.0.3".
Proof. by vm_compute. Qed.



(** ** A logic for tasks *)

Section task_logic.
Context (w0 : World) (protected : string → Prop) (W : string → string → Prop).
Notation inv := (inv w0 protected W).
Notation triple := (triple w0 protected W).

Lemma inv_start : inv w0.
Proof. repeat split. exists []. by rewrite app_nil_r. Qed.

Lemma inv_record e w : event_ok W e → inv w → inv (record e w).
Proof.
  intros He (Hc & Hs & Hf & new & Hl & Hn). repeat split; try done.
  exists (new ++ [e]). simpl. rewrite Hl, app_assoc. split; [done|].
  apply Forall_app. by repeat constructor.
Qed.

Lemma triple_ret {A} (a : A) (R : A → Prop) : R a → triple (mret a) R.
Proof. intros Ha w Hw. split; [done|]. by intros ? [= <-]. Qed.

Lemma triple_raise {A} e (R : A → Prop) : triple (raise e) R.
Proof. intros w Hw. by split. Qed.

Lemma triple_lift {A} (m : outcome A) (R : A → Prop) :
  (∀ a, m = Return a → R a) → triple (lift m) R.
Proof. intros H w Hw. by split. Qed.

Lemma triple_lift_eq {A} (m : outcome A) : triple (lift m) (λ a, m = Return a).
Proof. by apply triple_lift. Qed.

Lemma triple_bind {A B} (m : task A) (k : A → task B) R R' :
  triple m R → (∀ a, R a → triple (k a) R') → triple (m ≫= k) R'.
Proof.
  intros Hm Hk w Hw. destruct (Hm w Hw) as [Hinv Hr].
  unfold mbind, task_bind. destruct (m w) as [w' [a|e]]; simpl in *.
  - apply Hk; auto.
  - by split.
Qed.

Lemma triple_weaken {A} (m : task A) (R R' : A → Prop) :
  triple m R → (∀ a, R a → R' a) → triple m R'.
Proof. intros Hm HR w Hw. destruct (Hm w Hw). split; auto. Qed.

Lemma triple_getcwd : triple os_getcwd (λ c, c = cwd w0).
Proof. intros w Hw. split; [done|]. intros a [= <-]. apply Hw. Qed.

Lemma triple_run command :
  triple (run command) (λ stdout, shell w0 command = inl stdout).
Proof.
  intros w Hw. unfold run. simpl.
  assert (shell w command = shell w0 command) as E
    by (destruct Hw as (_ & -> & _); done).
  destruct (shell w command) as [stdout|text]; simpl;
    (split; [by apply inv_record|]); [|done].
  intros a [= <-]. by rewrite <-E.
Qed.

Lemma triple_modify f (R : unit → Prop) :
  (∀ w, inv w → inv (f w)) → R () → triple (modify f) R.
Proof. intros Hf HR w Hw. split; [by apply Hf|]. by intros [] _. Qed.

Lemma triple_read path :
  protected path →
  triple (read_file path) (λ content, files w0 !! path = Some content).
Proof.
  intros Hp w Hw. unfold read_file.
  assert (files w !! path = files w0 !! path) as E
    by (destruct Hw as (_ & _ & Hf & _); auto).
  case_bool_decide; [by split|].
  destruct (files w !! path) as [content|]; (split; [done|]); [|done].
  intros a [= <-]. by rewrite <-E.
Qed.

Lemma triple_read_any path : triple (read_file path) (λ _, True).
Proof.
  intros w Hw. unfold read_file.
  case_bool_decide; [by split|]. by destruct (files w !! path).
Qed.

Lemma inv_set_files fs w :
  (∀ p, protected p → fs !! p = files w !! p) → inv w → inv (set_files fs w).
Proof.
  intros Hfs (Hc & Hs & Hf & Hl). repeat split; try done.
  intros p Hp. simpl. rewrite Hfs by done. auto.
Qed.

Lemma inv_set_dirs ds w : inv w → inv (set_dirs ds w).
Proof. by intros (Hc & Hs & Hf & Hl). Qed.

Lemma triple_store path content :
  ¬ protected path → triple (store path content) (λ _, True).
Proof.
  intros Hp w Hw. unfold store.
  repeat case_bool_decide; (split; [|done]); try done.
  apply inv_set_files; [|done].
  intros p Hpp. apply lookup_insert_ne. by intros ->.
Qed.

Lemma triple_write path content :
  ¬ protected path → W path content →
  triple (write_file path content) (λ _, True).
Proof.
  intros Hp HW. eapply triple_bind; [by apply triple_store|]. intros _ _.
  apply triple_modify; [|done]. intros w. by apply inv_record.
Qed.

Lemma triple_copyfile src dst :
  ¬ protected dst → triple (shutil_copyfile src dst) (λ _, True).
Proof.
  intros Hp. eapply triple_bind; [apply triple_read_any|]. intros content _.
  eapply triple_bind; [by apply triple_store|]. intros _ _.
  apply triple_modify; [|done]. intros w. by apply inv_record.
Qed.

Lemma triple_mkdir path : triple (os_mkdir path) (λ _, True).
Proof.
  intros w Hw. unfold os_mkdir.
  repeat case_bool_decide; (split; [|done]); try done.
  apply inv_record; [done|]. by apply inv_set_dirs.
Qed.

Lemma triple_rm_rf dir :
  (∀ p, protected p → below dir p = false) →
  triple (run_rm_rf dir) (λ _, True).
Proof.
  intros Hdir. eapply triple_bind; [apply triple_run|]. intros stdout _.
  eapply (triple_bind _ _ (λ _, True)); [|intros; by apply triple_ret].
  apply triple_modify; [|done]. intros w Hw.
  apply inv_set_dirs, inv_set_files; [|done].
  intros p Hp. simpl. destruct (files w !! p) as [c|] eqn:E.
  - apply map_lookup_filter_Some. split; [done|]. simpl.
    rewrite (Hdir p Hp). by intros [].
  - apply map_lookup_filter_None. left. done.
Qed.

Lemma triple_try {A} (m on_exists : task A) handler (R : A → Prop) :
  triple m R → triple on_exists R → (∀ e, triple (handler e) R) →
  triple (try_task m on_exists handler) R.
Proof.
  intros Hm Ho Hh w Hw. destruct (Hm w Hw) as [Hinv Hr].
  unfold try_task. destruct (m w) as [w' [a|e]]; simpl in *; [by split|].
  destruct (is_FileExistsError e); [by apply Ho|].
  destruct (is_Exception e); [by apply Hh|]. by split.
Qed.

Lemma triple_copy_static dev_env_dir frr_volume_dir fs :
  (∀ f, f ∈ fs → ¬ protected (frr_volume_dir +:+ "/" +:+ f)) →
  triple (copy_static dev_env_dir frr_volume_dir fs) (λ _, True).
Proof.
  induction fs as [|f fs IH]; intros Hfs; simpl.
  - by apply triple_ret.
  - eapply triple_bind; [apply triple_copyfile, Hfs; by left|]. intros _ _.
    apply IH. intros f' Hf'. apply Hfs. by right.
Qed.

(** What a task wrote, read off its triple. *)
Lemma triple_wrote {A} (m : task A) R path content :
  triple m R →
  ∃ new, log (m w0).1 = log w0 ++ new
    ∧ (Wrote path content ∈ new → W path content).
Proof.
  intros Hm. destruct (Hm w0 inv_start) as [(_ & _ & _ & new & Hl & Hnew) _].
  exists new. split; [done|]. intros Hin.
  rewrite Forall_forall in Hnew. apply (Hnew _ Hin).
Qed.
End task_logic.



(** ** What the two configurations read and write *)

Lemma prefix_append_same d a b :
  String.prefix (d +:+ a) (d +:+ b) = String.prefix a b.
Proof.
  induction d as [|c d IH]; [done|].
  by rewrite !append_cons, prefix_cons, bool_decide_true.
Qed.

Lemma append_inj d a b : d +:+ a = d +:+ b → a = b.
Proof. apply (inj (String.app d)). Qed.

(** Two paths below the same directory differ when their rests do. *)
Ltac path_neq :=
  let H := fresh in
  intros H; rewrite ?append_assoc in H; apply append_inj in H; discriminate H.

Lemma bgp_copy_unprotected w f :
  f ∈ copy_files → ¬ bgp_protected w ((bgp_dir w +:+ "/frr-volume") +:+ "/" +:+ f).
Proof.
  unfold copy_files. rewrite !elem_of_cons, elem_of_nil.
  intros [->|[->|[->|[]]]] [H|H]; revert H; path_neq.
Qed.

Lemma bgp_volume_not_above w p :
  bgp_protected w p → below (bgp_dir w +:+ "/frr-volume") p = false.
Proof.
  unfold below. intros [->| ->]; apply orb_false_intro;
    try (apply bool_decide_eq_false; path_neq);
    by rewrite !append_assoc, prefix_append_same.
Qed.

Lemma bgp_dev_env_triple w0 :
  triple w0 (bgp_protected w0) (bgp_written w0) bgp_dev_env (λ _, True).
Proof.
  unfold bgp_dev_env.
  eapply triple_bind; [apply triple_getcwd|]. intros c ->.
  eapply triple_bind; [apply triple_run|]. intros stdout Hout. cbv zeta.
  case_bool_decide as Hlen; [apply triple_raise|].
  fold (bgp_dir w0).
  eapply (triple_bind _ _ _ _ _ (λ _, True)).
  { apply triple_try; [|by apply triple_ret|intros; apply triple_raise].
    eapply triple_bind; [apply triple_rm_rf, bgp_volume_not_above|].
    intros _ _. apply triple_mkdir. }
  intros _ _.
  eapply triple_bind; [apply triple_copy_static, bgp_copy_unprotected|]. intros _ _.
  eapply triple_bind; [apply triple_read; by left|]. intros template Ht.
  eapply triple_bind.
  { apply triple_write.
    - intros [H|H]; revert H; path_neq.
    - left. split; [done|]. by exists stdout, template. }
  intros _ _.
  eapply triple_bind; [apply triple_run|]. intros _ _.
  eapply triple_bind; [apply triple_run|]. intros _ _.
  eapply triple_bind; [apply triple_run|]. intros peer_address Hpeer.
  eapply triple_bind; [apply triple_read; by right|]. intros template' Ht'.
  eapply triple_bind.
  { apply triple_write.
    - intros [H|H]; revert H; path_neq.
    - right. split; [done|]. by exists peer_address, template'. }
  intros _ _.
  eapply triple_bind; [apply triple_run|]. intros _ _.
  by apply triple_ret.
Qed.

Lemma layer2_dev_env_triple w0 :
  triple w0 (layer2_protected w0) (layer2_written w0) layer2_dev_env (λ _, True).
Proof.
  unfold layer2_dev_env.
  eapply triple_bind; [apply triple_run|]. intros subnets Hs. cbv zeta.
  eapply triple_bind; [apply triple_run|]. intros used4 H4.
  eapply triple_bind; [apply triple_run|]. intros used6 H6.
  eapply triple_bind; [apply triple_lift_eq|].
  intros service_range Hsr.
  eapply triple_bind; [apply triple_getcwd|]. intros c ->.
  fold (layer2_dir w0).
  eapply triple_bind; [by apply triple_read|]. intros template Ht.
  eapply triple_bind; [apply triple_lift_eq|].
  intros layer2_config Hcfg.
  eapply triple_bind.
  { apply triple_write.
    - unfold layer2_protected. path_neq.
    - split; [done|]. by exists subnets, used4, used6, service_range, template. }
  intros _ _.
  eapply triple_bind; [apply triple_run|]. intros _ _.
  by apply triple_ret.
Qed.


Lemma writes_triple {A} w0 protected W (m : task A) R path content :
  triple w0 protected W m R → writes m w0 path content → W path content.
Proof.
  intros Hm (new & Hl & Hin).
  destruct (triple_wrote w0 protected W m R path content Hm) as (new' & Hl' & HW).
  rewrite Hl in Hl'. apply app_inv_head in Hl'. subst new'. auto.
Qed.

Lemma triple_final {A} w0 protected W (m : task A) R :
  triple w0 protected W m R → inv w0 protected W (m w0).1.
Proof. intros Hm. apply Hm, inv_start. Qed.

(** C4: with a node list of any length but 3, [bgp_dev_env] raises
    [Exit] with the expected and the actual count right after the query
    for the nodes: the world is the one it started from, with that one
    command logged, so nothing was substituted and no file was written. *)
Theorem bgp_dev_env_node_count (w : World) (stdout : string) :
  shell w get_nodes = inl stdout →
  length (Str.split_ws (Str.strip stdout)) ≠ 3%nat →
  bgp_dev_env w
  = (record (Ran get_nodes) w,
     Raise (Exit ("Expected 3 nodes, got "
                  +:+ pretty (length (Str.split_ws (Str.strip stdout))))))
  ∧ files (bgp_dev_env w).1 = files w
  ∧ dirs (bgp_dev_env w).1 = dirs w
  ∧ log (bgp_dev_env w).1 = log w ++ [Ran get_nodes].
Proof.
  intros Hout Hlen.
  assert (bgp_dev_env w
          = (record (Ran get_nodes) w,
             Raise (Exit ("Expected 3 nodes, got "
                          +:+ pretty (length (Str.split_ws (Str.strip stdout)))))))
    as E.
  { unfold bgp_dev_env, mbind, task_bind, os_getcwd, run. simpl.
    rewrite Hout. by rewrite bool_decide_true. }
  by rewrite E.
Qed.

Lemma bgp_dev_env_node_count_witness :
  bgp_dev_env (sample_world "10.0.0.2 10.0.0.3")
  = (record (Ran get_nodes) (sample_world "10.0.0.2 10.0.0.3"),
     Raise (Exit "Expected 3 nodes, got 2")).
Proof.
  apply (bgp_dev_env_node_count (sample_world "10.0.0.2 10.0.0.3")
           ("10.0.0.2 10.0.0.3" +:+ Str.nl));
    [vm_compute; reflexivity|vm_compute; discriminate].
Defined.

(** C6: every rendered text is the header line followed by the
    substituted template, and so is every file the two configurations
    write: [bgpd.conf] begins with the line of [!], both [config.yaml]
    with the line of [#]. *)
Theorem rendered_begins_with_header :
  (∀ template node_ips,
     render_bgpd_config template node_ips
     = frr_header +:+ substitute_nodes node_ips (seq 0 (length node_ips)) template)
  ∧ (∀ template peer_address,
       render_mlb_config template peer_address
       = yaml_header +:+ Str.replace "PEER_ADDRESS" (Str.strip peer_address) template)
  ∧ (∀ template service_range layer2_config,
       render_layer2_config template service_range = Return layer2_config →
       ∃ v4 v6, layer2_config
         = yaml_header +:+ Str.replace "SERVICE_V6_RANGE" v6
                             (Str.replace "SERVICE_V4_RANGE" v4 template))
  ∧ (∀ w path content,
       writes bgp_dev_env w path content →
       (path = (bgp_dir w +:+ "/frr-volume") +:+ "/bgpd.conf"
        ∧ ∃ body, content = frr_header +:+ body)
       ∨ (path = bgp_dir w +:+ "/config.yaml"
          ∧ ∃ body, content = yaml_header +:+ body))
  ∧ (∀ w path content,
       writes layer2_dev_env w path content →
       path = layer2_dir w +:+ "/config.yaml"
       ∧ ∃ body, content = yaml_header +:+ body).
Proof.
  split; [exact render_bgpd_config_header|].
  split; [exact render_mlb_config_header|].
  split; [|split].
  - intros template service_range cfg H.
    apply render_layer2_config_Return in H as (v4 & v6 & _ & _ & ->). eauto.
  - intros w path content H.
    apply (writes_triple _ _ _ _ _ _ _ (bgp_dev_env_triple w)) in H
      as [[-> (stdout & template & _ & _ & _ & ->)]
         |[-> (peer & template & _ & _ & ->)]].
    + left. split; [done|]. rewrite render_bgpd_config_header. eauto.
    + right. split; [done|]. rewrite render_mlb_config_header. eauto.
  - intros w path content H.
    apply (writes_triple _ _ _ _ _ _ _ (layer2_dev_env_triple w)) in H
      as [-> (? & ? & ? & sr & template & _ & _ & _ & _ & _ & H)].
    split; [done|].
    apply render_layer2_config_Return in H as (v4 & v6 & _ & _ & ->). eauto.
Qed.

Lemma rendered_begins_with_header_witness :
  "/src/dev-env/layer2/config.yaml" = layer2_dir (sample_world "") +:+ "/config.yaml"
  ∧ ∃ body,
      yaml_header +:+ "- 172.18.0.5-172.18.0.15; - fc00:f853:ccd:e793::5-fc00:f853:ccd:e793::f"
      = yaml_header +:+ body.
Proof.
  apply (proj2 (proj2 (proj2 (proj2 rendered_begins_with_header)))
           (sample_world "") "/src/dev-env/layer2/config.yaml").
  eexists. split; [vm_compute; reflexivity|].
  apply list_elem_of_In. vm_compute. auto.
Defined.

Lemma bgp_written_functional w1 w2 path c1 c2 :
  cwd w1 = cwd w2 →
  shell w1 get_nodes = shell w2 get_nodes →
  shell w1 inspect_frr = shell w2 inspect_frr →
  files w1 !! (bgp_dir w1 +:+ "/frr/bgpd.conf.tmpl")
    = files w2 !! (bgp_dir w2 +:+ "/frr/bgpd.conf.tmpl") →
  files w1 !! (bgp_dir w1 +:+ "/config.yaml.tmpl")
    = files w2 !! (bgp_dir w2 +:+ "/config.yaml.tmpl") →
  bgp_written w1 path c1 → bgp_written w2 path c2 → c1 = c2.
Proof.
  intros Hcwd Hnodes Hpeer Ht1 Ht2 H1 H2.
  assert (bgp_dir w1 = bgp_dir w2) as Hd by (unfold bgp_dir; by rewrite Hcwd).
  destruct H1 as [[-> (o1 & t1 & Ho1 & _ & Hf1 & ->)]|[-> (o1 & t1 & Ho1 & Hf1 & ->)]];
    destruct H2 as [[E (o2 & t2 & Ho2 & _ & Hf2 & ->)]|[E (o2 & t2 & Ho2 & Hf2 & ->)]];
    try (exfalso; rewrite Hd in E; revert E; path_neq).
  - rewrite Ht1, Hf2 in Hf1. rewrite Hnodes, Ho2 in Ho1.
    by simplify_eq.
  - rewrite Ht2, Hf2 in Hf1. rewrite Hpeer, Ho2 in Ho1.
    by simplify_eq.
Qed.

Lemma layer2_written_functional w1 w2 path c1 c2 :
  cwd w1 = cwd w2 →
  shell w1 inspect_subnets = shell w2 inspect_subnets →
  shell w1 inspect_ipv4 = shell w2 inspect_ipv4 →
  shell w1 inspect_ipv6 = shell w2 inspect_ipv6 →
  files w1 !! (layer2_dir w1 +:+ "/config.yaml.tmpl")
    = files w2 !! (layer2_dir w2 +:+ "/config.yaml.tmpl") →
  layer2_written w1 path c1 → layer2_written w2 path c2 → c1 = c2.
Proof.
  intros Hcwd Hs H4 H6 Ht
    [-> (s1 & a1 & b1 & sr1 & t1 & Hs1 & Ha1 & Hb1 & Hr1 & Hf1 & Hc1)]
    [_ (s2 & a2 & b2 & sr2 & t2 & Hs2 & Ha2 & Hb2 & Hr2 & Hf2 & Hc2)].
  assert (layer2_dir w1 = layer2_dir w2) as Hd by (unfold layer2_dir; by rewrite Hcwd).
  rewrite Ht, Hf2 in Hf1.
  rewrite Hs, Hs2 in Hs1. rewrite H4, Ha2 in Ha1. rewrite H6, Hb2 in Hb1.
  simplify_eq. rewrite Hr2 in Hr1. simplify_eq. rewrite Hc2 in Hc1. by simplify_eq.
Qed.

(** C7: what the two configurations render depends only on the working
    directory, the output of the commands they query and the text of the
    templates.  Two runs that agree on these write the same bytes to each
    path, whatever else the worlds hold; in particular a second run right
    after a first one writes what the first wrote. *)
Theorem rendering_deterministic :
  (∀ w1 w2 path c1 c2,
     cwd w1 = cwd w2 →
     shell w1 get_nodes = shell w2 get_nodes →
     shell w1 inspect_frr = shell w2 inspect_frr →
     files w1 !! (bgp_dir w1 +:+ "/frr/bgpd.conf.tmpl")
       = files w2 !! (bgp_dir w2 +:+ "/frr/bgpd.conf.tmpl") →
     files w1 !! (bgp_dir w1 +:+ "/config.yaml.tmpl")
       = files w2 !! (bgp_dir w2 +:+ "/config.yaml.tmpl") →
     writes bgp_dev_env w1 path c1 → writes bgp_dev_env w2 path c2 → c1 = c2)
  ∧ (∀ w1 w2 path c1 c2,
       cwd w1 = cwd w2 →
       shell w1 inspect_subnets = shell w2 inspect_subnets →
       shell w1 inspect_ipv4 = shell w2 inspect_ipv4 →
       shell w1 inspect_ipv6 = shell w2 inspect_ipv6 →
       files w1 !! (layer2_dir w1 +:+ "/config.yaml.tmpl")
         = files w2 !! (layer2_dir w2 +:+ "/config.yaml.tmpl") →
       writes layer2_dev_env w1 path c1 → writes layer2_dev_env w2 path c2 → c1 = c2)
  ∧ (∀ w path c1 c2,
       writes bgp_dev_env w path c1 →
       writes bgp_dev_env (bgp_dev_env w).1 path c2 → c1 = c2)
  ∧ (∀ w path c1 c2,
       writes layer2_dev_env w path c1 →
       writes layer2_dev_env (layer2_dev_env w).1 path c2 → c1 = c2).
Proof.
  assert (∀ w1 w2 path c1 c2,
     cwd w1 = cwd w2 →
     shell w1 get_nodes = shell w2 get_nodes →
     shell w1 inspect_frr = shell w2 inspect_frr →
     files w1 !! (bgp_dir w1 +:+ "/frr/bgpd.conf.tmpl")
       = files w2 !! (bgp_dir w2 +:+ "/frr/bgpd.conf.tmpl") →
     files w1 !! (bgp_dir w1 +:+ "/config.yaml.tmpl")
       = files w2 !! (bgp_dir w2 +:+ "/config.yaml.tmpl") →
     writes bgp_dev_env w1 path c1 → writes bgp_dev_env w2 path c2 → c1 = c2) as Hbgp.
  { intros w1 w2 path c1 c2 ????? H1 H2.
    apply (writes_triple _ _ _ _ _ _ _ (bgp_dev_env_triple w1)) in H1.
    apply (writes_triple _ _ _ _ _ _ _ (bgp_dev_env_triple w2)) in H2.
    by eapply (bgp_written_functional w1 w2). }
  assert (∀ w1 w2 path c1 c2,
       cwd w1 = cwd w2 →
       shell w1 inspect_subnets = shell w2 inspect_subnets →
       shell w1 inspect_ipv4 = shell w2 inspect_ipv4 →
       shell w1 inspect_ipv6 = shell w2 inspect_ipv6 →
       files w1 !! (layer2_dir w1 +:+ "/config.yaml.tmpl")
         = files w2 !! (layer2_dir w2 +:+ "/config.yaml.tmpl") →
       writes layer2_dev_env w1 path c1 → writes layer2_dev_env w2 path c2 → c1 = c2)
    as Hl2.
  { intros w1 w2 path c1 c2 ????? H1 H2.
    apply (writes_triple _ _ _ _ _ _ _ (layer2_dev_env_triple w1)) in H1.
    apply (writes_triple _ _ _ _ _ _ _ (layer2_dev_env_triple w2)) in H2.
    by eapply (layer2_written_functional w1 w2). }
  split; [exact Hbgp|]. split; [exact Hl2|]. split.
  - intros w path c1 c2 H1 H2.
    destruct (triple_final _ _ _ _ _ (bgp_dev_env_triple w)) as (Hc & Hs & Hf & _).
    assert (bgp_dir (bgp_dev_env w).1 = bgp_dir w) as Hd
      by (unfold bgp_dir; by rewrite Hc).
    symmetry. apply (Hbgp (bgp_dev_env w).1 w path c2 c1); try done.
    + by rewrite Hs.
    + by rewrite Hs.
    + rewrite Hd. apply Hf. by left.
    + rewrite Hd. apply Hf. by right.
  - intros w path c1 c2 H1 H2.
    destruct (triple_final _ _ _ _ _ (layer2_dev_env_triple w)) as (Hc & Hs & Hf & _).
    assert (layer2_dir (layer2_dev_env w).1 = layer2_dir w) as Hd
      by (unfold layer2_dir; by rewrite Hc).
    symmetry. apply (Hl2 (layer2_dev_env w).1 w path c2 c1); try done.
    + by rewrite Hs.
    + by rewrite Hs.
    + by rewrite Hs.
    + rewrite Hd. by apply Hf.
Qed.

Lemma rendering_deterministic_witness :
  frr_header +:+ "neighbor 10.0.0.2 peer-group; neighbor 10.0.0.3, 10.0.0.4"
  = frr_header +:+ "neighbor 10.0.0.2 peer-group; neighbor 10.0.0.3, 10.0.0.4".
Proof.
  apply (proj1 (proj2 (proj2 rendering_deterministic))
           (sample_world "10.0.0.2 10.0.0.3 10.0.0.4")
           "/src/dev-env/bgp/frr-volume/bgpd.conf").
  - eexists. split; [vm_compute; reflexivity|].
    apply list_elem_of_In. vm_compute. auto 20.
  - eexists. split; [vm_compute; reflexivity|].
    apply list_elem_of_In. vm_compute. auto 20.
Defined.


Lemma named_ext all names1 names2 :
  (∀ a, a ∈ names1 ↔ a ∈ names2) → named all names1 = named all names2.
Proof.
  intros H. unfold named. apply set_eq. intros x.
  rewrite !elem_of_union, !elem_of_list_to_set, !list_elem_of_filter.
  rewrite (H x). do 2 case_decide; try done; exfalso; naive_solver.
Qed.

Lemma known_ext all names1 names2 :
  (∀ a, a ∈ names1 ↔ a ∈ names2) →
  Forall (known all) names1 → Forall (known all) names2.
Proof. rewrite !Forall_forall. intros H H1 a Ha. apply H1, H, Ha. Qed.

Lemma check_architectures_known architectures :
  Forall (known all_architectures) architectures →
  _check_architectures architectures
  = ([], Return (sorted (elements (checked all_architectures {[ "amd64" ]} architectures)))).
Proof.
  intros Hk. unfold _check_architectures, checked.
  rewrite check_architectures_loop_known by done. rewrite (left_id_L ∅ (∪)).
  case_decide as E; [|done]. by rewrite E, (right_id_L ∅ (∪)).
Qed.

Lemma check_binaries_known binaries :
  Forall (known all_binaries) binaries →
  _check_binaries binaries
  = ([], Return (sorted (elements
                   (checked all_binaries {[ "speaker"; "controller" ]} binaries)))).
Proof.
  intros Hk. unfold _check_binaries, checked.
  rewrite check_binaries_loop_known by done. rewrite (left_id_L ∅ (∪)).
  case_decide as E; [|done]. rewrite E, (right_id_L ∅ (∪)). done.
Qed.

(** X1: The checkers see only which names are given: the order of the names
    and their repetitions do not change the result. *)
Theorem check_depends_on_set (names1 names2 : list string) :
  (∀ a, a ∈ names1 ↔ a ∈ names2) →
  (Forall (known all_architectures) names1 →
   _check_architectures names1 = _check_architectures names2)
  ∧ (Forall (known all_binaries) names1 →
     _check_binaries names1 = _check_binaries names2).
Proof.
  intros H. split; intros Hk.
  - rewrite !check_architectures_known by eauto using known_ext.
    unfold checked. by rewrite (named_ext _ _ _ H).
  - rewrite !check_binaries_known by eauto using known_ext.
    unfold checked. by rewrite (named_ext _ _ _ H).
Qed.

Lemma check_depends_on_set_witness :
  _check_architectures ["arm"; "amd64"; "arm"] = _check_architectures ["amd64"; "arm"].
Proof.
  apply (proj1 (check_depends_on_set ["arm"; "amd64"; "arm"] ["amd64"; "arm"]
                  ltac:(set_solver))).
  repeat constructor; by vm_compute.
Defined.

Lemma named_of_members all (X : gset string) names :
  "all" ∉ X → (∀ a, a ∈ names ↔ a ∈ X) → named all names = X.
Proof.
  intros Hall H. unfold named.
  rewrite decide_False by (rewrite H; done).
  apply set_eq. intros x.
  rewrite elem_of_union, elem_of_list_to_set, list_elem_of_filter, H.
  split; [set_solver|]. intros Hx. right. split; [|done]. by intros ->.
Qed.

Lemma checked_subseteq all default names :
  Forall (known all) names → default ⊆ all → checked all default names ⊆ all.
Proof.
  intros Hk Hd. unfold checked. case_decide; [done|]. by apply named_subseteq.
Qed.

Lemma recheck all default names :
  "all" ∉ all → default ⊆ all → default ≠ ∅ → Forall (known all) names →
  let result := sorted (elements (checked all default names)) in
  Forall (known all) result ∧ checked all default result = checked all default names.
Proof.
  intros Hall Hd Hne Hk result.
  pose proof (checked_subseteq all default names Hk Hd) as Hsub.
  assert (named all result = checked all default names) as E.
  { apply named_of_members; [set_solver|].
    intros a. apply elem_of_sorted_elements. }
  split.
  - apply Forall_forall. intros a Ha. right.
    apply elem_of_sorted_elements in Ha. set_solver.
  - unfold checked at 1. rewrite E. rewrite decide_False; [done|].
    unfold checked. case_decide as E'; [done|]. done.
Qed.

(** X2: Checking a list that was already checked returns it unchanged.  This
    is what happens when [push] passes its checked lists, one name at a
    time, to [build], and when [push_multiarch] passes them to [push]. *)
Theorem check_idempotent (names : list string) :
  (Forall (known all_architectures) names →
   ∃ result, _check_architectures names = ([], Return result)
     ∧ _check_architectures result = ([], Return result))
  ∧ (Forall (known all_binaries) names →
     ∃ result, _check_binaries names = ([], Return result)
       ∧ _check_binaries result = ([], Return result)).
Proof.
  split; intros Hk; eexists; (split; [|]).
  - by apply check_architectures_known.
  - destruct (recheck all_architectures {[ "amd64" ]} names) as [Hk' E];
      [by vm_compute|set_solver|set_solver|done|].
    rewrite check_architectures_known by done. by rewrite E.
  - by apply check_binaries_known.
  - destruct (recheck all_binaries {[ "speaker"; "controller" ]} names) as [Hk' E];
      [by vm_compute|set_solver|set_solver|done|].
    rewrite check_binaries_known by done. by rewrite E.
Qed.

Lemma check_idempotent_witness :
  ∃ result, _check_binaries ["speaker"; "all"] = ([], Return result)
    ∧ _check_binaries result = ([], Return result).
Proof.
  apply (proj2 (check_idempotent ["speaker"; "all"])).
  repeat constructor; by vm_compute.
Defined.

Lemma check_architectures_loop_app names1 names2 out :
  Forall (known all_architectures) names1 →
  _check_architectures_loop (names1 ++ names2) out
  = _check_architectures_loop names2 (out ∪ named all_architectures names1).
Proof.
  revert out. induction names1 as [|a rest IH]; intros out Hk; simpl.
  - rewrite named_nil. by rewrite (right_id_L ∅ (∪)).
  - apply Forall_cons in Hk as [Ha Hrest].
    destruct (decide (a = "all")) as [->|Hne].
    + rewrite IH by done. rewrite named_cons_all. f_equal. set_solver.
    + destruct Ha as [?|Ha]; [done|].
      rewrite decide_False by (intros Hn; by apply Hn).
      rewrite IH by done. rewrite named_cons_other by done. f_equal. set_solver.
Qed.

Lemma check_binaries_loop_app names1 names2 out :
  Forall (known all_binaries) names1 →
  _check_binaries_loop (names1 ++ names2) out
  = _check_binaries_loop names2 (out ∪ named all_binaries names1).
Proof.
  revert out. induction names1 as [|a rest IH]; intros out Hk; simpl.
  - rewrite named_nil. by rewrite (right_id_L ∅ (∪)).
  - apply Forall_cons in Hk as [Ha Hrest].
    destruct (decide (a = "all")) as [->|Hne].
    + rewrite IH by done. rewrite named_cons_all. f_equal. set_solver.
    + destruct Ha as [?|Ha]; [done|].
      rewrite decide_False by (intros Hn; by apply Hn).
      rewrite IH by done. rewrite named_cons_other by done. f_equal. set_solver.
Qed.

(** X3: The first name that is not known is the one reported: the checkers
    print it, then the sorted list of what is supported, and exit with
    status 1, whatever follows it in the list. *)
Theorem check_reports_first_unknown (names1 names2 : list string) (a : string) :
  (Forall (known all_architectures) names1 → ¬ known all_architectures a →
   _check_architectures (names1 ++ a :: names2)
   = (["unknown architecture " +:+ a;
       "Supported architectures: amd64, arm, arm64, ppc64le, s390x"],
      Raise (SystemExit 1)))
  ∧ (Forall (known all_binaries) names1 → ¬ known all_binaries a →
     _check_binaries (names1 ++ a :: names2)
     = (["Unknown binary " +:+ a;
         "Known binaries: controller, mirror-server, speaker"],
        Raise (SystemExit 1))).
Proof.
  split; intros Hk Ha.
  - unfold _check_architectures. rewrite check_architectures_loop_app by done.
    simpl. rewrite decide_False by (intros ->; apply Ha; by left).
    rewrite decide_True by (intros H; apply Ha; by right).
    do 3 f_equal.
  - unfold _check_binaries. rewrite check_binaries_loop_app by done.
    simpl. rewrite decide_False by (intros ->; apply Ha; by left).
    rewrite decide_True by (intros H; apply Ha; by right).
    do 3 f_equal.
Qed.

Lemma check_reports_first_unknown_witness :
  _check_architectures (["arm"; "all"] ++ "x86" :: ["mips"])
  = (["unknown architecture x86";
      "Supported architectures: amd64, arm, arm64, ppc64le, s390x"],
     Raise (SystemExit 1)).
Proof.
  apply (proj1 (check_reports_first_unknown ["arm"; "all"] ["mips"] "x86")).
  - repeat constructor; by vm_compute.
  - intros [H|H]; [discriminate H|]. revert H. by vm_compute.
Defined.


Lemma used_list_sorted network used4 used6 :
  used_list network used4 used6 = sorted (used_of network used4 used6).
Proof. unfold used_list, used_of. by case_bool_decide. Qed.

Lemma last_sorted_greatest l x :
  last (sorted l) = Some x → x ∈ l ∧ ∀ y, y ∈ l → String.le y x.
Proof.
  intros H. apply last_Some in H as [l' H].
  pose proof (sorted_StronglySorted l) as Hs. rewrite H in Hs.
  apply StronglySorted_app in Hs as (Hle & _ & _).
  assert (∀ y, y ∈ l ↔ y ∈ l' ++ [x]) as Hin
    by (intros y; by rewrite <-H, sorted_Permutation).
  split; [apply Hin; set_solver|].
  intros y [Hy|Hy%list_elem_of_singleton]%Hin%elem_of_app.
  - apply Hle; [done|set_solver].
  - by subst y.
Qed.

(** X4: The entry the loop body parses is an entry of the used list of the
    version of the subnet, and no entry of that list is greater in the
    order of strings (which is not the order of addresses). *)
Theorem layer2_range_takes_greatest_string i used4 used6 net start end_ :
  layer2_range i used4 used6 = Return (net, start, end_) →
  ∃ last_used interface,
    last_used ∈ used_of net used4 used6
    ∧ (∀ entry, entry ∈ used_of net used4 used6 → String.le entry last_used)
    ∧ ip_interface last_used = Return interface
    ∧ start = host (i_family interface) (_ip (i_address interface) + 1)
    ∧ end_ = host (i_family interface) (_ip (i_address interface) + 11).
Proof.
  intros H. apply layer2_range_Return in H
    as (last_used & interface & Hn & Hl & Hi & Hs & He & _ & _).
  rewrite used_list_sorted in Hl. apply last_sorted_greatest in Hl as [Hin Hmax].
  apply add_Return in Hs as [-> _]. apply add_Return in He as [-> _].
  by exists last_used, interface.
Qed.

Lemma layer2_range_takes_greatest_string_witness :
  ∃ last_used interface,
    last_used ∈ ["172.18.0.9/16"; "172.18.0.10/16"]
    ∧ (∀ entry, entry ∈ ["172.18.0.9/16"; "172.18.0.10/16"] → String.le entry last_used)
    ∧ ip_interface last_used = Return interface
    ∧ host IPv4 2886860810 = host (i_family interface) (_ip (i_address interface) + 1)
    ∧ host IPv4 2886860820 = host (i_family interface) (_ip (i_address interface) + 11).
Proof.
  apply (layer2_range_takes_greatest_string "172.18.0.0/16"
           ["172.18.0.9/16"; "172.18.0.10/16"] []
           (MkNetwork (MkAddress IPv4 2886860800 None) 4294901760 16)).
  vm_compute. reflexivity.
Defined.

(** Two subnets of one version get the same range. *)
Lemma layer2_range_same_version i j used4 used6 net net' s e s' e' :
  layer2_range i used4 used6 = Return (net, s, e) →
  layer2_range j used4 used6 = Return (net', s', e') →
  _version (n_family net) = _version (n_family net') →
  s = s' ∧ e = e'.
Proof.
  intros H H' Hv.
  apply layer2_range_Return in H as (l & itf & _ & Hl & Hi & Hs & He & _).
  apply layer2_range_Return in H' as (l' & itf' & _ & Hl' & Hi' & Hs' & He' & _).
  unfold used_list in *. rewrite Hv in Hl. rewrite Hl in Hl'. simplify_eq.
  rewrite Hi in Hi'. simplify_eq. rewrite Hs in Hs'. rewrite He in He'.
  by simplify_eq.
Qed.

Lemma layer2_ranges_acc subnets used4 used6 sr0 sr :
  layer2_ranges subnets used4 used6 sr0 = Return sr →
  (∀ i, i ∈ subnets →
     ∃ net s e, layer2_range i used4 used6 = Return (net, s, e)
       ∧ sr !! _version (n_family net) = Some (range_str s e))
  ∧ (∀ v, sr !! v = sr0 !! v
        ∨ ∃ i net s e, i ∈ subnets
            ∧ layer2_range i used4 used6 = Return (net, s, e)
            ∧ v = _version (n_family net) ∧ sr !! v = Some (range_str s e)).
Proof.
  revert sr0. induction subnets as [|i rest IH]; intros sr0 H; simpl in H.
  - simplify_eq. split; [by intros i ?%elem_of_nil|auto].
  - apply obind_Return in H as ([[net s] e] & Hi & H).
    destruct (IH _ H) as [IH1 IH2]. clear IH.
    assert (sr !! _version (n_family net) = Some (range_str s e)) as Hhead.
    { destruct (IH2 (_version (n_family net)))
        as [E|(j & net' & s' & e' & Hj & Hr & Hv & E)].
      - by rewrite E, lookup_insert_eq.
      - destruct (layer2_range_same_version _ _ _ _ _ _ _ _ _ _ Hi Hr Hv) as [-> ->].
        done. }
    split.
    + intros j [->|Hj]%elem_of_cons; [eauto 10|auto].
    + intros v. destruct (decide (v = _version (n_family net))) as [->|Hne].
      * right. exists i, net, s, e. set_solver.
      * destruct (IH2 v) as [E|(j & net' & s' & e' & Hj & Hr & Hv & E)].
        -- left. by rewrite E, lookup_insert_ne.
        -- right. exists j, net', s', e'. set_solver.
Qed.

Lemma version_4_or_6 f : _version f = 4 ∨ _version f = 6.
Proof. destruct f; auto. Qed.

Lemma layer2_ranges_app subnets1 subnets2 used4 used6 sr0 :
  layer2_ranges (subnets1 ++ subnets2) used4 used6 sr0
  = sr ← layer2_ranges subnets1 used4 used6 sr0;
    layer2_ranges subnets2 used4 used6 sr.
Proof.
  revert sr0. induction subnets1 as [|i rest IH]; intros sr0; simpl; [done|].
  destruct (layer2_range i used4 used6) as [[[net s] e]|]; simpl; [|done].
  apply IH.
Qed.

(** X5: The table the loop fills, when it completes: the range of every
    subnet is in the table under the version of the subnet (a later
    subnet of the same version stores the same string again); every entry
    comes from a subnet, so the keys are 4 and 6 only; and the loop stops
    at the first subnet whose range fails, with the exception of that
    subnet. *)
Theorem layer2_ranges_table (subnets used4 used6 : list string) :
  (∀ service_range,
     layer2_ranges subnets used4 used6 ∅ = Return service_range →
     (∀ i, i ∈ subnets →
        ∃ net s e, layer2_range i used4 used6 = Return (net, s, e)
          ∧ service_range !! _version (n_family net) = Some (range_str s e))
     ∧ (∀ v r, service_range !! v = Some r →
          (v = 4 ∨ v = 6)
          ∧ ∃ i net s e, i ∈ subnets
              ∧ layer2_range i used4 used6 = Return (net, s, e)
              ∧ v = _version (n_family net) ∧ r = range_str s e))
  ∧ (∀ before i after service_range exception,
       subnets = before ++ i :: after →
       layer2_ranges before used4 used6 ∅ = Return service_range →
       layer2_range i used4 used6 = Raise exception →
       layer2_ranges subnets used4 used6 ∅ = Raise exception).
Proof.
  split.
  - intros sr H. destruct (layer2_ranges_acc _ _ _ _ _ H) as [H1 H2].
    split; [done|]. intros v r Hv.
    destruct (H2 v) as [E|(i & net & s & e & Hi & Hr & -> & E)].
    + by rewrite E, lookup_empty in Hv.
    + split; [apply version_4_or_6|]. exists i, net, s, e.
      rewrite E in Hv. by simplify_eq.
  - intros before i after sr exception -> Hb Hi.
    rewrite layer2_ranges_app, Hb. simpl. by rewrite Hi.
Qed.

Lemma layer2_ranges_table_witness :
  layer2_ranges (["172.18.0.0/16"] ++ "172.18.0.0/28" :: ["fc00::/64"])
    ["172.18.0.2/16"; "172.18.0.5/16"] [] ∅
  = Raise (Exit "network range 172.18.0.16/32 is not in 172.18.0.0/28").
Proof.
  apply (proj2 (layer2_ranges_table
                  (["172.18.0.0/16"] ++ "172.18.0.0/28" :: ["fc00::/64"])
                  ["172.18.0.2/16"; "172.18.0.5/16"] [])
           ["172.18.0.0/16"] "172.18.0.0/28" ["fc00::/64"]
           {[ 4 := "172.18.0.6-172.18.0.16" ]});
    [reflexivity|vm_compute; reflexivity|vm_compute; reflexivity].
Defined.


Section reading.
Implicit Types (s t w : string) (ws : list string).

Lemma rstrip_blank t : Str.all_chars Str.is_space t = true → Str.rstrip t = "".
Proof.
  induction t as [|c t IH]; [done|]. simpl.
  intros [Hc Ht]%andb_prop. by rewrite IH, Hc.
Qed.

Lemma rstrip_append_blank s t :
  Str.all_chars Str.is_space t = true → Str.rstrip (s +:+ t) = Str.rstrip s.
Proof.
  intros Ht. induction s as [|c s IH].
  - by rewrite append_nil_l, rstrip_blank.
  - rewrite append_cons. simpl. by rewrite IH.
Qed.

Lemma rstrip_cons_word c w :
  Str.rstrip w = w → w ≠ "" → Str.rstrip (String c w) = String c w.
Proof. intros E Hw. simpl. rewrite E. by destruct w. Qed.

Lemma rstrip_word w : word w → Str.rstrip w = w.
Proof.
  intros [Hne Hw]. induction w as [|c w IH]; [done|].
  simpl in Hw. apply andb_prop in Hw as [Hc Hw]. apply negb_true_iff in Hc.
  destruct w as [|c' w].
  - simpl. by rewrite Hc.
  - apply rstrip_cons_word; [|done]. by apply IH.
Qed.

Lemma rstrip_append_word s w : word w → Str.rstrip (s +:+ w) = s +:+ w.
Proof.
  intros Hw. induction s as [|c s IH].
  - rewrite append_nil_l. by apply rstrip_word.
  - rewrite append_cons. apply rstrip_cons_word; [done|].
    destruct Hw as [Hne _]. destruct s; [by rewrite append_nil_l|done].
Qed.

Lemma lstrip_word_append w t : word w → Str.lstrip (w +:+ t) = w +:+ t.
Proof.
  intros [Hne Hw]. destruct w as [|c w]; [done|].
  simpl in Hw. apply andb_prop in Hw as [Hc _]. apply negb_true_iff in Hc.
  rewrite append_cons. simpl. by rewrite Hc.
Qed.

Lemma word_no_space w : word w → Str.contains_char " " w = false.
Proof.
  intros [_ Hw]. induction w as [|c w IH]; [done|]. simpl in *.
  apply andb_prop in Hw as [Hc Hw]. rewrite IH, orb_false_r by done.
  apply Ascii.eqb_neq. intros ->. by vm_compute in Hc.
Qed.

Lemma split_cons_false sep c s :
  Ascii.eqb c sep = false →
  Str.split sep (String c s)
  = match Str.split sep s with
    | w :: ws => String c w :: ws
    | [] => [String c ""]
    end.
Proof. intros H. simpl. by rewrite H. Qed.

Lemma split_word_sep sep w t :
  Str.contains_char sep w = false →
  Str.split sep (w +:+ String sep t) = w :: Str.split sep t.
Proof.
  induction w as [|c w IH]; intros H.
  - rewrite append_nil_l. simpl. by rewrite Ascii.eqb_refl.
  - simpl in H. apply orb_false_elim in H as [Hc Hw].
    rewrite append_cons, split_cons_false, IH by done. done.
Qed.

Lemma split_word sep w : Str.contains_char sep w = false → Str.split sep w = [w].
Proof.
  induction w as [|c w IH]; intros H; [done|].
  simpl in H. apply orb_false_elim in H as [Hc Hw].
  by rewrite split_cons_false, IH.
Qed.

Lemma join_cons_cons sep w w' ws :
  Str.join sep (w :: w' :: ws) = w +:+ sep +:+ Str.join sep (w' :: ws).
Proof. done. Qed.

Lemma join_cons_nonempty sep w ws :
  ws ≠ [] → Str.join sep (w :: ws) = w +:+ sep +:+ Str.join sep ws.
Proof. by destruct ws. Qed.

Lemma split_join ws :
  ws ≠ [] → Forall word ws → Str.split " " (Str.join " " ws) = ws.
Proof.
  intros Hne Hws. induction Hws as [|w ws Hw Hws IH]; [done|].
  destruct ws as [|w' ws].
  - apply split_word. by apply word_no_space.
  - rewrite join_cons_cons. change (" " +:+ ?t) with (String " " t).
    rewrite split_word_sep by (by apply word_no_space).
    by rewrite IH.
Qed.

Lemma join_ends_with_word ws :
  ws ≠ [] → Forall word ws → ∃ s w, Str.join " " ws = s +:+ w ∧ word w.
Proof.
  intros Hne Hws. induction Hws as [|w ws Hw Hws IH]; [done|].
  destruct ws as [|w' ws].
  - by exists "", w.
  - destruct IH as (s & w0 & E & Hw0); [done|].
    exists (w +:+ " " +:+ s), w0. split; [|done].
    by rewrite join_cons_cons, E, !append_assoc.
Qed.

Lemma join_starts_with_word ws :
  ws ≠ [] → Forall word ws → ∃ w t, Str.join " " ws = w +:+ t ∧ word w.
Proof.
  intros Hne Hws. destruct Hws as [|w ws Hw Hws]; [done|].
  destruct ws as [|w' ws].
  - exists w, "". split; [|done]. simpl. clear. induction w; [done|].
    rewrite append_cons. by f_equal.
  - exists w, (" " +:+ Str.join " " (w' :: ws)). by rewrite join_cons_cons.
Qed.

Lemma strip_join ws tail :
  ws ≠ [] → Forall word ws → Str.all_chars Str.is_space tail = true →
  Str.strip (Str.join " " ws +:+ tail) = Str.join " " ws.
Proof.
  intros Hne Hws Htail. unfold Str.strip.
  destruct (join_starts_with_word ws Hne Hws) as (w & t & E & Hw).
  destruct (join_ends_with_word ws Hne Hws) as (s & w' & E' & Hw').
  rewrite E at 1. rewrite append_assoc, lstrip_word_append by done.
  rewrite <-append_assoc, <-E, rstrip_append_blank by done.
  rewrite E', rstrip_append_word by done. done.
Qed.
End reading.

(** X6: The way [layer2_dev_env] reads a list from docker gives back what the
    template of the command printed: for words each followed by one space,
    then a newline, [stdout.strip().split(' ')] is the list of the words.
    Printed with nothing at all, it is the list of one empty string. *)
Theorem strip_split_reads_words (items : list string) :
  Forall word items →
  Str.split " " (Str.strip (String.concat "" ((λ a, a +:+ " ") <$> items) +:+ Str.nl))
  = if decide (items = []) then [""] else items.
Proof.
  intros Hws. case_decide as E; [subst items; by vm_compute|].
  assert (String.concat "" ((λ a, a +:+ " ") <$> items) = Str.join " " items +:+ " ")
    as ->.
  { destruct items as [|w ws]; [done|]. clear. revert w.
    induction ws as [|w' ws IH]; intros w; [done|].
    change (String.concat "") with (Str.join "") in *.
    rewrite (fmap_cons _ w), (join_cons_nonempty "") by done.
    by rewrite IH, join_cons_cons, append_nil_l, !append_assoc. }
  rewrite append_assoc, strip_join by done. by apply split_join.
Qed.

Lemma strip_split_reads_words_witness :
  Str.split " " (Str.strip ("172.18.0.3/16 172.18.0.2/16 " +:+ Str.nl))
  = ["172.18.0.3/16"; "172.18.0.2/16"].
Proof.
  apply (strip_split_reads_words ["172.18.0.3/16"; "172.18.0.2/16"]).
  repeat constructor; by vm_compute.
Defined.

Section words.
Implicit Types (s t w cur : string) (ws : list string).

Lemma rev_app_rev_app a b c :
  String.rev_app (String.rev_app a b) c = String.rev_app b (a +:+ c).
Proof.
  revert b c. induction a as [|x a IH]; intros b c; [done|].
  simpl. rewrite IH. simpl. by rewrite append_cons.
Qed.

Lemma rev_rev_app w : String.rev (String.rev_app w "") = w.
Proof.
  unfold String.rev. rewrite rev_app_rev_app. simpl.
  induction w as [|c w IH]; [done|]. rewrite append_cons. by f_equal.
Qed.

Lemma words_go_nonspace cur w t :
  Str.all_chars (λ c, negb (Str.is_space c)) w = true →
  Str.words_go (Some cur) (w +:+ t) = Str.words_go (Some (String.rev_app w cur)) t.
Proof.
  revert cur. induction w as [|c w IH]; intros cur Hw; [done|].
  simpl in Hw. apply andb_prop in Hw as [Hc Hw]. apply negb_true_iff in Hc.
  rewrite append_cons. simpl. rewrite Hc. by rewrite IH.
Qed.

Lemma words_go_word w t :
  word w →
  Str.words_go None (w +:+ t) = Str.words_go (Some (String.rev_app w "")) t.
Proof.
  intros [Hne Hw]. destruct w as [|c w]; [done|].
  simpl in Hw. apply andb_prop in Hw as [Hc Hw]. apply negb_true_iff in Hc.
  rewrite append_cons. simpl. rewrite Hc. simpl. by rewrite words_go_nonspace.
Qed.

Lemma words_go_space (cur : option string) c t :
  Str.is_space c = true →
  Str.words_go cur (String c t)
  = option_list (String.rev <$> cur) ++ Str.words_go None t.
Proof. intros H. simpl. by rewrite H. Qed.

Lemma split_ws_join ws : Forall word ws → Str.split_ws (Str.join " " ws) = ws.
Proof.
  unfold Str.split_ws. intros Hws. induction Hws as [|w ws Hw Hws IH]; [done|].
  destruct ws as [|w' ws].
  - replace (Str.join " " [w]) with (w +:+ "")
      by (simpl; clear; induction w; [done|]; rewrite append_cons; by f_equal).
    rewrite words_go_word by done. simpl. by rewrite rev_rev_app.
  - rewrite join_cons_cons, words_go_word by done.
    change (" " +:+ ?t) with (String " " t).
    rewrite words_go_space by done. rewrite IH.
    cbn [fmap option_fmap option_map option_list app]. by rewrite rev_rev_app.
Qed.
End words.

(** X7: The way [bgp_dev_env] reads the node addresses gives back what
    kubectl printed: for words separated by one space and ended by a
    newline, [stdout.strip().split()] is the list of the words, and the
    empty list when nothing is printed, unlike [split(' ')] above. *)
Theorem strip_split_reads_nodes (items : list string) :
  Forall word items →
  Str.split_ws (Str.strip (Str.join " " items +:+ Str.nl)) = items.
Proof.
  intros Hws. destruct (decide (items = [])) as [->|Hne]; [by vm_compute|].
  rewrite strip_join by done. by apply split_ws_join.
Qed.

Lemma strip_split_reads_nodes_witness :
  Str.split_ws (Str.strip ("10.0.0.2 10.0.0.3 10.0.0.4" +:+ Str.nl))
  = ["10.0.0.2"; "10.0.0.3"; "10.0.0.4"].
Proof.
  apply (strip_split_reads_nodes ["10.0.0.2"; "10.0.0.3"; "10.0.0.4"]).
  repeat constructor; by vm_compute.
Defined.


(** The world after a step, as a record. *)
Ltac world :=
  unfold record, set_files, set_dirs; cbn [cwd files dirs shell log].

Section steps.
Implicit Types (w : World) (path content : string).

Lemma bind_run {A B} (m : task A) (k : A → task B) w w' a :
  m w = (w', Return a) → (m ≫= k) w = k a w'.
Proof. intros H. unfold mbind, task_bind. by rewrite H. Qed.

Lemma bind_raise {A B} (m : task A) (k : A → task B) w w' e :
  m w = (w', Raise e) → (m ≫= k) w = (w', Raise e).
Proof. intros H. unfold mbind, task_bind. by rewrite H. Qed.

Lemma run_ok command stdout w :
  shell w command = inl stdout →
  run command w = (record (Ran command) w, Return stdout).
Proof. intros H. unfold run. simpl. by rewrite H. Qed.

Lemma run_failed command text w :
  shell w command = inr text →
  run command w = (record (Ran command) w, Raise (UnexpectedExit text)).
Proof. intros H. unfold run. simpl. by rewrite H. Qed.

Lemma read_file_ok path content w :
  path ∉ dirs w → files w !! path = Some content →
  read_file path w = (w, Return content).
Proof. intros Hd Hf. unfold read_file. by rewrite bool_decide_false, Hf. Qed.

Lemma store_ok path content w :
  path ∉ dirs w → dirname path ∈ dirs w →
  store path content w = (set_files (<[path := content]> (files w)) w, Return ()).
Proof.
  intros Hd Hp. unfold store.
  rewrite bool_decide_false by done. by rewrite bool_decide_false by tauto.
Qed.

Lemma write_file_ok path content w :
  path ∉ dirs w → dirname path ∈ dirs w →
  write_file path content w
  = (record (Wrote path content) (set_files (<[path := content]> (files w)) w),
     Return ()).
Proof.
  intros Hd Hp. unfold write_file.
  by erewrite bind_run by (by apply store_ok).
Qed.

Lemma dirname_append dir name :
  Str.contains_char "/" name = false → dirname (dir +:+ String "/" name) = dir.
Proof.
  intros Hn. induction dir as [|c dir IH].
  - rewrite append_nil_l. simpl. by rewrite Hn.
  - rewrite append_cons. simpl. rewrite IH.
    assert (Str.contains_char "/" (dir +:+ String "/" name) = true) as ->; [|done].
    clear. induction dir as [|d dir IH]; [done|].
    rewrite append_cons. simpl. by rewrite IH, orb_true_r.
Qed.
End steps.

(** X8: When the commands succeed, the loop completes with both versions in
    its table and the template is there, [layer2_dev_env] returns after it
    wrote the rendered text to [config.yaml], changed no other file and
    applied the file: its log is the three queries, the write and the
    apply, in this order. *)
Theorem layer2_dev_env_succeeds (w : World)
    (subnets used4 used6 applied template layer2_config : string)
    (service_range : gmap Z string) :
  shell w inspect_subnets = inl subnets →
  shell w inspect_ipv4 = inl used4 →
  shell w inspect_ipv6 = inl used6 →
  shell w (kubectl_apply (layer2_dir w)) = inl applied →
  layer2_ranges (Str.split " " (Str.strip subnets)) (Str.split " " (Str.strip used4))
    (Str.split " " (Str.strip used6)) ∅ = Return service_range →
  layer2_dir w ∈ dirs w →
  (layer2_dir w +:+ "/config.yaml.tmpl") ∉ dirs w →
  (layer2_dir w +:+ "/config.yaml") ∉ dirs w →
  files w !! (layer2_dir w +:+ "/config.yaml.tmpl") = Some template →
  render_layer2_config template service_range = Return layer2_config →
  (layer2_dev_env w).2 = Return ()
  ∧ files (layer2_dev_env w).1
    = <[layer2_dir w +:+ "/config.yaml" := layer2_config]> (files w)
  ∧ dirs (layer2_dev_env w).1 = dirs w
  ∧ log (layer2_dev_env w).1
    = log w ++ [Ran inspect_subnets; Ran inspect_ipv4; Ran inspect_ipv6;
                Wrote (layer2_dir w +:+ "/config.yaml") layer2_config;
                Ran (kubectl_apply (layer2_dir w))].
Proof.
  intros Hs H4 H6 Ha Hsr Hdir Htd Hod Ht Hcfg.
  assert (layer2_dev_env w
          = (record (Ran (kubectl_apply (layer2_dir w)))
               (record (Wrote (layer2_dir w +:+ "/config.yaml") layer2_config)
                  (set_files (<[layer2_dir w +:+ "/config.yaml" := layer2_config]> (files w))
                     (record (Ran inspect_ipv6)
                        (record (Ran inspect_ipv4) (record (Ran inspect_subnets) w))))),
             Return ())) as E.
  { unfold layer2_dev_env.
    erewrite bind_run by (by apply run_ok). cbv zeta.
    erewrite bind_run by (by apply run_ok).
    erewrite bind_run by (by apply run_ok).
    erewrite bind_run by (unfold lift; by rewrite Hsr).
    erewrite bind_run by done.
    erewrite bind_run by (by apply read_file_ok).
    erewrite bind_run by (unfold lift; by rewrite Hcfg).
    erewrite bind_run
      by (apply write_file_ok; simpl; [done|by rewrite dirname_append]).
    erewrite bind_run by (by apply run_ok). done. }
  rewrite E. simpl. repeat split; try done.
  by rewrite <-!app_assoc.
Qed.

Lemma layer2_dev_env_succeeds_witness :
  (layer2_dev_env (sample_world "")).2 = Return ()
  ∧ files (layer2_dev_env (sample_world "")).1
    = <["/src/dev-env/layer2/config.yaml" :=
          yaml_header
          +:+ "- 172.18.0.5-172.18.0.15; - fc00:f853:ccd:e793::5-fc00:f853:ccd:e793::f"]>
        (files (sample_world ""))
  ∧ dirs (layer2_dev_env (sample_world "")).1 = dirs (sample_world "")
  ∧ log (layer2_dev_env (sample_world "")).1
    = log (sample_world "")
      ++ [Ran inspect_subnets; Ran inspect_ipv4; Ran inspect_ipv6;
          Wrote "/src/dev-env/layer2/config.yaml"
            (yaml_header
             +:+ "- 172.18.0.5-172.18.0.15; - fc00:f853:ccd:e793::5-fc00:f853:ccd:e793::f");
          Ran (kubectl_apply "/src/dev-env/layer2")].
Proof.
  apply (layer2_dev_env_succeeds (sample_world "")
           ("172.18.0.0/16 fc00:f853:ccd:e793::/64 " +:+ Str.nl)
           ("172.18.0.3/16 172.18.0.2/16 172.18.0.4/16 " +:+ Str.nl)
           ("fc00:f853:ccd:e793::3/64 fc00:f853:ccd:e793::2/64 fc00:f853:ccd:e793::4/64 "
            +:+ Str.nl)
           "" "- SERVICE_V4_RANGE; - SERVICE_V6_RANGE"
           (yaml_header
            +:+ "- 172.18.0.5-172.18.0.15; - fc00:f853:ccd:e793::5-fc00:f853:ccd:e793::f")
           {[ 4 := "172.18.0.5-172.18.0.15";
              6 := "fc00:f853:ccd:e793::5-fc00:f853:ccd:e793::f" ]});
    try (vm_compute; reflexivity); by vm_compute.
Defined.

Section more_steps.
Implicit Types (w : World) (path content : string).

Lemma run_rm_rf_ok dir stdout w :
  shell w (rm_rf dir) = inl stdout →
  run_rm_rf dir w
  = (set_dirs (filter (λ p, ¬ below dir p) (dirs w))
       (set_files (filter (λ kv, ¬ below dir kv.1) (files w))
          (record (Ran (rm_rf dir)) w)),
     Return stdout).
Proof.
  intros H. unfold run_rm_rf.
  by erewrite bind_run by (by apply run_ok).
Qed.

Lemma run_rm_rf_failed dir text w :
  shell w (rm_rf dir) = inr text →
  run_rm_rf dir w = (record (Ran (rm_rf dir)) w, Raise (UnexpectedExit text)).
Proof.
  intros H. unfold run_rm_rf.
  by erewrite bind_raise by (by apply run_failed).
Qed.

Lemma os_mkdir_ok path w :
  path ∉ dirs w → files w !! path = None → dirname path ∈ dirs w →
  os_mkdir path w = (record (MadeDir path) (set_dirs ({[path]} ∪ dirs w) w), Return ()).
Proof.
  intros Hd Hf Hp. unfold os_mkdir.
  rewrite bool_decide_false; [by rewrite bool_decide_false by tauto|].
  rewrite Hf. intros [?|[? ?]]; [done|discriminate].
Qed.

Lemma os_mkdir_no_parent path w :
  path ∉ dirs w → files w !! path = None → dirname path ∉ dirs w →
  os_mkdir path w
  = (w, Raise (FileNotFoundError (oserror "[Errno 2] No such file or directory" path))).
Proof.
  intros Hd Hf Hp. unfold os_mkdir.
  rewrite bool_decide_false; [by rewrite bool_decide_true|].
  rewrite Hf. intros [?|[? ?]]; [done|discriminate].
Qed.

Lemma shutil_copyfile_ok src dst content w :
  src ∉ dirs w → files w !! src = Some content →
  dst ∉ dirs w → dirname dst ∈ dirs w →
  shutil_copyfile src dst w
  = (record (Copied src dst) (set_files (<[dst := content]> (files w)) w), Return ()).
Proof.
  intros Hs Hc Hd Hp. unfold shutil_copyfile.
  erewrite bind_run by (by apply read_file_ok).
  by erewrite bind_run by (by apply store_ok).
Qed.

Lemma below_self dir : below dir dir = true.
Proof. unfold below. by rewrite bool_decide_true. Qed.

Lemma below_child dir name : below dir (dir +:+ String "/" name) = true.
Proof.
  unfold below. apply orb_true_intro. right.
  change (String "/" name) with ("/" +:+ name).
  by rewrite <-append_assoc, prefix_append.
Qed.

Lemma append_nil_inv d a : d +:+ a = d → a = "".
Proof.
  intros H. apply (f_equal String.length) in H. rewrite length_append in H.
  destruct a; [done|simpl in H; lia].
Qed.

Lemma prefix_longer d a : String.prefix (d +:+ String "/" a) d = false.
Proof.
  induction d as [|c d IH]; [done|].
  by rewrite append_cons, prefix_cons, IH, andb_false_r.
Qed.

(** The parent of a directory does not lie below it. *)
Lemma below_parent dir name : below (dir +:+ String "/" name) dir = false.
Proof.
  unfold below. apply orb_false_intro.
  - apply bool_decide_eq_false. intros H. symmetry in H.
    by apply append_nil_inv in H.
  - by rewrite append_assoc, append_cons, prefix_longer.
Qed.
End more_steps.


Section bgp_run.
Context (w : World).
Context (nodes zebra daemons vtysh : string).
Local Notation dev_env_dir := (bgp_dir w).
Local Notation frr_volume_dir := (bgp_dir w +:+ "/frr-volume").

Hypothesis get_nodes_out : shell w get_nodes = inl nodes.
Hypothesis three : length (Str.split_ws (Str.strip nodes)) = 3%nat.
Hypothesis rm_rf_out : ∃ stdout, shell w (rm_rf frr_volume_dir) = inl stdout.
Hypothesis files_not_dirs : ∀ path, is_Some (files w !! path) → path ∉ dirs w.
Hypothesis dev_env_dir_there : dev_env_dir ∈ dirs w.
Hypothesis zebra_there : files w !! (dev_env_dir +:+ "/frr/zebra.conf") = Some zebra.
Hypothesis daemons_there : files w !! (dev_env_dir +:+ "/frr/daemons") = Some daemons.
Hypothesis vtysh_there : files w !! (dev_env_dir +:+ "/frr/vtysh.conf") = Some vtysh.

Lemma not_below_volume rest :
  String.prefix "/frr-volume" rest = false →
  ¬ below frr_volume_dir (dev_env_dir +:+ rest).
Proof.
  intros Hr. unfold below. intros [H|H]%Is_true_true%orb_true_iff.
  - apply bool_decide_eq_true, append_inj in H. subst rest.
    by vm_compute in Hr.
  - rewrite append_assoc, prefix_append_same in H.
    apply prefix_split in H as [r ->].
    by rewrite (append_assoc "/frr-volume" "/" r), prefix_append in Hr.
Qed.

Lemma dirname_child dir name :
  Str.contains_char "/" name = false → dirname (dir +:+ "/" +:+ name) = dir.
Proof. apply dirname_append. Qed.

Lemma volume_dirs path :
  path ∈ {[frr_volume_dir]} ∪ filter (λ p, ¬ below frr_volume_dir p) (dirs w)
  ↔ path = frr_volume_dir ∨ (¬ below frr_volume_dir path ∧ path ∈ dirs w).
Proof. by rewrite elem_of_union, elem_of_singleton, elem_of_filter. Qed.

Ltac paths_differ :=
  let H := fresh in
  intros H; rewrite ?append_assoc in H; apply append_inj in H; discriminate H.

(* a file kept from the start is not a directory *)
Ltac not_dir :=
  let H := fresh in
  simpl; rewrite volume_dirs; intros [H|[_ H]];
  [revert H; paths_differ|eapply files_not_dirs; [|exact H]; by eexists].
(* a file of the start outside the volume is still there *)
Ltac old_file :=
  simpl; rewrite ?lookup_insert_ne by paths_differ;
  apply map_lookup_filter_Some; split; [done|by apply not_below_volume].
(* a new file of the volume is not a directory *)
Ltac new_not_dir :=
  let H := fresh in
  simpl; rewrite volume_dirs; intros [H|[H _]];
  [revert H; paths_differ|apply H, Is_true_true, below_child].
Ltac parent :=
  simpl; rewrite ?dirname_child by done; rewrite ?dirname_append by done;
  apply volume_dirs; by left.

(** Up to the copies. *)
Lemma bgp_dev_env_copied :
  bgp_dev_env w
  = bgp_render dev_env_dir frr_volume_dir (Str.split_ws (Str.strip nodes))
      (MkWorld (cwd w) (copied_files w zebra daemons vtysh)
         ({[frr_volume_dir]} ∪ filter (λ p, ¬ below frr_volume_dir p) (dirs w))
         (shell w) (log w ++ copied_events w)).
Proof.
  destruct rm_rf_out as [o1 Hrm].
  unfold bgp_dev_env.
  erewrite bind_run by done. cbv zeta. fold dev_env_dir.
  erewrite bind_run by (by apply run_ok). world.
  rewrite bool_decide_false by (by intros ?).
  erewrite bind_run.
  2:{ unfold try_task. erewrite bind_run by (by apply run_rm_rf_ok). world.
      rewrite os_mkdir_ok; [done|..]; simpl.
      - rewrite elem_of_filter, below_self. intros [[] _]. done.
      - apply map_lookup_filter_None. right. intros x _. simpl.
        rewrite below_self. by intros [].
      - rewrite dirname_append by done. apply elem_of_filter. split; [|done].
        rewrite below_parent. by intros ?. }
  world. simpl copy_static.
  erewrite (bind_run (_ ≫= _)).
  2:{ erewrite bind_run.
      2:{ apply (shutil_copyfile_ok _ _ zebra); [not_dir|old_file|new_not_dir|parent]. }
      world. erewrite bind_run.
      2:{ apply (shutil_copyfile_ok _ _ daemons); [not_dir|old_file|new_not_dir|parent]. }
      world. erewrite bind_run.
      2:{ apply (shutil_copyfile_ok _ _ vtysh); [not_dir|old_file|new_not_dir|parent]. }
      world. reflexivity. }
  unfold copied_files, copied_events. by rewrite <-!app_assoc.
Qed.

Lemma bgp_dev_env_run peer_address bgpd_template mlb_template :
  (∀ command, ∃ stdout, shell w command = inl stdout) →
  shell w inspect_frr = inl peer_address →
  (dev_env_dir +:+ "/config.yaml") ∉ dirs w →
  files w !! (dev_env_dir +:+ "/frr/bgpd.conf.tmpl") = Some bgpd_template →
  files w !! (dev_env_dir +:+ "/config.yaml.tmpl") = Some mlb_template →
  bgp_dev_env w
  = (MkWorld (cwd w)
       (bgp_files w nodes peer_address zebra daemons vtysh bgpd_template mlb_template)
       ({[frr_volume_dir]} ∪ filter (λ p, ¬ below frr_volume_dir p) (dirs w))
       (shell w)
       (log w ++ bgp_events w nodes peer_address bgpd_template mlb_template),
     Return ()).
Proof.
  intros commands inspect_frr_out config_not_dir bgpd_template_there
    mlb_template_there.
  destruct (commands remove_frr) as [o2 Hps].
  destruct (commands (start_frr frr_volume_dir)) as [o3 Hstart].
  destruct (commands (kubectl_apply dev_env_dir)) as [o4 Happly].
  rewrite bgp_dev_env_copied. unfold bgp_render, copied_files, copied_events.
  erewrite bind_run by (apply read_file_ok; [not_dir|old_file]).
  erewrite bind_run by (apply write_file_ok; [new_not_dir|parent]). world.
  erewrite bind_run by (by apply run_ok). world.
  erewrite bind_run by (by apply run_ok). world.
  erewrite bind_run by (by apply run_ok). world.
  erewrite bind_run by (apply read_file_ok; [not_dir|old_file]).
  erewrite bind_run.
  2:{ apply write_file_ok; simpl.
      - rewrite volume_dirs. intros [H|[_ H]]; [revert H; paths_differ|done].
      - rewrite dirname_append by done. apply volume_dirs. right.
        split; [|done]. rewrite below_parent. by intros ?. }
  world. erewrite bind_run by (by apply run_ok). world.
  unfold mret, task_ret, bgp_files, bgp_events.
  rewrite <-!app_assoc. reflexivity.
Qed.

Lemma bgp_dev_env_no_template :
  (dev_env_dir +:+ "/frr/bgpd.conf.tmpl") ∉ dirs w →
  files w !! (dev_env_dir +:+ "/frr/bgpd.conf.tmpl") = None →
  bgp_dev_env w
  = (MkWorld (cwd w) (copied_files w zebra daemons vtysh)
       ({[frr_volume_dir]} ∪ filter (λ p, ¬ below frr_volume_dir p) (dirs w))
       (shell w) (log w ++ copied_events w),
     Raise (FileNotFoundError
              (oserror "[Errno 2] No such file or directory"
                 (dev_env_dir +:+ "/frr/bgpd.conf.tmpl")))).
Proof.
  intros Hd Hf. rewrite bgp_dev_env_copied. unfold bgp_render.
  erewrite bind_raise; [done|]. unfold read_file, copied_files. cbn [dirs files].
  rewrite bool_decide_false.
  2:{ rewrite volume_dirs. intros [H|[_ H]]; [revert H; paths_differ|done]. }
  rewrite !lookup_insert_ne by paths_differ.
  assert (filter (λ kv, ¬ below frr_volume_dir kv.1) (files w)
            !! (dev_env_dir +:+ "/frr/bgpd.conf.tmpl") = None) as ->; [|done].
  apply map_lookup_filter_None. by left.
Qed.
End bgp_run.

Lemma bgp_ready_run w nodes peer_address zebra daemons vtysh bgpd_template mlb_template :
  bgp_ready w nodes peer_address zebra daemons vtysh bgpd_template mlb_template →
  bgp_dev_env w
  = (MkWorld (cwd w)
       (bgp_files w nodes peer_address zebra daemons vtysh bgpd_template mlb_template)
       ({[bgp_dir w +:+ "/frr-volume"]}
        ∪ filter (λ p, ¬ below (bgp_dir w +:+ "/frr-volume") p) (dirs w))
       (shell w)
       (log w ++ bgp_events w nodes peer_address bgpd_template mlb_template),
     Return ()).
Proof.
  intros (Hc & ? & ? & ? & ? & ? & ? & ? & ? & ? & ? & ?).
  by apply (bgp_dev_env_run w nodes zebra daemons vtysh).
Qed.

Lemma sample_world_ready :
  bgp_ready (sample_world "10.0.0.2 10.0.0.3 10.0.0.4")
    ("10.0.0.2 10.0.0.3 10.0.0.4" +:+ Str.nl) ("172.18.0.5" +:+ Str.nl)
    "hostname frr" "bgpd=yes" "service integrated-vtysh-config"
    "neighbor NODE0_IP peer-group; neighbor NODE1_IP, NODE2_IP"
    "peer-address: PEER_ADDRESS".
Proof.
  repeat split; try (vm_compute; reflexivity).
  - intros command. unfold sample_world, sample_shell. simpl.
    repeat case_bool_decide; eauto.
  - intros path [content Hc] Hd. revert Hc. unfold sample_world in *. simpl in *.
    set_unfold in Hd.
    destruct Hd as [->|[->|[->|[->|[->|[->|[]]]]]]]; by vm_compute.
  - unfold sample_world, bgp_dir. simpl. set_unfold.
    intros [H|[H|[H|[H|[H|[H|[]]]]]]]; discriminate H.
Qed.

(** X10: When [bgp_dev_env] has what it needs, it returns; the files are then
    those outside [frr-volume] it started with, the three static files
    copied into the volume, [bgpd.conf] rendered from its template with
    the three node addresses, and [config.yaml] rendered with the address
    of the router; the volume is a directory; and the log is the twelve
    steps in the order of the source. *)
Theorem bgp_dev_env_succeeds (w : World)
    (nodes peer_address zebra daemons vtysh bgpd_template mlb_template : string) :
  bgp_ready w nodes peer_address zebra daemons vtysh bgpd_template mlb_template →
  (bgp_dev_env w).2 = Return ()
  ∧ files (bgp_dev_env w).1
    = bgp_files w nodes peer_address zebra daemons vtysh bgpd_template mlb_template
  ∧ dirs (bgp_dev_env w).1
    = {[bgp_dir w +:+ "/frr-volume"]}
      ∪ filter (λ p, ¬ below (bgp_dir w +:+ "/frr-volume") p) (dirs w)
  ∧ log (bgp_dev_env w).1
    = log w ++ bgp_events w nodes peer_address bgpd_template mlb_template.
Proof. intros H. by rewrite (bgp_ready_run _ _ _ _ _ _ _ _ H). Qed.

Lemma bgp_dev_env_succeeds_witness :
  (bgp_dev_env (sample_world "10.0.0.2 10.0.0.3 10.0.0.4")).2 = Return ()
  ∧ files (bgp_dev_env (sample_world "10.0.0.2 10.0.0.3 10.0.0.4")).1
    = bgp_files (sample_world "10.0.0.2 10.0.0.3 10.0.0.4")
        ("10.0.0.2 10.0.0.3 10.0.0.4" +:+ Str.nl) ("172.18.0.5" +:+ Str.nl)
        "hostname frr" "bgpd=yes" "service integrated-vtysh-config"
        "neighbor NODE0_IP peer-group; neighbor NODE1_IP, NODE2_IP"
        "peer-address: PEER_ADDRESS"
  ∧ dirs (bgp_dev_env (sample_world "10.0.0.2 10.0.0.3 10.0.0.4")).1
    = {[bgp_dir (sample_world "10.0.0.2 10.0.0.3 10.0.0.4") +:+ "/frr-volume"]}
      ∪ filter (λ p, ¬ below (bgp_dir (sample_world "10.0.0.2 10.0.0.3 10.0.0.4")
                              +:+ "/frr-volume") p)
          (dirs (sample_world "10.0.0.2 10.0.0.3 10.0.0.4"))
  ∧ log (bgp_dev_env (sample_world "10.0.0.2 10.0.0.3 10.0.0.4")).1
    = log (sample_world "10.0.0.2 10.0.0.3 10.0.0.4")
      ++ bgp_events (sample_world "10.0.0.2 10.0.0.3 10.0.0.4")
           ("10.0.0.2 10.0.0.3 10.0.0.4" +:+ Str.nl) ("172.18.0.5" +:+ Str.nl)
           "neighbor NODE0_IP peer-group; neighbor NODE1_IP, NODE2_IP"
           "peer-address: PEER_ADDRESS".
Proof.
  apply (bgp_dev_env_succeeds (sample_world "10.0.0.2 10.0.0.3 10.0.0.4")
           ("10.0.0.2 10.0.0.3 10.0.0.4" +:+ Str.nl) ("172.18.0.5" +:+ Str.nl)
           "hostname frr" "bgpd=yes" "service integrated-vtysh-config"
           "neighbor NODE0_IP peer-group; neighbor NODE1_IP, NODE2_IP"
           "peer-address: PEER_ADDRESS").
  apply sample_world_ready.
Defined.

(** The files after [bgp_dev_env], path by path. *)
Lemma bgp_files_lookup (w : World)
    (nodes peer_address zebra daemons vtysh bgpd_template mlb_template : string)
    (path : string) :
  bgp_files w nodes peer_address zebra daemons vtysh bgpd_template mlb_template !! path
  = if below (bgp_dir w +:+ "/frr-volume") path
    then volume_files w nodes zebra daemons vtysh bgpd_template !! path
    else if decide (path = bgp_dir w +:+ "/config.yaml")
         then Some (render_mlb_config mlb_template peer_address)
         else files w !! path.
Proof.
  unfold bgp_files, volume_files. cbv zeta.
  set (vol := bgp_dir w +:+ "/frr-volume").
  assert (∀ name, below vol (vol +:+ String "/" name) = true) as Hchild
    by (intros; apply below_child).
  assert (below vol (bgp_dir w +:+ "/config.yaml") = false) as Hconfig.
  { apply not_true_is_false. intros Hb%Is_true_true. revert Hb.
    by apply not_below_volume. }
  destruct (below vol path) eqn:Hb.
  - rewrite lookup_insert_ne by (intros <-; congruence).
    repeat match goal with
    | |- <[?k := _]> _ !! _ = <[?k := _]> _ !! _ =>
        destruct (decide (k = path)) as [<-|];
        [by rewrite !lookup_insert_eq
        |do 2 rewrite (lookup_insert_ne _ k) by done]
    end.
    rewrite lookup_empty. apply map_lookup_filter_None. right.
    intros x _ Hn. apply Hn. simpl. by rewrite Hb.
  - case_decide as Hp; [subst path; by rewrite lookup_insert_eq|].
    rewrite lookup_insert_ne by done.
    rewrite !lookup_insert_ne by (intros <-; rewrite Hchild in Hb; discriminate).
    destruct (files w !! path) as [content|] eqn:Hf.
    + apply map_lookup_filter_Some. split; [done|]. simpl. rewrite Hb. by intros ?.
    + apply map_lookup_filter_None. by left.
Qed.

(** X11: After a successful [bgp_dev_env] the volume holds its four files and
    nothing else, whatever was in it before; [config.yaml] is the rendered
    text; every other file outside the volume is as it was. *)
Theorem bgp_dev_env_fresh_volume (w : World)
    (nodes peer_address zebra daemons vtysh bgpd_template mlb_template : string)
    (path : string) :
  bgp_ready w nodes peer_address zebra daemons vtysh bgpd_template mlb_template →
  files (bgp_dev_env w).1 !! path
  = if below (bgp_dir w +:+ "/frr-volume") path
    then volume_files w nodes zebra daemons vtysh bgpd_template !! path
    else if decide (path = bgp_dir w +:+ "/config.yaml")
         then Some (render_mlb_config mlb_template peer_address)
         else files w !! path.
Proof.
  intros H. rewrite (bgp_ready_run _ _ _ _ _ _ _ _ H). apply bgp_files_lookup.
Qed.

Lemma bgp_dev_env_fresh_volume_witness :
  files (bgp_dev_env (sample_world "10.0.0.2 10.0.0.3 10.0.0.4")).1
    !! "/src/dev-env/bgp/frr-volume/bgpd.conf"
  = Some (frr_header +:+ "neighbor 10.0.0.2 peer-group; neighbor 10.0.0.3, 10.0.0.4").
Proof.
  apply (bgp_dev_env_fresh_volume (sample_world "10.0.0.2 10.0.0.3 10.0.0.4")
           ("10.0.0.2 10.0.0.3 10.0.0.4" +:+ Str.nl) ("172.18.0.5" +:+ Str.nl)
           "hostname frr" "bgpd=yes" "service integrated-vtysh-config"
           "neighbor NODE0_IP peer-group; neighbor NODE1_IP, NODE2_IP"
           "peer-address: PEER_ADDRESS" "/src/dev-env/bgp/frr-volume/bgpd.conf").
  apply sample_world_ready.
Defined.

(** X12: When the volume cannot be prepared, [bgp_dev_env] ends with [Exit]
    and the text of the exception: the text of the failed [rm -rf], after
    which nothing was changed, or, when [dev-env] is a directory that
    holds no [bgp], the text of the [FileNotFoundError] of [os.mkdir],
    after which no file was copied or written. *)
Theorem bgp_dev_env_volume_failure (w : World) (nodes : string) :
  shell w get_nodes = inl nodes →
  length (Str.split_ws (Str.strip nodes)) = 3%nat →
  (∀ text,
     shell w (rm_rf (bgp_dir w +:+ "/frr-volume")) = inr text →
     (bgp_dev_env w).2
     = Raise (Exit ("Failed to create frr-volume directory: " +:+ text))
     ∧ files (bgp_dev_env w).1 = files w
     ∧ dirs (bgp_dev_env w).1 = dirs w
     ∧ log (bgp_dev_env w).1
       = log w ++ [Ran get_nodes; Ran (rm_rf (bgp_dir w +:+ "/frr-volume"))])
  ∧ (∀ stdout,
       shell w (rm_rf (bgp_dir w +:+ "/frr-volume")) = inl stdout →
       (cwd w +:+ "/dev-env") ∈ dirs w →
       bgp_dir w ∉ dirs w → files w !! bgp_dir w = None →
       (bgp_dev_env w).2
       = Raise (Exit ("Failed to create frr-volume directory: "
                      +:+ oserror "[Errno 2] No such file or directory"
                            (bgp_dir w +:+ "/frr-volume")))
       ∧ log (bgp_dev_env w).1
         = log w ++ [Ran get_nodes; Ran (rm_rf (bgp_dir w +:+ "/frr-volume"))]).
Proof.
  intros Hn H3. split.
  - intros text Hrm.
    assert (bgp_dev_env w
            = (record (Ran (rm_rf (bgp_dir w +:+ "/frr-volume")))
                 (record (Ran get_nodes) w),
               Raise (Exit ("Failed to create frr-volume directory: " +:+ text)))) as E.
    { unfold bgp_dev_env.
      erewrite bind_run by done. cbv zeta. fold (bgp_dir w).
      erewrite bind_run by (by apply run_ok).
      rewrite bool_decide_false by (by intros ?).
      erewrite bind_raise; [done|].
      unfold try_task. by erewrite bind_raise by (by apply run_rm_rf_failed). }
    rewrite E. simpl. by rewrite <-app_assoc.
  - intros stdout Hrm _ Hdir _.
    set (vol := bgp_dir w +:+ "/frr-volume").
    set (w' := set_dirs (filter (λ p, ¬ below vol p) (dirs (record (Ran get_nodes) w)))
                 (set_files (filter (λ kv, ¬ below vol kv.1)
                               (files (record (Ran get_nodes) w)))
                    (record (Ran (rm_rf vol)) (record (Ran get_nodes) w)))).
    assert (bgp_dev_env w
            = (w', Raise (Exit ("Failed to create frr-volume directory: "
                                +:+ oserror "[Errno 2] No such file or directory" vol))))
      as E.
    { unfold bgp_dev_env.
      erewrite bind_run by done. cbv zeta. fold (bgp_dir w). fold vol.
      erewrite bind_run by (by apply run_ok).
      rewrite bool_decide_false by (by intros ?).
      erewrite bind_raise; [done|].
      unfold try_task. erewrite bind_run by (by apply run_rm_rf_ok).
      fold w'. rewrite os_mkdir_no_parent; [done|..]; subst w'; simpl.
      - rewrite elem_of_filter, below_self. intros [[] _]. done.
      - apply map_lookup_filter_None. right. intros x _. simpl.
        rewrite below_self. by intros [].
      - unfold vol. rewrite dirname_append by done. rewrite elem_of_filter. tauto. }
    rewrite E. subst w'. simpl. by rewrite <-app_assoc.
Qed.

Lemma bgp_dev_env_volume_failure_witness :
  (bgp_dev_env
     (MkWorld "/src" ∅ {[ "/src"; "/src/dev-env" ]}
        (sample_shell "10.0.0.2 10.0.0.3 10.0.0.4") [])).2
  = Raise (Exit ("Failed to create frr-volume directory: "
                 +:+ "[Errno 2] No such file or directory: "
                 +:+ "'/src/dev-env/bgp/frr-volume'")).
Proof.
  apply (proj2 (bgp_dev_env_volume_failure
                  (MkWorld "/src" ∅ {[ "/src"; "/src/dev-env" ]}
                     (sample_shell "10.0.0.2 10.0.0.3 10.0.0.4") [])
                  ("10.0.0.2 10.0.0.3 10.0.0.4" +:+ Str.nl)
                  ltac:(vm_compute; reflexivity) ltac:(vm_compute; reflexivity)) "");
    [vm_compute; reflexivity|simpl; set_solver|simpl; set_solver|reflexivity].
Defined.


Lemma bgp_dev_env_keeps w0 :
  triple w0 (bgp_kept w0) (λ _ _, True) bgp_dev_env (λ _, True).
Proof.
  assert (∀ name, ¬ bgp_kept w0 ((bgp_dir w0 +:+ "/frr-volume") +:+ String "/" name))
    as Hvol.
  { intros name [Hb _]. by rewrite below_child in Hb. }
  unfold bgp_dev_env.
  eapply triple_bind; [apply triple_getcwd|]. intros c ->.
  eapply triple_bind; [apply triple_run|]. intros stdout Hout. cbv zeta.
  case_bool_decide as Hlen; [apply triple_raise|].
  fold (bgp_dir w0).
  eapply (triple_bind _ _ _ _ _ (λ _, True)).
  { apply triple_try; [|by apply triple_ret|intros; apply triple_raise].
    eapply triple_bind; [apply triple_rm_rf; by intros p [Hp _]|].
    intros _ _. apply triple_mkdir. }
  intros _ _.
  eapply triple_bind; [apply triple_copy_static; intros f _; apply Hvol|]. intros _ _.
  eapply triple_bind; [apply triple_read_any|]. intros template _.
  eapply triple_bind; [apply triple_write; [apply Hvol|done]|]. intros _ _.
  eapply triple_bind; [apply triple_run|]. intros _ _.
  eapply triple_bind; [apply triple_run|]. intros _ _.
  eapply triple_bind; [apply triple_run|]. intros peer_address _.
  eapply triple_bind; [apply triple_read_any|]. intros template' _.
  eapply triple_bind; [apply triple_write; [by intros [_ ?]|done]|]. intros _ _.
  eapply triple_bind; [apply triple_run|]. intros _ _.
  by apply triple_ret.
Qed.

Lemma layer2_dev_env_keeps w0 :
  triple w0 (layer2_kept w0) (λ _ _, True) layer2_dev_env (λ _, True).
Proof.
  unfold layer2_dev_env.
  eapply triple_bind; [apply triple_run|]. intros subnets _. cbv zeta.
  eapply triple_bind; [apply triple_run|]. intros used4 _.
  eapply triple_bind; [apply triple_run|]. intros used6 _.
  eapply triple_bind; [apply triple_lift_eq|]. intros service_range _.
  eapply triple_bind; [apply triple_getcwd|]. intros c ->.
  fold (layer2_dir w0).
  eapply triple_bind; [apply triple_read_any|]. intros template _.
  eapply triple_bind; [apply triple_lift_eq|]. intros layer2_config _.
  eapply triple_bind; [apply triple_write; [by intros ?|done]|]. intros _ _.
  eapply triple_bind; [apply triple_run|]. intros _ _.
  by apply triple_ret.
Qed.

(** X13: However they end, with a value or with any exception at any step,
    [bgp_dev_env] changes no file outside [frr-volume] but [config.yaml]
    and [layer2_dev_env] changes no file but its [config.yaml]; the
    templates and the static files under [frr/] are therefore never
    modified. *)
Theorem dev_env_keeps_other_files :
  (∀ w path,
     below (bgp_dir w +:+ "/frr-volume") path = false →
     path ≠ bgp_dir w +:+ "/config.yaml" →
     files (bgp_dev_env w).1 !! path = files w !! path)
  ∧ (∀ w path,
       path ≠ layer2_dir w +:+ "/config.yaml" →
       files (layer2_dev_env w).1 !! path = files w !! path)
  ∧ (∀ w name,
       String.prefix "/frr-volume" (String "/" name) = false →
       name ≠ "config.yaml" →
       files (bgp_dev_env w).1 !! (bgp_dir w +:+ String "/" name)
       = files w !! (bgp_dir w +:+ String "/" name)).
Proof.
  assert (∀ w path,
     below (bgp_dir w +:+ "/frr-volume") path = false →
     path ≠ bgp_dir w +:+ "/config.yaml" →
     files (bgp_dev_env w).1 !! path = files w !! path) as Hbgp.
  { intros w path Hb Hp.
    destruct (triple_final _ _ _ _ _ (bgp_dev_env_keeps w)) as (_ & _ & Hf & _).
    by apply Hf. }
  split; [exact Hbgp|]. split.
  - intros w path Hp.
    destruct (triple_final _ _ _ _ _ (layer2_dev_env_keeps w)) as (_ & _ & Hf & _).
    by apply Hf.
  - intros w name Hn Hc. apply Hbgp.
    + apply not_true_is_false. intros Hb%Is_true_true. revert Hb.
      by apply not_below_volume.
    + intros H%append_inj. by simplify_eq.
Qed.

Lemma dev_env_keeps_other_files_witness :
  files (bgp_dev_env (sample_world "10.0.0.2")).1 !! "/src/dev-env/bgp/frr/bgpd.conf.tmpl"
  = files (sample_world "10.0.0.2") !! "/src/dev-env/bgp/frr/bgpd.conf.tmpl".
Proof.
  apply (proj2 (proj2 dev_env_keeps_other_files) (sample_world "10.0.0.2")
           "frr/bgpd.conf.tmpl");
    [vm_compute; reflexivity|discriminate].
Defined.

(** ** [layer2_dev_env] when a range or a version is missing *)

(** X9: When the loop raises (a subnet or an address does not parse, the
    list is empty, a range leaves its subnet), [layer2_dev_env] raises the
    same exception; when the loop completes without a range for version 4
    or for version 6 and the template is there, it raises [KeyError].
    Either way no file was written and nothing was applied: the log is the
    three queries. *)
Theorem layer2_dev_env_aborts (w : World) (subnets used4 used6 : string) :
  shell w inspect_subnets = inl subnets →
  shell w inspect_ipv4 = inl used4 →
  shell w inspect_ipv6 = inl used6 →
  (∀ exception,
     layer2_ranges (Str.split " " (Str.strip subnets)) (Str.split " " (Str.strip used4))
       (Str.split " " (Str.strip used6)) ∅ = Raise exception →
     (layer2_dev_env w).2 = Raise exception
     ∧ files (layer2_dev_env w).1 = files w
     ∧ log (layer2_dev_env w).1
       = log w ++ [Ran inspect_subnets; Ran inspect_ipv4; Ran inspect_ipv6])
  ∧ (∀ service_range template,
       layer2_ranges (Str.split " " (Str.strip subnets)) (Str.split " " (Str.strip used4))
         (Str.split " " (Str.strip used6)) ∅ = Return service_range →
       service_range !! 4 = None ∨ service_range !! 6 = None →
       (layer2_dir w +:+ "/config.yaml.tmpl") ∉ dirs w →
       files w !! (layer2_dir w +:+ "/config.yaml.tmpl") = Some template →
       (layer2_dev_env w).2 = Raise KeyError
       ∧ files (layer2_dev_env w).1 = files w
       ∧ log (layer2_dev_env w).1
         = log w ++ [Ran inspect_subnets; Ran inspect_ipv4; Ran inspect_ipv6]).
Proof.
  intros Hs H4 H6. split.
  - intros exception Hsr.
    assert (layer2_dev_env w
            = (record (Ran inspect_ipv6)
                 (record (Ran inspect_ipv4) (record (Ran inspect_subnets) w)),
               Raise exception)) as E.
    { unfold layer2_dev_env.
      erewrite bind_run by (by apply run_ok). cbv zeta.
      erewrite bind_run by (by apply run_ok).
      erewrite bind_run by (by apply run_ok).
      erewrite bind_raise; [done|]. unfold lift. by rewrite Hsr. }
    rewrite E. simpl. by rewrite <-!app_assoc.
  - intros service_range template Hsr Hmiss Htd Ht.
    assert (render_layer2_config template service_range = Raise KeyError) as Hr.
    { unfold render_layer2_config, getitem. destruct Hmiss as [-> | Hm]; [done|].
      rewrite Hm. by destruct (service_range !! 4). }
    assert (layer2_dev_env w
            = (record (Ran inspect_ipv6)
                 (record (Ran inspect_ipv4) (record (Ran inspect_subnets) w)),
               Raise KeyError)) as E.
    { unfold layer2_dev_env.
      erewrite bind_run by (by apply run_ok). cbv zeta.
      erewrite bind_run by (by apply run_ok).
      erewrite bind_run by (by apply run_ok).
      erewrite bind_run by (unfold lift; by rewrite Hsr).
      erewrite bind_run by done.
      erewrite bind_run by (by apply read_file_ok).
      erewrite bind_raise; [done|]. unfold lift. by rewrite Hr. }
    rewrite E. simpl. by rewrite <-!app_assoc.
Qed.

Lemma layer2_dev_env_aborts_witness :
  (layer2_dev_env
     (MkWorld "/src" (files (sample_world "")) (dirs (sample_world ""))
        ipv4_only_shell [])).2
  = Raise KeyError.
Proof.
  apply (proj2 (layer2_dev_env_aborts
                  (MkWorld "/src" (files (sample_world "")) (dirs (sample_world ""))
                     ipv4_only_shell [])
                  ("172.18.0.0/16 " +:+ Str.nl)
                  ("172.18.0.3/16 172.18.0.2/16 " +:+ Str.nl)
                  ("  " +:+ Str.nl)
                  ltac:(vm_compute; reflexivity) ltac:(vm_compute; reflexivity)
                  ltac:(vm_compute; reflexivity))
           {[ 4 := "172.18.0.4-172.18.0.14" ]} "- SERVICE_V4_RANGE; - SERVICE_V6_RANGE");
    [vm_compute; reflexivity|right; vm_compute; reflexivity|by vm_compute
    |vm_compute; reflexivity].
Defined.

(** ** A missing template *)

(** X18: A template that is not in its directory gives the
    [FileNotFoundError] of [open], with the path, and no handler wraps it.  [layer2_dev_env] has then
    written nothing.  [bgp_dev_env] has by then emptied the volume and
    copied the three static files into it: it stops without [bgpd.conf],
    before it starts the router. *)
Theorem dev_env_missing_template (w : World) :
  (∀ subnets used4 used6 service_range,
     shell w inspect_subnets = inl subnets →
     shell w inspect_ipv4 = inl used4 →
     shell w inspect_ipv6 = inl used6 →
     layer2_ranges (Str.split " " (Str.strip subnets)) (Str.split " " (Str.strip used4))
       (Str.split " " (Str.strip used6)) ∅ = Return service_range →
     layer2_dir w ∈ dirs w →
     (layer2_dir w +:+ "/config.yaml.tmpl") ∉ dirs w →
     files w !! (layer2_dir w +:+ "/config.yaml.tmpl") = None →
     (layer2_dev_env w).2
     = Raise (FileNotFoundError
                (oserror "[Errno 2] No such file or directory"
                   (layer2_dir w +:+ "/config.yaml.tmpl")))
     ∧ files (layer2_dev_env w).1 = files w
     ∧ log (layer2_dev_env w).1
       = log w ++ [Ran inspect_subnets; Ran inspect_ipv4; Ran inspect_ipv6])
  ∧ (∀ nodes stdout zebra daemons vtysh,
       shell w get_nodes = inl nodes →
       length (Str.split_ws (Str.strip nodes)) = 3%nat →
       shell w (rm_rf (bgp_dir w +:+ "/frr-volume")) = inl stdout →
       (∀ path, is_Some (files w !! path) → path ∉ dirs w) →
       bgp_dir w ∈ dirs w →
       files w !! (bgp_dir w +:+ "/frr/zebra.conf") = Some zebra →
       files w !! (bgp_dir w +:+ "/frr/daemons") = Some daemons →
       files w !! (bgp_dir w +:+ "/frr/vtysh.conf") = Some vtysh →
       (bgp_dir w +:+ "/frr") ∈ dirs w →
       (bgp_dir w +:+ "/frr/bgpd.conf.tmpl") ∉ dirs w →
       files w !! (bgp_dir w +:+ "/frr/bgpd.conf.tmpl") = None →
       (bgp_dev_env w).2
       = Raise (FileNotFoundError
                  (oserror "[Errno 2] No such file or directory"
                     (bgp_dir w +:+ "/frr/bgpd.conf.tmpl")))
       ∧ files (bgp_dev_env w).1 = copied_files w zebra daemons vtysh
       ∧ log (bgp_dev_env w).1 = log w ++ copied_events w).
Proof.
  split.
  - intros subnets used4 used6 service_range Hs H4 H6 Hsr _ Hd Hf.
    assert (layer2_dev_env w
            = (record (Ran inspect_ipv6)
                 (record (Ran inspect_ipv4) (record (Ran inspect_subnets) w)),
               Raise (FileNotFoundError
                        (oserror "[Errno 2] No such file or directory"
                           (layer2_dir w +:+ "/config.yaml.tmpl"))))) as E.
    { unfold layer2_dev_env.
      erewrite bind_run by (by apply run_ok). cbv zeta.
      erewrite bind_run by (by apply run_ok).
      erewrite bind_run by (by apply run_ok).
      erewrite bind_run by (unfold lift; by rewrite Hsr).
      erewrite bind_run by done.
      erewrite bind_raise; [done|]. unfold read_file. cbn [record dirs files cwd].
      fold (layer2_dir w). rewrite bool_decide_false by done. by rewrite Hf. }
    rewrite E. simpl. by rewrite <-!app_assoc.
  - intros nodes stdout zebra daemons vtysh Hn H3 Hrm Hfd Hdir Hz Hda Hv _ Hd Hf.
    by rewrite (bgp_dev_env_no_template w nodes zebra daemons vtysh)
      by eauto.
Qed.

Lemma dev_env_missing_template_witness :
  (layer2_dev_env (MkWorld "/src" ∅ {[ "/src/dev-env/layer2" ]} (sample_shell "") [])).2
  = Raise (FileNotFoundError
             ("[Errno 2] No such file or directory: "
              +:+ "'/src/dev-env/layer2/config.yaml.tmpl'")).
Proof.
  apply (proj1 (dev_env_missing_template
                  (MkWorld "/src" ∅ {[ "/src/dev-env/layer2" ]} (sample_shell "") []))
           ("172.18.0.0/16 fc00:f853:ccd:e793::/64 " +:+ Str.nl)
           ("172.18.0.3/16 172.18.0.2/16 172.18.0.4/16 " +:+ Str.nl)
           ("fc00:f853:ccd:e793::3/64 fc00:f853:ccd:e793::2/64 fc00:f853:ccd:e793::4/64 "
            +:+ Str.nl)
           {[ 4 := "172.18.0.5-172.18.0.15";
              6 := "fc00:f853:ccd:e793::5-fc00:f853:ccd:e793::f" ]});
    try (vm_compute; reflexivity); simpl; set_solver.
Defined.


Lemma rstrip_cons_nonspace c s :
  Str.is_space c = false → Str.rstrip (String c s) ≠ "".
Proof. intros Hc. simpl. destruct (Str.rstrip s); by rewrite ?Hc. Qed.

Lemma strip_blank s : Str.strip s = "" ↔ Str.all_chars Str.is_space s = true.
Proof.
  unfold Str.strip. induction s as [|c s IH]; [done|].
  cbn [Str.lstrip Str.all_chars]. destruct (Str.is_space c) eqn:Hc; [done|].
  split; [|done]. intros H. by apply rstrip_cons_nonspace in H.
Qed.

(** X14: [checkpatch] runs its pipeline once and raises [Exit] exactly when
    the pipeline succeeds and prints a character that is not blank.  When
    the pipeline fails, whether [grep] found no line or [git] failed, and
    when it prints only blanks, [checkpatch] returns. *)
Theorem checkpatch_reports (w : World) :
  (checkpatch w).1 = record (Ran checkpatch_command) w
  ∧ (checkpatch w).2
    = match shell w checkpatch_command with
      | inl stdout =>
          if Str.all_chars Str.is_space stdout then Return ()
          else Raise (Exit "ERROR: Found changed lines with 2 spaces after a period.")
      | inr _ => Return ()
      end.
Proof.
  unfold checkpatch, try_UnexpectedExit, mbind, task_bind, run.
  change (shell (record (Ran checkpatch_command) w)) with (shell w).
  destruct (shell w checkpatch_command) as [stdout|text]; [|done].
  destruct (Str.all_chars Str.is_space stdout) eqn:Hb.
  - apply strip_blank in Hb. rewrite Hb. by rewrite bool_decide_false by (simpl; lia).
  - rewrite bool_decide_true; [done|].
    destruct (Str.strip stdout) eqn:Hs; [|simpl; lia].
    apply strip_blank in Hs. congruence.
Qed.


Section decimal.
Implicit Types (x : N) (s d : string).

Lemma append_nil_r s : s +:+ "" = s.
Proof. induction s as [|c s IH]; [done|]. by rewrite append_cons, IH. Qed.

Lemma int_go_app acc d1 d2 :
  semver.int_go acc (d1 +:+ d2) = semver.int_go (semver.int_go acc d1) d2.
Proof.
  revert acc. induction d1 as [|c d1 IH]; intros acc; [done|].
  rewrite append_cons. simpl. by rewrite IH.
Qed.

Lemma all_digits_app d1 d2 :
  Str.all_chars Str.is_digit (d1 +:+ d2)
  = Str.all_chars Str.is_digit d1 && Str.all_chars Str.is_digit d2.
Proof.
  induction d1 as [|c d1 IH]; [done|].
  rewrite append_cons. simpl. by rewrite IH, andb_assoc.
Qed.

Lemma pretty_N_char_digit x :
  (x < 10)%N →
  Str.is_digit (pretty_N_char x) = true
  ∧ (N_of_ascii (pretty_N_char x) - 48)%N = x
  ∧ (0 < x → pretty_N_char x ≠ "0"%char)%N.
Proof.
  intros Hx.
  assert (x = 0 ∨ x = 1 ∨ x = 2 ∨ x = 3 ∨ x = 4 ∨ x = 5 ∨ x = 6 ∨ x = 7
          ∨ x = 8 ∨ x = 9)%N as H by lia.
  destruct H as [->|[->|[->|[->|[->|[->|[->|[->|[->| ->]]]]]]]]];
    (split; [done|split; [done|]]); intros ?; (lia || done).
Qed.

(** What [pretty] prints before [s]: the decimal digits of [x], none
    for 0, the first of them not a zero. *)
Lemma pretty_N_go_decimal x s :
  ∃ d, pretty_N_go x s = d +:+ s
    ∧ Str.all_chars Str.is_digit d = true
    ∧ semver.int_go 0 d = x
    ∧ (x = 0%N → d = "")
    ∧ ((0 < x)%N → ∃ c d', d = String c d' ∧ c ≠ "0"%char).
Proof.
  revert s. induction (N.lt_wf_0 x) as [x _ IH]. intros s.
  assert (x = 0 ∨ 0 < x)%N as [->|Hx] by lia.
  - exists "". rewrite pretty_N_go_0. repeat split; try done; lia.
  - rewrite pretty_N_go_step by done.
    destruct (IH (x `div` 10)%N ltac:(by apply N.div_lt)
                (String (pretty_N_char (x `mod` 10)) s))
      as (d & -> & Hd & Hv & H0 & Hpos).
    destruct (pretty_N_char_digit (x `mod` 10)%N) as (Hc & Hn & Hz);
      [by apply N.mod_lt|].
    exists (d +:+ String (pretty_N_char (x `mod` 10)) "").
    split; [by rewrite append_assoc|].
    split; [rewrite all_digits_app, Hd; simpl; by rewrite Hc|].
    split; [rewrite int_go_app, Hv; simpl; rewrite Hn;
            pose proof (N.div_mod x 10 ltac:(done)); lia|].
    split; [lia|]. intros _.
    assert (x `div` 10 = 0 ∨ 0 < x `div` 10)%N as [Hs|Hl] by lia.
    + rewrite (H0 Hs). eexists _, _. split; [done|]. apply Hz.
      pose proof (N.div_mod x 10 ltac:(done)). lia.
    + destruct (Hpos Hl) as (c & d' & -> & Hc'). by eexists _, _.
Qed.

Lemma pretty_N_decimal x :
  Str.all_chars Str.is_digit (pretty x) = true
  ∧ semver.numeric (pretty x) = Some x.
Proof.
  unfold pretty, pretty_N. case_decide as Hx; [by subst|].
  destruct (pretty_N_go_decimal x "") as (d & -> & Hd & Hv & _ & Hpos).
  rewrite append_nil_r. split; [done|].
  destruct Hpos as (c & d' & -> & Hc); [lia|].
  rewrite <-Hv. unfold semver.numeric.
  destruct c as [[] [] [] [] [] [] [] []]; try done.
Qed.

Lemma digits_run d rest :
  Str.all_chars Str.is_digit d = true → re.digits rest = ("", rest) →
  re.digits (d +:+ rest) = (d, rest).
Proof.
  intros Hd Hr. induction d as [|c d IH]; [done|].
  simpl in Hd. apply andb_true_iff in Hd as [Hc Hd].
  rewrite append_cons. simpl. by rewrite Hc, IH.
Qed.

Lemma digits_dot rest : re.digits (String "." rest) = ("", String "." rest).
Proof. done. Qed.

Lemma version_at_runs d1 d2 d3 after :
  Str.all_chars Str.is_digit d1 = true →
  Str.all_chars Str.is_digit d2 = true →
  Str.all_chars Str.is_digit d3 = true →
  re.digits after = ("", after) →
  re.version_at (d1 +:+ String "." (d2 +:+ String "." (d3 +:+ after)))
  = Some (d1, d2, d3).
Proof.
  intros H1 H2 H3 Ha. unfold re.version_at.
  rewrite (digits_run d1) by done. cbv beta iota.
  rewrite (digits_run d2) by done. cbv beta iota.
  by rewrite (digits_run d3) by done.
Qed.

Lemma search_skip before rest :
  Str.contains_char "v" before = false →
  re.search (before +:+ rest) = re.search rest.
Proof.
  intros Hb. induction before as [|c before IH]; [done|].
  simpl in Hb. apply orb_false_iff in Hb as [Hc Hb].
  rewrite append_cons. simpl. rewrite Hc. auto.
Qed.

Lemma search_none s : Str.contains_char "v" s = false → re.search s = None.
Proof.
  intros Hs. rewrite <-(append_nil_r s). by rewrite search_skip.
Qed.
End decimal.

(** X15: [validate_kind_version] on the output of [kind version].  When the
    command fails it raises [Exit] with the hint to install kind.  When
    the output has no [v], [re.search] finds nothing and [.group] raises
    [AttributeError].  When the first [v] of the output begins
    [v<major>.<minor>.<patch>] in decimal, the version is compared number
    by number with 0.9.0: [Exit] for a version below, such as 0.8.1, and
    a normal return otherwise, so 0.10.0 and 0.11.1 are accepted. *)
Theorem validate_kind_version_spec (w : World) :
  (∀ text,
     shell w "kind version" = inr text →
     validate_kind_version w
     = (record (Ran "kind version") w,
        Raised (Exit "Could not determine kind version (is kind installed?)")))
  ∧ (∀ stdout,
       shell w "kind version" = inl stdout →
       Str.contains_char "v" stdout = false →
       validate_kind_version w = (record (Ran "kind version") w, RaisedAttributeError))
  ∧ (∀ before (major minor patch : N) after,
       shell w "kind version"
       = inl (before +:+ "v" +:+ pretty major +:+ "." +:+ pretty minor +:+ "."
              +:+ pretty patch +:+ after) →
       Str.contains_char "v" before = false →
       re.digits after = ("", after) →
       validate_kind_version w
       = (record (Ran "kind version") w,
          if bool_decide (major = 0 ∧ minor < 9)%N
          then Raised (Exit "kind version >= 0.9.0 required")
          else Returned)).
Proof.
  unfold validate_kind_version, try_Exception, run.
  change (shell (record (Ran "kind version") w)) with (shell w).
  split; [by intros text ->|]. split.
  - intros stdout -> Hv. by rewrite search_none.
  - intros before major minor patch after -> Hb Ha.
    rewrite search_skip by done.
    destruct (pretty_N_decimal major) as [Hd1 Hn1].
    destruct (pretty_N_decimal minor) as [Hd2 Hn2].
    destruct (pretty_N_decimal patch) as [Hd3 Hn3].
    assert (re.search ("v" +:+ pretty major +:+ "." +:+ pretty minor +:+ "."
                       +:+ pretty patch +:+ after)
            = Some (pretty major, pretty minor, pretty patch)) as ->.
    { change (re.search (String "v" (pretty major +:+ String "."
                (pretty minor +:+ String "." (pretty patch +:+ after))))
              = Some (pretty major, pretty minor, pretty patch)).
      cbn [re.search Ascii.eqb]. simpl Bool.eqb. cbv beta iota.
      by rewrite version_at_runs. }
    unfold semver.compare, semver.parse, min_version.
    rewrite Hn1, Hn2, Hn3. cbn [semver.numeric mbind outcome_bind].
    change (semver.int_go 0 "9") with 9%N. unfold semver.cmp.
    destruct (N.compare_spec major 0), (N.compare_spec minor 9),
      (N.compare_spec patch 0);
      repeat case_decide; try done; repeat case_bool_decide; try done; lia.
Qed.

Lemma validate_kind_version_spec_witness :
  validate_kind_version
    (MkWorld "/src" ∅ ∅ (λ _, inl "kind v0.11.1 go1.16.4 linux/amd64") [])
  = (record (Ran "kind version")
       (MkWorld "/src" ∅ ∅ (λ _, inl "kind v0.11.1 go1.16.4 linux/amd64") []),
     Returned).
Proof.
  apply (proj2 (proj2 (validate_kind_version_spec
                         (MkWorld "/src" ∅ ∅
                            (λ _, inl "kind v0.11.1 go1.16.4 linux/amd64") [])))
           "kind " 0%N 11%N 1%N " go1.16.4 linux/amd64");
    vm_compute; reflexivity.
Defined.


Section cleanup.
Implicit Types (w : World) (name : string).

Lemma validate_kind_version_world w :
  (validate_kind_version w).1 = record (Ran "kind version") w.
Proof.
  unfold validate_kind_version, try_Exception, run.
  change (shell (record (Ran "kind version") w)) with (shell w).
  destruct (shell w "kind version") as [stdout|text]; [|done].
  destruct (re.search stdout) as [v|]; [|done].
  destruct (semver.compare v min_version) as [delta|e]; [|done].
  by case_bool_decide.
Qed.

Lemma validate_kind_version_shell w w' :
  shell w' = shell w → (validate_kind_version w').2 = (validate_kind_version w).2.
Proof.
  intros Hs. unfold validate_kind_version, try_Exception, run.
  change (shell (record (Ran "kind version") w)) with (shell w).
  change (shell (record (Ran "kind version") w')) with (shell w').
  rewrite Hs.
  destruct (shell w "kind version") as [stdout|text]; [|done].
  destruct (re.search stdout) as [v|]; [|done].
  destruct (semver.compare v min_version) as [delta|e]; [|done].
  by case_bool_decide.
Qed.

Lemma run_rm_f_config_ok dev_env_dir stdout w :
  shell w (rm_f_config dev_env_dir) = inl stdout →
  run_rm_f_config dev_env_dir w
  = (set_files (delete (dev_env_dir +:+ "/config.yaml") (files w))
       (record (Ran (rm_f_config dev_env_dir)) w),
     Return stdout).
Proof.
  intros H. unfold run_rm_f_config.
  by erewrite bind_run by (by apply run_ok).
Qed.

Lemma dev_env_cleanup_run name w clusters :
  (∀ command, ∃ stdout, shell w command = inl stdout) →
  (validate_kind_version w).2 = Returned →
  shell w "kind get clusters" = inl clusters →
  name ∈ splitlines (Str.strip clusters) →
  dev_env_cleanup name w
  = (MkWorld (cwd w) (cleaned w)
       (filter (λ p, ¬ below (bgp_dir w +:+ "/frr-volume") p) (dirs w))
       (shell w)
       (log w ++ [Ran "kind version"; Ran "kind get clusters"; Ran (kind_delete name);
                  Ran remove_frr; Ran (rm_rf (bgp_dir w +:+ "/frr-volume"));
                  Ran (rm_f_config (bgp_dir w)); Ran (rm_f_config (layer2_dir w))]),
     Returned).
Proof.
  intros commands Hv Hc Hn.
  destruct (commands (kind_delete name)) as [o1 H1].
  destruct (commands remove_frr) as [o2 H2].
  destruct (commands (rm_rf (bgp_dir w +:+ "/frr-volume"))) as [o3 H3].
  destruct (commands (rm_f_config (bgp_dir w))) as [o4 H4].
  destruct (commands (rm_f_config (layer2_dir w))) as [o5 H5].
  unfold dev_env_cleanup.
  pose proof (validate_kind_version_world w) as Hw.
  destruct (validate_kind_version w) as [w1 e]. simpl in Hv, Hw. subst e w1.
  erewrite bind_run by (by apply run_ok). cbv zeta. world.
  rewrite bool_decide_true by done.
  erewrite bind_run by (by erewrite bind_run by (by apply run_ok)). world.
  erewrite bind_run by (by apply run_ok). world.
  erewrite bind_run by done. cbn [cwd].
  erewrite bind_run by (by apply run_rm_rf_ok). world.
  erewrite bind_run by (by apply run_rm_f_config_ok). world.
  erewrite bind_run by done. cbn [cwd].
  erewrite bind_run by (by apply run_rm_f_config_ok). world.
  unfold mret, task_ret, ending_of, cleaned, bgp_dir, layer2_dir.
  by rewrite <-!app_assoc.
Qed.
End cleanup.

Lemma checks_remove_nothing (name : string) (w : World) (ran : list event) :
  ran `prefix_of` [Ran "kind version"; Ran "kind get clusters"; Ran (kind_delete name)] →
  Forall (λ e, e ∉ removals w) ran.
Proof.
  intros [rest E].
  assert (Forall (λ e, e ∉ removals w)
            [Ran "kind version"; Ran "kind get clusters"; Ran (kind_delete name)]) as H.
  { unfold removals, remove_frr, rm_rf, rm_f_config, kind_delete.
    repeat constructor; set_unfold; intros [H|[H|[H|[H|[]]]]]; simpl in H;
      discriminate H. }
  rewrite E in H. by apply Forall_app in H as [H _].
Qed.

(** X16: [dev_env_cleanup] removes nothing unless the version of kind was
    accepted, the cluster of that name was listed and its deletion
    succeeded: in every other case it stops during these three commands,
    so what it ran is a prefix of them, none of its removals has run, and
    the files and directories are those it started with. *)
Theorem dev_env_cleanup_guarded (name : string) (w : World) :
  (files (dev_env_cleanup name w).1 = files w
   ∧ dirs (dev_env_cleanup name w).1 = dirs w
   ∧ ∃ ran,
       log (dev_env_cleanup name w).1 = log w ++ ran
       ∧ ran `prefix_of` [Ran "kind version"; Ran "kind get clusters";
                          Ran (kind_delete name)]
       ∧ Forall (λ e, e ∉ removals w) ran)
  ∨ ((validate_kind_version w).2 = Returned
     ∧ ∃ clusters stdout,
         shell w "kind get clusters" = inl clusters
         ∧ name ∈ splitlines (Str.strip clusters)
         ∧ shell w (kind_delete name) = inl stdout).
Proof.
  assert (∀ w' ran,
    files w' = files w → dirs w' = dirs w → log w' = log w ++ ran →
    ran `prefix_of` [Ran "kind version"; Ran "kind get clusters";
                     Ran (kind_delete name)] →
    files w' = files w ∧ dirs w' = dirs w
    ∧ ∃ ran, log w' = log w ++ ran
        ∧ ran `prefix_of` [Ran "kind version"; Ran "kind get clusters";
                           Ran (kind_delete name)]
        ∧ Forall (λ e, e ∉ removals w) ran) as Hstop.
  { intros w' ran Hf Hd Hl Hp. split; [done|]. split; [done|].
    exists ran. eauto using checks_remove_nothing. }
  unfold dev_env_cleanup.
  pose proof (validate_kind_version_world w) as Hw.
  destruct (validate_kind_version w) as [w1 e]. simpl in Hw. subst w1.
  destruct e;
    [|left; apply (Hstop _ [Ran "kind version"]); try done; by eexists..].
  destruct (shell w "kind get clusters") as [clusters|text] eqn:Hc.
  2:{ left. erewrite bind_raise by (by apply run_failed). cbn [ending_of fst].
      apply (Hstop _ [Ran "kind version"; Ran "kind get clusters"]); try done.
      - simpl. by rewrite <-app_assoc.
      - by eexists. }
  erewrite bind_run by (by apply run_ok). cbv zeta.
  case_bool_decide as Hn.
  2:{ left. erewrite bind_raise by done. cbn [ending_of fst].
      apply (Hstop _ [Ran "kind version"; Ran "kind get clusters"]); try done.
      - simpl. by rewrite <-app_assoc.
      - by eexists. }
  destruct (shell w (kind_delete name)) as [stdout|text] eqn:Hd.
  2:{ left.
      erewrite bind_raise
        by (by erewrite bind_raise by (by apply run_failed)).
      cbn [ending_of fst].
      apply (Hstop _ [Ran "kind version"; Ran "kind get clusters";
                      Ran (kind_delete name)]); try done.
      simpl. by rewrite <-!app_assoc. }
  right. split; [done|]. by exists clusters, stdout.
Qed.

(** X17: [dev_env_cleanup] after a successful [bgp_dev_env], when every
    command succeeds, kind is recent enough and the cluster is listed:
    the volume and all in it are gone, so is either [config.yaml], and
    every other file is as it was before [bgp_dev_env]. *)
Theorem dev_env_cleanup_undoes_bgp (w : World) (name clusters : string)
    (nodes peer_address zebra daemons vtysh bgpd_template mlb_template : string) :
  bgp_ready w nodes peer_address zebra daemons vtysh bgpd_template mlb_template →
  (validate_kind_version w).2 = Returned →
  shell w "kind get clusters" = inl clusters →
  name ∈ splitlines (Str.strip clusters) →
  (dev_env_cleanup name (bgp_dev_env w).1).2 = Returned
  ∧ (∀ path,
       files (dev_env_cleanup name (bgp_dev_env w).1).1 !! path
       = if below (bgp_dir w +:+ "/frr-volume") path then None
         else if decide (path = bgp_dir w +:+ "/config.yaml"
                         ∨ path = layer2_dir w +:+ "/config.yaml") then None
         else files w !! path)
  ∧ dirs (dev_env_cleanup name (bgp_dev_env w).1).1
    = filter (λ p, ¬ below (bgp_dir w +:+ "/frr-volume") p) (dirs w).
Proof.
  intros Hready Hv Hc Hn.
  rewrite (bgp_ready_run _ _ _ _ _ _ _ _ Hready). cbn [fst].
  set (w1 := MkWorld _ _ _ _ _).
  assert (shell w1 = shell w) as Hs by done.
  rewrite (dev_env_cleanup_run name w1 clusters).
  2:{ intros command. rewrite Hs. apply Hready. }
  2:{ by rewrite (validate_kind_version_shell w w1). }
  2:{ by rewrite Hs. }
  2:{ done. }
  cbn [fst snd files dirs].
  change (bgp_dir w1) with (bgp_dir w). change (layer2_dir w1) with (layer2_dir w).
  split; [done|]. split.
  - intros path. unfold cleaned.
    change (bgp_dir w1) with (bgp_dir w). change (layer2_dir w1) with (layer2_dir w).
    change (files w1)
      with (bgp_files w nodes peer_address zebra daemons vtysh bgpd_template
              mlb_template).
    set (vol := bgp_dir w +:+ "/frr-volume").
    destruct (below vol path) eqn:Hb.
    + destruct (decide (path = layer2_dir w +:+ "/config.yaml")) as [->|];
        [by rewrite lookup_delete_eq|rewrite lookup_delete_ne by done].
      destruct (decide (path = bgp_dir w +:+ "/config.yaml")) as [->|];
        [by rewrite lookup_delete_eq|rewrite lookup_delete_ne by done].
      apply map_lookup_filter_None. right. intros x _ Hnb. apply Hnb. simpl.
      by rewrite Hb.
    + case_decide as Hp.
      * destruct (decide (path = layer2_dir w +:+ "/config.yaml")) as [->|];
          [by rewrite lookup_delete_eq|rewrite lookup_delete_ne by done].
        destruct Hp as [->|?]; [|done]. by rewrite lookup_delete_eq.
      * rewrite !lookup_delete_ne by (intros <-; tauto).
        pose proof (bgp_files_lookup w nodes peer_address zebra daemons vtysh
                      bgpd_template mlb_template path) as Hl.
        fold vol in Hl. rewrite Hb in Hl.
        rewrite decide_False in Hl by tauto.
        destruct (files w !! path) as [content|] eqn:Hf.
        -- apply map_lookup_filter_Some. split; [done|]. simpl. rewrite Hb.
           by intros ?.
        -- apply map_lookup_filter_None. by left.
  - change (dirs w1)
      with ({[bgp_dir w +:+ "/frr-volume"]}
            ∪ filter (λ p, ¬ below (bgp_dir w +:+ "/frr-volume") p) (dirs w)).
    apply set_eq. intros p. rewrite !elem_of_filter, elem_of_union, elem_of_singleton,
      elem_of_filter.
    split; [intros [Hb [->|[_ ?]]]; [by rewrite below_self in Hb|done]|].
    intros [? ?]. auto.
Qed.

Lemma cluster_world_ready :
  bgp_ready cluster_world
    ("10.0.0.2 10.0.0.3 10.0.0.4" +:+ Str.nl) ("172.18.0.5" +:+ Str.nl)
    "hostname frr" "bgpd=yes" "service integrated-vtysh-config"
    "neighbor NODE0_IP peer-group; neighbor NODE1_IP, NODE2_IP"
    "peer-address: PEER_ADDRESS".
Proof.
  destruct sample_world_ready as (Hc & _ & _ & _ & Hf & Hrest).
  split; [|split; [vm_compute; reflexivity|split; [vm_compute; reflexivity|
    split; [vm_compute; reflexivity|split; [exact Hf|exact Hrest]]]]].
  intros command. unfold cluster_world, cluster_shell. simpl.
  repeat case_bool_decide; eauto. apply Hc.
Qed.

Lemma dev_env_cleanup_undoes_bgp_witness :
  (dev_env_cleanup "kind" (bgp_dev_env cluster_world).1).2 = Returned
  ∧ (∀ path,
       files (dev_env_cleanup "kind" (bgp_dev_env cluster_world).1).1 !! path
       = if below (bgp_dir cluster_world +:+ "/frr-volume") path then None
         else if decide (path = bgp_dir cluster_world +:+ "/config.yaml"
                         ∨ path = layer2_dir cluster_world +:+ "/config.yaml") then None
         else files cluster_world !! path)
  ∧ dirs (dev_env_cleanup "kind" (bgp_dev_env cluster_world).1).1
    = filter (λ p, ¬ below (bgp_dir cluster_world +:+ "/frr-volume") p)
        (dirs cluster_world).
Proof.
  apply (dev_env_cleanup_undoes_bgp cluster_world "kind" ("kind" +:+ Str.nl)
           ("10.0.0.2 10.0.0.3 10.0.0.4" +:+ Str.nl) ("172.18.0.5" +:+ Str.nl)
           "hostname frr" "bgpd=yes" "service integrated-vtysh-config"
           "neighbor NODE0_IP peer-group; neighbor NODE1_IP, NODE2_IP"
           "peer-address: PEER_ADDRESS");
    [apply cluster_world_ready|vm_compute; reflexivity|vm_compute; reflexivity|].
  vm_compute. set_solver.
Defined.

